(** * Stock data agent: ingestion, flat CSV store, period queries, freshness

    A shallow embedding of the [StockDataAgent] class (the CSV-backed stock
    ingestion agent of the backend) and the properties of its specification.

    Conventions of the embedding.
    - JavaScript strings are [string]s of bytes; [trim] and [toUpperCase]
      act on the ASCII range (tickers, dates, headers and numbers are ASCII).
    - JavaScript numbers that hold prices are IEEE-754 doubles: [float].
      Counters, delays, attempts and time values are integers far below
      2^53 and are modelled in [Z]; a NaN integer is [None] in [option Z].
    - [async] functions are functions on an explicit [World]: the three
      paths the agent owns (data directory, table, sidecar), the clock, the
      trace of requests, sleeps and writes, and oracles for what the network
      answers and for which file-system call fails.  The clock advances by
      the sleeps; a file-system call that fails leaves the files as they
      are.
    - The recursion of the retry helper is bounded by a fuel; running out
      of it is the outcome [Diverge], which no [catch] sees.
    - What the engine and the libraries compute from text ([parseFloat] of
      a string, [Date] parsing and printing, the CSV line of a record) is a
      parameter of the agent; the sidecar's JSON text is represented by the
      value it denotes. *)

From Stdlib Require Import ZArith String Ascii List Floats QArith Lia Bool Sorted.
From stdpp Require Import gmap strings list.
Import ListNotations.

Local Open Scope string_scope.
Local Open Scope Z_scope.

(** ** JavaScript string primitives *)

Module Js.

(** White space removed by [String.prototype.trim] (ASCII part):
    TAB, LF, VT, FF, CR and SPACE. *)
Definition is_space (c : ascii) : bool :=
  let n := nat_of_ascii c in
  ((9 <=? n)%nat && (n <=? 13)%nat) || (n =? 32)%nat.

Fixpoint trimStart (s : string) : string :=
  match s with
  | EmptyString => EmptyString
  | String c r => if is_space c then trimStart r else s
  end.

Fixpoint trimEnd (s : string) : string :=
  match s with
  | EmptyString => EmptyString
  | String c r =>
      let r' := trimEnd r in
      if is_space c && String.eqb r' "" then EmptyString else String c r'
  end.

Definition trim (s : string) : string := trimEnd (trimStart s).

(** [s.split(sep)] for a one-character separator; the empty string splits
    into one empty piece. *)
Fixpoint split (sep : ascii) (s : string) : list string :=
  match s with
  | EmptyString => [EmptyString]
  | String c r =>
      if Ascii.eqb c sep then EmptyString :: split sep r
      else match split sep r with
           | h :: t => String c h :: t
           | [] => [String c EmptyString]
           end
  end.

Definition upper_ascii (c : ascii) : ascii :=
  let n := nat_of_ascii c in
  if ((97 <=? n)%nat && (n <=? 122)%nat) then ascii_of_nat (n - 32) else c.

Fixpoint toUpperCase (s : string) : string :=
  match s with
  | EmptyString => EmptyString
  | String c r => String (upper_ascii c) (toUpperCase r)
  end.

(** Truthiness of a possibly undefined string: [undefined] and [""] are
    falsy. *)
Definition truthy_str (o : option string) : bool :=
  match o with
  | Some s => negb (String.eqb s "")
  | None => false
  end.

(** [o || d] for a possibly undefined string [o]. *)
Definition or_str (o : option string) (d : string) : string :=
  if truthy_str o then default d o else d.

(** *** parseInt *)

Definition digit_val (radix : Z) (c : ascii) : option Z :=
  let n := Z.of_nat (nat_of_ascii c) in
  let v := if (48 <=? n) && (n <=? 57) then n - 48
           else if (97 <=? n) && (n <=? 122) then n - 87
           else if (65 <=? n) && (n <=? 90) then n - 55
           else 99 in
  if v <? radix then Some v else None.

(** Longest prefix of digits of [s], accumulated in [acc]; [seen] records
    whether at least one digit was read. *)
Fixpoint parse_digits (radix : Z) (s : string) (acc : Z) (seen : bool)
  : option Z :=
  match s with
  | EmptyString => if seen then Some acc else None
  | String c r =>
      match digit_val radix c with
      | Some d => parse_digits radix r (radix * acc + d) true
      | None => if seen then Some acc else None
      end
  end.

Definition strip_sign (s : string) : Z * string :=
  match s with
  | String "-" r => (-1, r)
  | String "+" r => (1, r)
  | _ => (1, s)
  end.

(** [parseInt(s, 10)]; [None] is NaN. *)
Definition parseInt10 (s : string) : option Z :=
  let '(sg, r) := strip_sign (trimStart s) in
  match parse_digits 10 r 0 false with
  | Some n => Some (sg * n)
  | None => None
  end.

(** [parseInt(s)] without a radix: a [0x] or [0X] prefix selects base 16. *)
Definition parseInt (s : string) : option Z :=
  let '(sg, r) := strip_sign (trimStart s) in
  match r with
  | String "0" (String "x" h) | String "0" (String "X" h) =>
      match parse_digits 16 h 0 false with
      | Some n => Some (sg * n)
      | None => None
      end
  | _ =>
      match parse_digits 10 r 0 false with
      | Some n => Some (sg * n)
      | None => None
      end
  end.

(** *** Numbers *)

(** A number is falsy when it is [+0], [-0] or NaN. *)
Definition truthy (x : float) : bool :=
  negb (PrimFloat.is_zero x) && negb (PrimFloat.is_nan x).

(** [x || null] on a number. *)
Definition or_null (x : float) : option float :=
  if truthy x then Some x else None.

(** [a.slice(start)] where [start] may be NaN ([None]), negative (counted
    from the end) or past the end. *)
Definition slice_from {A} (start : option Z) (l : list A) : list A :=
  match start with
  | None => l
  | Some k =>
      let len := Z.of_nat (length l) in
      let from := if k <? 0 then Z.max (len + k) 0 else Z.min k len in
      drop (Z.to_nat from) l
  end.

(** [a.slice(0, stop)] for an integer [stop]. *)
Definition slice_to {A} (stop : Z) (l : list A) : list A :=
  let len := Z.of_nat (length l) in
  let to := if stop <? 0 then Z.max (len + stop) 0 else Z.min stop len in
  take (Z.to_nat to) l.

(** [Array.prototype.sort(cmp)]: the sort is stable, a comparator result
    [v > 0] puts the second argument first, and a NaN result counts as 0.
    For a consistent comparator the result of every conforming sort is the
    one of this stable insertion sort.  [cmp a b = None] is NaN. *)
Section Sort.
Context {A : Type} (cmp : A -> A -> option Z).

Definition after (a b : A) : bool :=
  match cmp a b with
  | Some v => 0 <? v
  | None => false
  end.

Fixpoint insert_sorted (x : A) (l : list A) : list A :=
  match l with
  | [] => [x]
  | y :: l' => if after x y then y :: insert_sorted x l' else x :: l
  end.

Fixpoint sort (l : list A) : list A :=
  match l with
  | [] => []
  | x :: l' => insert_sorted x (sort l')
  end.
End Sort.

(** Comparator of the default [sort()] on strings: code-unit order. *)
Definition compare_str (a b : string) : option Z :=
  match String.compare a b with
  | Lt => Some (-1)
  | Eq => Some 0
  | Gt => Some 1
  end.

End Js.

(** ** Data model *)

Module Company.
Record t := mk { symbol : string; name : string; sector : string }.
End Company.

(** One trading day of one symbol, as both adapters build it. [volume] is
    the result of [parseInt], NaN being [None]. *)
Module PriceRow.
Record t := mk {
  date : string;
  symbol : string;
  name : string;
  sector : string;
  open : float;
  high : float;
  low : float;
  close : float;
  volume : option Z;
  adjustedClose : float;
  priceChange : float;
  priceChangePercent : float
}.
End PriceRow.

(** The part of [process.env] the agent reads; an unset variable is [None]. *)
Module Env.
Record t := mk {
  ALPHA_VANTAGE_API_KEY : option string;
  STOCK_SYMBOLS : option string;
  STOCK_DAYS : option string;
  STOCK_FETCH_DELAY_MS : option string;
  STOCK_MAX_RETRIES : option string
}.
End Env.

(** The sidecar record [{lastUpdate, totalCompanies, dataPoints}].
    [lastUpdate] is the time value (ms since the epoch) whose
    [toISOString()] the file holds; [new Date(...)] of that string is the
    same time value. *)
Module UpdateInfo.
Record t := mk { lastUpdate : Z; totalCompanies : Z; dataPoints : Z }.
End UpdateInfo.

(** What [JSON.parse] makes of the sidecar's text: the record above, or
    some other JSON value, of which only the truthiness matters since its
    [lastUpdate] property does not denote a date. *)
Inductive Json :=
| JsonInfo (u : UpdateInfo.t)
| JsonOther (truthy : bool).

(** Content of the sidecar file: JSON text, represented by the value it
    denotes, or text that [JSON.parse] rejects. *)
Inductive MetaContent :=
| MetaJson (j : Json)
| MetaGarbage.

(** The persistent store: the data directory, the CSV table and the
    sidecar, each absent or present. *)
Module Store.
Record t := mk {
  dirExists : bool;
  csvFile : option string;
  metaFile : option MetaContent
}.
Definition empty : t := mk false None None.
End Store.

Inductive Path := CsvPath | LastUpdatePath.

(** *** Provider payloads *)

(** One entry of ['Time Series (Daily)']: the six string fields, each
    possibly missing. *)
Module Daily.
Record t := mk {
  f_open : option string;       (* '1. open' *)
  f_high : option string;       (* '2. high' *)
  f_low : option string;        (* '3. low' *)
  f_close : option string;      (* '4. close' *)
  f_adjusted : option string;   (* '5. adjusted close' *)
  f_volume : option string      (* '6. volume' *)
}.
End Daily.

(** [res.data || {}] of the primary provider. [TimeSeries] is [None] when
    the key is missing or falsy; a day whose value is [null] is [None]. *)
Module Alpha.
Record params := mkParams {
  function : string;
  symbol : string;
  outputsize : string;
  apikey : option string
}.
Record data := mkData {
  Note : option string;
  ErrorMessage : option string;
  TimeSeries : option (list (string * option Daily.t))
}.
End Alpha.

(** The chart payload of the fallback provider. Array entries are JSON
    numbers or [null]. *)
Module Yahoo.
Record quote := mkQuote {
  q_open : option (list (option float));
  q_high : option (list (option float));
  q_low : option (list (option float));
  q_close : option (list (option float));
  q_volume : option (list (option Z))
}.
(** [result.indicators.quote[0]]: evaluating it raises a TypeError
    ([indicators] or [quote] missing), or yields [undefined], or an
    object. *)
Inductive quoteSlot :=
| QuoteTypeError
| QuoteUndefined
| QuoteObject (q : quote).
Record result := mkResult {
  quote0 : quoteSlot;
  timestamp : option (list (option Z))
}.
(** [None]: [data.chart.result[0]] is not there. *)
Definition data := option result.
End Yahoo.

Inductive HttpResult (A : Type) :=
| HttpOk (body : A)
| HttpErr (message : string).
Arguments HttpOk {A} body.
Arguments HttpErr {A} message.

(** *** The world *)

Inductive Event :=
| EvAlpha (p : Alpha.params)
| EvYahoo (symbol range : string)
| EvSleep (ms : option Z)
| EvCsvWrite (append : bool) (records : nat)
| EvMetaWrite.

Module World.
Record t := mk {
  store : Store.t;
  now : Z;                       (* the clock, ms since the epoch *)
  fsFault : nat -> bool;         (* does the k-th file-system call fail *)
  fsOps : nat;                   (* file-system calls made so far *)
  alphaNet : nat -> Alpha.params -> HttpResult Alpha.data;
  yahooNet : nat -> string -> string -> HttpResult Yahoo.data;
  netOps : nat;                  (* HTTP requests made so far *)
  trace : list Event             (* what happened, oldest first *)
}.

Definition with_store (s : Store.t) (w : t) : t :=
  mk s (now w) (fsFault w) (fsOps w) (alphaNet w) (yahooNet w) (netOps w) (trace w).
Definition with_now (n : Z) (w : t) : t :=
  mk (store w) n (fsFault w) (fsOps w) (alphaNet w) (yahooNet w) (netOps w) (trace w).
Definition tick_fs (w : t) : t :=
  mk (store w) (now w) (fsFault w) (S (fsOps w)) (alphaNet w) (yahooNet w) (netOps w) (trace w).
Definition tick_net (w : t) : t :=
  mk (store w) (now w) (fsFault w) (fsOps w) (alphaNet w) (yahooNet w) (S (netOps w)) (trace w).
Definition log (e : Event) (w : t) : t :=
  mk (store w) (now w) (fsFault w) (fsOps w) (alphaNet w) (yahooNet w) (netOps w) (trace w ++ [e]).
End World.

(** ** The monad of [async] code

    A computation runs on the world and returns a value, throws, or does
    not finish within the recursion budget ([Diverge]); [try_catch] catches
    what is thrown, never [Diverge]. *)

Inductive Outcome (A : Type) :=
| Return (a : A)
| Throw (message : string)
| Diverge.
Arguments Return {A} a.
Arguments Throw {A} message.
Arguments Diverge {A}.

Definition M (A : Type) : Type := World.t -> Outcome A * World.t.

Definition ret {A} (a : A) : M A := fun w => (Return a, w).
Definition throw {A} (msg : string) : M A := fun w => (Throw msg, w).
Definition diverge {A} : M A := fun w => (Diverge, w).

Definition bind {A B} (m : M A) (f : A -> M B) : M B :=
  fun w =>
    match m w with
    | (Return a, w1) => f a w1
    | (Throw e, w1) => (Throw e, w1)
    | (Diverge, w1) => (Diverge, w1)
    end.

Definition try_catch {A} (m : M A) (handler : string -> M A) : M A :=
  fun w =>
    match m w with
    | (Throw e, w1) => handler e w1
    | r => r
    end.

Declare Scope js_scope.
Delimit Scope js_scope with js.
Notation "x <- m ;; k" := (bind m (fun x => k))
  (at level 100, m at next level, right associativity) : js_scope.
Notation "m ;;; k" := (bind m (fun _ => k))
  (at level 100, right associativity) : js_scope.
Local Open Scope js_scope.

Definition get {A} (f : World.t -> A) : M A := fun w => (Return (f w), w).
Definition modify (f : World.t -> World.t) : M unit := fun w => (Return tt, f w).

(** *** Timers, file system, network *)

(** The delay a timer really waits: out of [1 .. 2^31-1] (or NaN) it is 1. *)
Definition timer_delay (ms : option Z) : Z :=
  match ms with
  | Some d => if (1 <=? d) && (d <=? 2147483647) then d else 1
  | None => 1
  end.

(** [sleep(ms)]. *)
Definition sleep (ms : option Z) : M unit :=
  modify (fun w => World.with_now (World.now w + timer_delay ms) (World.log (EvSleep ms) w)).

(** [new Date()], as a time value. *)
Definition Date_now : M Z := get World.now.

(** Every file-system call consumes one answer of the fault oracle; a
    failing call changes nothing in the store. *)
Definition fs_call : M unit :=
  fun w =>
    let w1 := World.tick_fs w in
    if World.fsFault w (World.fsOps w) then (Throw "EIO", w1) else (Return tt, w1).

Definition present (p : Path) (s : Store.t) : bool :=
  match p with
  | CsvPath => match Store.csvFile s with Some _ => true | None => false end
  | LastUpdatePath => match Store.metaFile s with Some _ => true | None => false end
  end.

(** [fs.mkdir(dataDir, {recursive: true})]. *)
Definition mkdir : M unit :=
  fs_call ;;;
  modify (fun w =>
    let s := World.store w in
    World.with_store (Store.mk true (Store.csvFile s) (Store.metaFile s)) w).

(** [fs.access(path)]. *)
Definition access (p : Path) : M unit :=
  fs_call ;;;
  s <- get World.store ;;
  if present p s then ret tt else throw "ENOENT".

(** [fs.readFile(csvPath, 'utf-8')]. *)
Definition readCsv : M string :=
  fs_call ;;;
  s <- get World.store ;;
  match Store.csvFile s with
  | Some text => ret text
  | None => throw "ENOENT"
  end.

(** [fs.readFile(lastUpdatePath, 'utf-8')]. *)
Definition readMeta : M MetaContent :=
  fs_call ;;;
  s <- get World.store ;;
  match Store.metaFile s with
  | Some c => ret c
  | None => throw "ENOENT"
  end.

(** [fs.writeFile(lastUpdatePath, JSON.stringify(updateInfo, null, 2))]. *)
Definition writeMeta (u : UpdateInfo.t) : M unit :=
  fs_call ;;;
  s <- get World.store ;;
  if Store.dirExists s then
    modify (fun w =>
      World.log EvMetaWrite
        (World.with_store
           (Store.mk true (Store.csvFile s) (Some (MetaJson (JsonInfo u)))) w))
  else throw "ENOENT".

(** [JSON.parse(content)]. *)
Definition JSON_parse (c : MetaContent) : M Json :=
  match c with
  | MetaJson j => ret j
  | MetaGarbage => throw "SyntaxError"
  end.

(** [axios.get] on the primary endpoint: the log line, then the request. *)
Definition axios_get_alpha (p : Alpha.params) : M Alpha.data :=
  fun w =>
    let w1 := World.tick_net (World.log (EvAlpha p) w) in
    match World.alphaNet w (World.netOps w) p with
    | HttpOk d => (Return d, w1)
    | HttpErr e => (Throw e, w1)
    end.

(** [axios.get] on the chart endpoint. *)
Definition axios_get_yahoo (symbol range : string) : M Yahoo.data :=
  fun w =>
    let w1 := World.tick_net (World.log (EvYahoo symbol range) w) in
    match World.yahooNet w (World.netOps w) symbol range with
    | HttpOk d => (Return d, w1)
    | HttpErr e => (Throw e, w1)
    end.

(** ** The agent *)

Module Agent.
Record t := mk {
  companies : list Company.t;
  days : option Z               (* parseInt(STOCK_DAYS || '30', 10) *)
}.
End Agent.

Module Counters.
Record t := mk { successCount : Z; errorCount : Z; totalRows : Z }.
End Counters.

(** A point of [priceHistory]; [date] is the time value of the [Date]
    object, [None] for an invalid date. *)
Module PricePoint.
Record t := mk {
  date : option Z;
  open : float;
  high : float;
  low : float;
  close : float;
  volume : option Z;
  adjustedClose : float
}.
End PricePoint.

Module Summary.
Record t := mk {
  symbol : string;
  name : option string;
  sector : option string;
  currentPrice : float;
  previousClose : float;
  priceHistory : list PricePoint.t
}.
End Summary.

Definition defaultCompanies : list Company.t :=
  [ Company.mk "AAPL" "Apple Inc." "Technology";
    Company.mk "MSFT" "Microsoft Corporation" "Technology";
    Company.mk "GOOGL" "Alphabet Inc." "Technology";
    Company.mk "AMZN" "Amazon.com Inc." "Consumer Cyclical";
    Company.mk "TSLA" "Tesla Inc." "Consumer Cyclical";
    Company.mk "NVDA" "NVIDIA Corporation" "Technology";
    Company.mk "META" "Meta Platforms Inc." "Technology";
    Company.mk "JNJ" "Johnson & Johnson" "Healthcare";
    Company.mk "JPM" "JPMorgan Chase & Co." "Financial Services";
    Company.mk "V" "Visa Inc." "Financial Services";
    Company.mk "ADANIENT.NS" "Adani Enterprises Ltd" "Industrials";
    Company.mk "RELIANCE.NS" "Reliance Industries Ltd" "Energy";
    Company.mk "TCS.NS" "Tata Consultancy Services Ltd" "Technology";
    Company.mk "INFY.NS" "Infosys Ltd" "Technology";
    Company.mk "HDFCBANK.NS" "HDFC Bank Ltd" "Financial Services" ].

Definition constructor (env : Env.t) : Agent.t :=
  Agent.mk
    (if Js.truthy_str (Env.STOCK_SYMBOLS env) then
       map (fun s => let sym := Js.toUpperCase (Js.trim s) in
                     Company.mk sym sym "Unknown")
           (Js.split "," (default "" (Env.STOCK_SYMBOLS env)))
     else defaultCompanies)
    (Js.parseInt10 (Js.or_str (Env.STOCK_DAYS env) "30")).

Definition lift {A} (o : Outcome A) : M A := fun w => (o, w).

Definition csvHeader : string :=
  "Date,Symbol,Name,Sector,Open,High,Low,Close,Volume,AdjustedClose,PriceChange,PriceChangePercent".

Definition newline : string := String (ascii_of_nat 10) EmptyString.

(** [attempt >= maxAttempts], false when [maxAttempts] is NaN. *)
Definition ge_num (attempt : Z) (maxAttempts : option Z) : bool :=
  match maxAttempts with
  | Some m => m <=? attempt
  | None => false
  end.

(** [-(n)]. *)
Definition neg_num (n : option Z) : option Z := Z.opp <$> n.

(** [parseFloat] of a JSON number or [null]: the number itself ([-0] reads
    back as [0]), NaN for [null] and [undefined]. *)
Definition parseFloat_num (v : option float) : float :=
  match v with
  | Some x => if PrimFloat.is_zero x then 0%float else x
  | None => nan
  end.

(** [arr?.[i]] for an array of numbers or nulls that may be missing. *)
Definition at_index {A} (arr : option (list (option A))) (i : nat) : option A :=
  match arr with
  | Some l => mjoin (l !! i)
  | None => None
  end.

(** [open ? (change / open) * 100 : 0]. *)
Definition percent (open change : float) : float :=
  if Js.truthy open then ((change / open) * 100)%float else 0%float.

(** Time values a [Date] can hold. *)
Definition valid_time (ms : Z) : bool :=
  (-8640000000000000 <=? ms) && (ms <=? 8640000000000000).

Fixpoint assoc {V} (k : string) (l : list (string * V)) : option V :=
  match l with
  | [] => None
  | (k', v) :: l' => if String.eqb k k' then Some v else assoc k l'
  end.

Section AgentCode.

(** The engine and library functions taken as they are:
    [parseFloat] on a string, [new Date(string).getTime()] ([None] for an
    invalid date), [new Date(ms).toISOString().slice(0, 10)], and the line
    the CSV writer makes of one record. *)
Variable parseFloat : string -> float.
Variable Date_parse : string -> option Z.
Variable toISODate : Z -> string.
Variable csvRecord : PriceRow.t -> string.

(** [parseFloat] of a possibly undefined string. *)
Definition parseFloatU (o : option string) : float :=
  match o with
  | Some s => parseFloat s
  | None => nan
  end.

Definition parseIntU (o : option string) : option Z :=
  match o with
  | Some s => Js.parseInt s
  | None => None
  end.

(** *** Persistent store *)

Definition fileExists (p : Path) : M bool :=
  try_catch (access p ;;; ret true) (fun _ => ret false).

(** [csvStringifier.stringifyRecords(rows)]: the lines of the records
    joined by the record delimiter, and one more delimiter at the end, also
    when there is no record at all. *)
Definition records (rows : list PriceRow.t) : string :=
  String.concat newline (map csvRecord rows) ++ newline.

(** [csvWriter.writeRecords(rows)]: with [append] the records go to the
    end of the file (created when absent, without a header); without it
    the file becomes the header line followed by the records.  Without
    rows, what is written after the header line is one line break. *)
Definition writeRecords (append : bool) (rows : list PriceRow.t) : M unit :=
  fs_call ;;;
  s <- get World.store ;;
  if Store.dirExists s then
    let old := if append then default "" (Store.csvFile s)
               else csvHeader ++ newline in
    modify (fun w =>
      World.log (EvCsvWrite append (length rows))
        (World.with_store
           (Store.mk true (Some (old ++ records rows)) (Store.metaFile s)) w))
  else throw "ENOENT".

Definition createInitialCsv : M unit := writeRecords false [].

Definition initialize : M unit :=
  try_catch
    (mkdir ;;;
     ex <- fileExists CsvPath ;;
     if negb ex then createInitialCsv else ret tt)
    (fun e => throw e).

Definition saveToCsv (stockData : list PriceRow.t) (append : bool) : M bool :=
  try_catch (writeRecords append stockData ;;; ret true) (fun e => throw e).

(** Lines of the table that are not blank. *)
Definition nonblank_lines (fileContent : string) : list string :=
  List.filter (fun line => negb (String.eqb (Js.trim line) ""))
              (Js.split (ascii_of_nat 10) fileContent).

Definition getDataPointCount : M Z :=
  try_catch
    (fileContent <- readCsv ;;
     ret (Z.max 0 (Z.of_nat (length (nonblank_lines fileContent)) - 1)))
    (fun _ => ret 0).

Definition updateLastUpdateTime (self : Agent.t) : M unit :=
  try_catch
    (t <- Date_now ;;
     n <- getDataPointCount ;;
     writeMeta (UpdateInfo.mk t (Z.of_nat (length (Agent.companies self))) n))
    (fun _ => ret tt).

(** *** Primary provider *)

(** The helper [callAlpha] of [fetchCompanyData]; [fuel] bounds the depth
    of its recursion. *)
Fixpoint callAlpha (fuel : nat) (env : Env.t) (params : Alpha.params)
    (attempt : Z) : M Alpha.data :=
  match fuel with
  | O => diverge
  | S fuel' =>
      let maxAttempts := Js.parseInt10 (Js.or_str (Env.STOCK_MAX_RETRIES env) "5") in
      let backoffSec := Z.min (60 * attempt) 180 in
      data <- axios_get_alpha params ;;
      if Js.truthy_str (Alpha.Note data) || Js.truthy_str (Alpha.ErrorMessage data) then
        if ge_num attempt maxAttempts then
          throw (Js.or_str (Alpha.Note data)
                   (Js.or_str (Alpha.ErrorMessage data) "Alpha Vantage error"))
        else
          sleep (Some (backoffSec * 1000)) ;;;
          callAlpha fuel' env params (attempt + 1)
      else ret data
  end.

Definition alphaRow (company : Company.t) (date : string) (d : Daily.t)
  : PriceRow.t :=
  let open := parseFloatU (Daily.f_open d) in
  let high := parseFloatU (Daily.f_high d) in
  let low := parseFloatU (Daily.f_low d) in
  let close := parseFloatU (Daily.f_close d) in
  let adj := parseFloatU (Daily.f_adjusted d) in
  let vol := parseIntU (Daily.f_volume d) in
  let priceChange := (close - open)%float in
  let priceChangePercent := percent open priceChange in
  PriceRow.mk date (Js.toUpperCase (Company.symbol company))
    (Company.name company) (Company.sector company)
    open high low close vol
    (if PrimFloat.is_nan adj then close else adj)
    priceChange priceChangePercent.

(** [dates.map(date => ...)]; reading a field of a [null] day throws. *)
Fixpoint alphaRows (company : Company.t)
    (ts : list (string * option Daily.t)) (dates : list string)
  : Outcome (list PriceRow.t) :=
  match dates with
  | [] => Return []
  | date :: rest =>
      match assoc date ts with
      | Some (Some d) =>
          match alphaRows company ts rest with
          | Return rows => Return (alphaRow company date d :: rows)
          | other => other
          end
      | _ => Throw "TypeError"
      end
  end.

(** *** Fallback provider *)

Definition yahooRange (days : option Z) : string :=
  match days with
  | Some d => if d <=? 5 then "5d" else if d <=? 30 then "1mo" else "3mo"
  | None => "3mo"
  end.

(** One turn of the loop over [timestamps]: [Return None] is [continue]. *)
Definition yahooRow (symbol : string) (q : Yahoo.quoteSlot) (i : nat)
    (stamp : option Z) : Outcome (option PriceRow.t) :=
  let ms := (match stamp with Some t => t | None => 0 end) * 1000 in
  if negb (valid_time ms) then Return None
  else
    match q with
    | Yahoo.QuoteObject quote =>
        let open := Js.or_null (parseFloat_num (at_index (Yahoo.q_open quote) i)) in
        let high := Js.or_null (parseFloat_num (at_index (Yahoo.q_high quote) i)) in
        let low := Js.or_null (parseFloat_num (at_index (Yahoo.q_low quote) i)) in
        let close := Js.or_null (parseFloat_num (at_index (Yahoo.q_close quote) i)) in
        let vol := default 0 (at_index (Yahoo.q_volume quote) i) in
        match open, close with
        | Some open, Some close =>
            let change := (close - open)%float in
            let pct := percent open change in
            Return (Some
              (PriceRow.mk (toISODate ms) (Js.toUpperCase symbol)
                 (Js.toUpperCase symbol) "Unknown"
                 open (default close high) (default close low) close
                 (Some vol) close change pct))
        | _, _ => Return None
        end
    | _ => Throw "TypeError"
    end.

Fixpoint yahooLoop (symbol : string) (q : Yahoo.quoteSlot) (i : nat)
    (stamps : list (option Z)) (rows : list PriceRow.t)
  : Outcome (list PriceRow.t) :=
  match stamps with
  | [] => Return rows
  | stamp :: rest =>
      match yahooRow symbol q i stamp with
      | Return (Some row) => yahooLoop symbol q (S i) rest (rows ++ [row])
      | Return None => yahooLoop symbol q (S i) rest rows
      | Throw e => Throw e
      | Diverge => Diverge
      end
  end.

Definition fetchFromYahoo (self : Agent.t) (symbol : string)
  : M (option (list PriceRow.t)) :=
  try_catch
    (let range := yahooRange (Agent.days self) in
     data <- axios_get_yahoo symbol range ;;
     match data with
     | None => ret None
     | Some result =>
         match Yahoo.quote0 result with
         | Yahoo.QuoteTypeError => throw "TypeError"
         | quote =>
             let timestamps := default [] (Yahoo.timestamp result) in
             rows <- lift (yahooLoop symbol quote 0 timestamps []) ;;
             ret (Some (Js.slice_from (neg_num (Agent.days self)) rows))
         end
     end)
    (fun _ => ret None).

(** *** Adapter with fallback *)

Definition fetchCompanyData (fuel : nat) (env : Env.t) (self : Agent.t)
    (company : Company.t) : M (option (list PriceRow.t)) :=
  try_catch
    (daily <- callAlpha fuel env
                (Alpha.mkParams "TIME_SERIES_DAILY_ADJUSTED"
                   (Company.symbol company) "compact"
                   (Env.ALPHA_VANTAGE_API_KEY env)) 1 ;;
     match Alpha.TimeSeries daily with
     | Some ts =>
         let dates := Js.slice_from (neg_num (Agent.days self))
                        (Js.sort Js.compare_str (map fst ts)) in
         rows <- lift (alphaRows company ts dates) ;;
         ret (Some rows)
     | None => fetchFromYahoo self (Company.symbol company)
     end)
    (fun _ =>
       try_catch (fetchFromYahoo self (Company.symbol company))
                 (fun _ => ret None)).

(** *** Bulk ingestion *)

(** The body of the [for] loop for one company, its own [try]/[catch]
    included, without the throttle. *)
Definition ingestOne (fuel : nat) (env : Env.t) (self : Agent.t)
    (company : Company.t) (c : Counters.t) : M Counters.t :=
  try_catch
    (stockData <- fetchCompanyData fuel env self company ;;
     match stockData with
     | Some ((_ :: _) as rows) =>
         saveToCsv rows true ;;;
         ret (Counters.mk (Counters.successCount c + 1)
                          (Counters.errorCount c)
                          (Counters.totalRows c + Z.of_nat (length rows)))
     | _ =>
         ret (Counters.mk (Counters.successCount c)
                          (Counters.errorCount c + 1)
                          (Counters.totalRows c))
     end)
    (fun _ =>
       ret (Counters.mk (Counters.successCount c)
                        (Counters.errorCount c + 1)
                        (Counters.totalRows c))).

(** The [for] loop, on the companies that remain. *)
Fixpoint ingestLoop (fuel : nat) (env : Env.t) (self : Agent.t)
    (perRequestDelayMs : option Z) (remaining : list Company.t)
    (c : Counters.t) : M Counters.t :=
  match remaining with
  | [] => ret c
  | company :: rest =>
      c' <- ingestOne fuel env self company c ;;
      (match rest with
       | [] => ret tt
       | _ :: _ => sleep perRequestDelayMs
       end) ;;;
      ingestLoop fuel env self perRequestDelayMs rest c'
  end.

Definition fetchAllStockData (fuel : nat) (env : Env.t) (self : Agent.t)
  : M Counters.t :=
  try_catch
    (if negb (Js.truthy_str (Env.ALPHA_VANTAGE_API_KEY env)) then
       throw "Alpha Vantage API key not configured"
     else
       let perRequestDelayMs :=
         Js.parseInt10 (Js.or_str (Env.STOCK_FETCH_DELAY_MS env) "15000") in
       c <- ingestLoop fuel env self perRequestDelayMs
              (Agent.companies self) (Counters.mk 0 0 0) ;;
       updateLastUpdateTime self ;;;
       ret c)
    (fun e => throw e).

(** *** Query engine *)

(** [headers.forEach((h, idx) => row[h.trim()] = values[idx] ? values[idx].trim() : '')]. *)
Definition parseRow (headers : list string) (line : string)
  : gmap string string :=
  let values := Js.split "," line in
  fold_left
    (fun (row : gmap string string) '(idx, h) =>
       <[Js.trim h :=
           match values !! idx with
           | Some v => if String.eqb v "" then "" else Js.trim v
           | None => ""
           end]> row)
    (imap (fun (idx : nat) (h : string) => (idx, h)) headers)
    (∅ : gmap string string).

(** [new Date(r.Date)] as a time value. *)
Definition rowDate (r : gmap string string) : option Z :=
  match r !! "Date" with
  | Some s => Date_parse s
  | None => None
  end.

(** [(a, b) => new Date(b.Date) - new Date(a.Date)]. *)
Definition byDateDesc (a b : gmap string string) : option Z :=
  match rowDate b, rowDate a with
  | Some tb, Some ta => Some (tb - ta)
  | _, _ => None
  end.

Definition daysToKeep (period : string) (len : nat) : Z :=
  if String.eqb period "1d" then 1
  else if String.eqb period "5d" then 5
  else if String.eqb period "1mo" then 30
  else if String.eqb period "3mo" then 90
  else if String.eqb period "6mo" then 180
  else if String.eqb period "1y" then 365
  else Z.of_nat len.

(** [filterByPeriod] sorts its argument in place: the first component is
    the argument after the call, the second the array returned. *)
Definition filterByPeriod (data : list (gmap string string)) (period : string)
  : list (gmap string string) * list (gmap string string) :=
  match data with
  | [] => (data, data)
  | _ :: _ =>
      let sortedData := Js.sort byDateDesc data in
      (sortedData, Js.slice_to (daysToKeep period (length data)) sortedData)
  end.

Definition pricePoint (r : gmap string string) : PricePoint.t :=
  PricePoint.mk (rowDate r)
    (parseFloatU (r !! "Open")) (parseFloatU (r !! "High"))
    (parseFloatU (r !! "Low")) (parseFloatU (r !! "Close"))
    (parseIntU (r !! "Volume")) (parseFloatU (r !! "AdjustedClose")).

(** The rows of [symbol] in the table. *)
Definition companyRows (fileContent symbol : string)
  : list (gmap string string) :=
  match nonblank_lines fileContent with
  | [] => []
  | head :: rest =>
      let headers := Js.split "," head in
      List.filter
        (fun r => bool_decide (r !! "Symbol" = Some (Js.toUpperCase symbol)))
        (map (parseRow headers) rest)
  end.

(** [getStockData] once the table has been read. *)
Definition summarize (fileContent symbol period : string) : Outcome Summary.t :=
  let lines := nonblank_lines fileContent in
  if (length lines <=? 1)%nat then
    Throw "Stock data file is empty or only contains headers"
  else
    match companyRows fileContent symbol with
    | [] => Throw ("No data found for symbol: " ++ symbol)
    | (_ :: _) as companyData =>
        let companyData := Js.sort byDateDesc companyData in
        let '(companyData, filteredData) := filterByPeriod companyData period in
        match companyData with
        | [] => Throw "TypeError"
        | first :: others =>
            Return
              (Summary.mk (Js.toUpperCase symbol)
                 (first !! "Name") (first !! "Sector")
                 (parseFloatU (first !! "Close"))
                 (match others with
                  | second :: _ => parseFloatU (second !! "Close")
                  | [] => parseFloatU (first !! "Close")
                  end)
                 (map pricePoint filteredData))
        end
    end.

Definition getStockData (symbol period : string) : M Summary.t :=
  try_catch
    (ex <- fileExists CsvPath ;;
     if negb ex then throw "Stock data file not found. Run bulk fetch first."
     else
       fileContent <- readCsv ;;
       lift (summarize fileContent symbol period))
    (fun e => throw e).

(** *** Freshness *)

Definition getLastUpdateInfo : M (option Json) :=
  try_catch
    (ex <- fileExists LastUpdatePath ;;
     if ex then
       content <- readMeta ;;
       j <- JSON_parse content ;;
       ret (Some j)
     else ret None)
    (fun _ => ret None).

(** [(now - lastUpdateTime) / (1000 * 60 * 60)]. *)
Definition hoursBetween (now lastUpdateTime : Z) : Q :=
  Qmake (now - lastUpdateTime) 3600000.

Definition needsUpdate : M bool :=
  try_catch
    (lastUpdate <- getLastUpdateInfo ;;
     match lastUpdate with
     | None | Some (JsonOther false) => ret true
     | Some (JsonOther true) => ret false       (* NaN > 24 *)
     | Some (JsonInfo u) =>
         now <- Date_now ;;
         let hoursSinceUpdate := hoursBetween now (UpdateInfo.lastUpdate u) in
         ret (negb (Qle_bool hoursSinceUpdate (inject_Z 24)))
     end)
    (fun _ => ret true).

End AgentCode.

(** ** Callers of the agent *)

(** What the history route answers: the summary, "not found", or a server
    error with its message. *)
Inductive Response :=
| Ok200 (data : Summary.t)
| NotFound404
| Error500 (message : string).

Section Callers.

Variable parseFloat : string -> float.
Variable Date_parse : string -> option Z.
Variable toISODate : Z -> string.
Variable csvRecord : PriceRow.t -> string.

(** [StockService.initialize]: a failure of the agent is logged and not
    thrown again. *)
Definition StockService_initialize : M unit :=
  try_catch (initialize csvRecord) (fun _ => ret tt).

(** The function [fetchStockData] of the script [fetchStockData.js]. *)
Definition fetchStockData (fuel : nat) (env : Env.t) (self : Agent.t) : M unit :=
  try_catch
    (if negb (Js.truthy_str (Env.ALPHA_VANTAGE_API_KEY env)) then ret tt
     else
       initialize csvRecord ;;;
       stale <- needsUpdate ;;
       if stale then
         fetchAllStockData parseFloat toISODate csvRecord fuel env self ;;;
         ret tt
       else
         getLastUpdateInfo ;;;
         ret tt)
    (fun _ => ret tt).

(** The handler of [GET /:symbol/history]; [period] is the query
    parameter, [None] when it is not given. *)
Definition symbol_history (symbol : string) (period : option string)
  : M Response :=
  try_catch
    (let period := default "1mo" period in
     try_catch
       (csvData <- getStockData parseFloat Date_parse
                     (Js.toUpperCase symbol) period ;;
        ret (Ok200 csvData))
       (fun _ => ret NotFound404))
    (fun message => ret (Error500 message)).

End Callers.

(** ** Instances of the engine functions

    Concrete versions of the four functions the agent takes from the engine
    and its libraries, to run the model on examples. *)

Module Engine.

(** Days since 1970-01-01 of a civil date (proleptic Gregorian); a day
    past the end of its month rolls over, as [MakeDay] does. *)
Definition days_from_civil (y m d : Z) : Z :=
  let y := if m <=? 2 then y - 1 else y in
  let era := y / 400 in
  let yoe := y - era * 400 in
  let doy := (153 * (if 2 <? m then m - 3 else m + 9) + 2) / 5 + d - 1 in
  let doe := yoe * 365 + yoe / 4 - yoe / 100 + doy in
  era * 146097 + doe - 719468.

Definition civil_from_days (z : Z) : Z * Z * Z :=
  let z := z + 719468 in
  let era := z / 146097 in
  let doe := z - era * 146097 in
  let yoe := (doe - doe / 1460 + doe / 36524 - doe / 146096) / 365 in
  let doy := doe - (365 * yoe + yoe / 4 - yoe / 100) in
  let mp := (5 * doy + 2) / 153 in
  let d := doy - (153 * mp + 2) / 5 + 1 in
  let m := if mp <? 10 then mp + 3 else mp - 9 in
  let y := yoe + era * 400 in
  (if m <=? 2 then y + 1 else y, m, d).

Fixpoint all_digits (s : string) : bool :=
  match s with
  | EmptyString => true
  | String c r => bool_decide (is_Some (Js.digit_val 10 c)) && all_digits r
  end.

Definition number (s : string) : option Z :=
  if all_digits s then Js.parse_digits 10 s 0 false else None.

(** [new Date(s).getTime()] for the date-only ISO form [YYYY-MM-DD], read
    as UTC midnight; every other string is an invalid date here. *)
Definition Date_parse (s : string) : option Z :=
  if (String.length s =? 10)%nat
     && String.eqb (String.substring 4 1 s) "-"
     && String.eqb (String.substring 7 1 s) "-" then
    match number (String.substring 0 4 s),
          number (String.substring 5 2 s),
          number (String.substring 8 2 s) with
    | Some y, Some m, Some d =>
        if (1 <=? m) && (m <=? 12) && (1 <=? d) && (d <=? 31)
        then Some (days_from_civil y m d * 86400000)
        else None
    | _, _, _ => None
    end
  else None.

(** Decimal digits of a natural number, at least [width] of them. *)
Fixpoint digits_of (fuel : nat) (n : Z) (width : nat) (acc : string) : string :=
  match fuel with
  | O => acc
  | S fuel' =>
      let acc' := String (ascii_of_nat (48 + Z.to_nat (n mod 10))) acc in
      if (n <? 10) && (width <=? 1)%nat then acc'
      else digits_of fuel' (n / 10) (pred width) acc'
  end.

Definition pad (width : nat) (n : Z) : string := digits_of 400 n width "".

(** [new Date(ms).toISOString().slice(0, 10)]. *)
Definition toISODate (ms : Z) : string :=
  let '(y, m, d) := civil_from_days (ms / 86400000) in
  let year := if (0 <=? y) && (y <=? 9999) then pad 4 y
              else (if y <? 0 then "-" else "+") ++ pad 6 (Z.abs y) in
  String.substring 0 10 (year ++ "-" ++ pad 2 m ++ "-" ++ pad 2 d).

Definition float_of_Z (n : Z) : float := PrimFloat.of_uint63 (Uint63.of_Z n).

(** [parseFloat] on plain decimals [-ddd.ddd] (the quotient of two exactly
    represented integers, correctly rounded); NaN on anything else. *)
Definition parseFloat (s : string) : float :=
  let '(sg, r) := Js.strip_sign (Js.trimStart s) in
  let parts := Js.split "." r in
  let value :=
    match parts with
    | [int] =>
        match number int with
        | Some n => if String.eqb int "" then nan else float_of_Z n
        | None => nan
        end
    | [int; frac] =>
        match number (int ++ frac) with
        | Some n =>
            if String.eqb (int ++ frac) "" then nan
            else (float_of_Z n / float_of_Z (10 ^ Z.of_nat (String.length frac)))%float
        | None => nan
        end
    | _ => nan
    end in
  if sg <? 0 then (- value)%float else value.

(** The integer part of a finite number. *)
Definition truncate (x : float) : Z :=
  match Prim2SF x with
  | S754_finite s m e =>
      let v := if 0 <=? e then Z.pos m * 2 ^ e else Z.pos m / 2 ^ (- e) in
      if s then - v else v
  | _ => 0
  end.

Fixpoint strip_zeros (fuel : nat) (n : Z) (width : nat) : Z * nat :=
  match fuel with
  | O => (n, width)
  | S fuel' =>
      if (0 <? width)%nat && (n mod 10 =? 0)
      then strip_zeros fuel' (n / 10) (pred width)
      else (n, width)
  end.

(** [String(x)] for a number with at most four decimals. *)
Definition showNumber (x : float) : string :=
  if PrimFloat.is_nan x then "NaN"
  else if PrimFloat.is_infinity x
       then (if (x <? 0)%float then "-Infinity" else "Infinity")
  else
    let scaled := truncate (abs x * 10000 + 0.5)%float in
    let '(frac, width) := strip_zeros 4 (scaled mod 10000) 4 in
    (if (x <? 0)%float && (0 <? scaled) then "-" else "")
      ++ pad 1 (scaled / 10000)
      ++ (if (0 <? width)%nat then "." ++ pad width frac else "").

Definition showInt (n : option Z) : string :=
  match n with
  | Some z => (if z <? 0 then "-" else "") ++ pad 1 (Z.abs z)
  | None => "NaN"
  end.

(** The line the CSV writer makes of a record whose text fields need no
    quoting. *)
Definition csvRecord (r : PriceRow.t) : string :=
  String.concat ","
    [ PriceRow.date r; PriceRow.symbol r; PriceRow.name r; PriceRow.sector r;
      showNumber (PriceRow.open r); showNumber (PriceRow.high r);
      showNumber (PriceRow.low r); showNumber (PriceRow.close r);
      showInt (PriceRow.volume r); showNumber (PriceRow.adjustedClose r);
      showNumber (PriceRow.priceChange r);
      showNumber (PriceRow.priceChangePercent r) ].

End Engine.

(** ** Example worlds *)

Module Examples.

Definition noFault : nat -> bool := fun _ => false.

Definition alphaDown : nat -> Alpha.params -> HttpResult Alpha.data :=
  fun _ _ => HttpErr "ECONNREFUSED".
Definition yahooDown : nat -> string -> string -> HttpResult Yahoo.data :=
  fun _ _ _ => HttpErr "ECONNREFUSED".

(** The primary provider answers every request with a rate-limit note. *)
Definition rateLimited : Alpha.data :=
  Alpha.mkData (Some "Thank you for using Alpha Vantage!") None None.
Definition alphaLimited : nat -> Alpha.params -> HttpResult Alpha.data :=
  fun _ _ => HttpOk rateLimited.

(** The primary provider answers with a payload without time series. *)
Definition alphaEmpty : nat -> Alpha.params -> HttpResult Alpha.data :=
  fun _ _ => HttpOk (Alpha.mkData None None None).

(** The primary provider answers with a time series without any day. *)
Definition alphaNoDays : nat -> Alpha.params -> HttpResult Alpha.data :=
  fun _ _ => HttpOk (Alpha.mkData None None (Some [])).

Definition day (o c : string) : option Daily.t :=
  Some (Daily.mk (Some o) (Some c) (Some o) (Some c) (Some c) (Some "1000")).

(** A day whose '1. open' is missing. *)
Definition alphaNoOpen : nat -> Alpha.params -> HttpResult Alpha.data :=
  fun _ _ =>
    HttpOk (Alpha.mkData None None
              (Some [("2024-01-02",
                      Some (Daily.mk None (Some "11") (Some "9") (Some "10")
                              (Some "10") (Some "1000")))])).

(** Two days of data for every symbol. *)
Definition alphaTwoDays : nat -> Alpha.params -> HttpResult Alpha.data :=
  fun _ _ =>
    HttpOk (Alpha.mkData None None
              (Some [("2024-01-03", day "10" "12.5"); ("2024-01-02", day "0" "10")])).

Definition chart (opens closes : list (option float)) (stamps : list (option Z))
  : Yahoo.data :=
  Some (Yahoo.mkResult
          (Yahoo.QuoteObject (Yahoo.mkQuote (Some opens) None None (Some closes) None))
          (Some stamps)).

Definition yahooOneDay : nat -> string -> string -> HttpResult Yahoo.data :=
  fun _ _ _ => HttpOk (chart [Some 100%float] [Some 101%float] [Some 1704153600]).

(** An open that overflowed to [Infinity] when the payload was parsed. *)
Definition yahooOverflow : nat -> string -> string -> HttpResult Yahoo.data :=
  fun _ _ _ => HttpOk (chart [Some infinity] [Some 101%float] [Some 1704153600]).

Definition world (s : Store.t) (clock : Z) (faults : nat -> bool)
    (alpha : nat -> Alpha.params -> HttpResult Alpha.data)
    (yahoo : nat -> string -> string -> HttpResult Yahoo.data) : World.t :=
  World.mk s clock faults 0 alpha yahoo 0 [].

Definition env (retries : option string) : Env.t :=
  Env.mk (Some "demo") None None None retries.

Definition aapl : Company.t := Company.mk "AAPL" "Apple Inc." "Technology".
Definition msft : Company.t := Company.mk "MSFT" "Microsoft Corporation" "Technology".

Definition agent (cs : list Company.t) : Agent.t := Agent.mk cs (Some 30).

Definition ready : Store.t := Store.mk true (Some (csvHeader ++ newline)) None.

(** The store that [initialize] leaves where there was none: the header
    line and the line break that ends the empty list of records. *)
Definition initialized : Store.t :=
  Store.mk true (Some (csvHeader ++ newline ++ newline)) None.

Definition line (l : string) : string := l ++ newline.

(** A table in which one trading day of AAPL was ingested twice. *)
Definition duplicated : string :=
  line csvHeader
  ++ line "2024-01-02,AAPL,Apple Inc.,Technology,1,2,0.5,1.5,100,1.5,0.5,50"
  ++ line "2024-01-03,AAPL,Apple Inc.,Technology,1.5,2,1,2,100,2,0.5,33.3333"
  ++ line "2024-01-02,AAPL,Apple Inc.,Technology,1,2,0.5,1.5,100,1.5,0.5,50"
  ++ line "2024-01-03,MSFT,Microsoft Corporation,Technology,3,4,3,4,10,4,1,33.3333".

Definition params (symbol : string) : Alpha.params :=
  Alpha.mkParams "TIME_SERIES_DAILY_ADJUSTED" symbol "compact" (Some "demo").

(** The primary provider is rate-limited for its first two answers and
    then answers with two days of data. *)
Definition alphaRecovers : nat -> Alpha.params -> HttpResult Alpha.data :=
  fun k p => if (k <? 2)%nat then alphaLimited k p else alphaTwoDays k p.

(** The rows the primary adapter builds for AAPL from [alphaTwoDays]. *)
Definition aaplTwoDays : list PriceRow.t :=
  [ PriceRow.mk "2024-01-02" "AAPL" "Apple Inc." "Technology"
      0 10 0 10 (Some 1000) 10 10 0;
    PriceRow.mk "2024-01-03" "AAPL" "Apple Inc." "Technology"
      10 12.5 10 12.5 (Some 1000) 12.5 2.5 25 ].

End Examples.

(** ** Vocabulary of the properties *)

(** Two consecutive dates of a history in descending order, weakly and
    strictly; an invalid date is in no order with anything. *)
Definition date_ge (a b : option Z) : Prop :=
  match a, b with
  | Some x, Some y => y <= x
  | _, _ => False
  end.

Definition date_gt (a b : option Z) : Prop :=
  match a, b with
  | Some x, Some y => y < x
  | _, _ => False
  end.

(** Row [a] is not older than row [b], both dates being valid; a row
    with a valid date. *)
Definition not_older (Date_parse : string -> option Z)
    (a b : gmap string string) : Prop :=
  date_ge (rowDate Date_parse a) (rowDate Date_parse b).

Definition dated (Date_parse : string -> option Z) (r : gmap string string)
  : Prop :=
  is_Some (rowDate Date_parse r).

(** A response of the primary provider that carries a rate-limit or error
    marker. *)
Definition soft_failure (d : Alpha.data) : bool :=
  Js.truthy_str (Alpha.Note d) || Js.truthy_str (Alpha.ErrorMessage d).

(** The configured retry budget. *)
Definition maxAttempts (env : Env.t) : option Z :=
  Js.parseInt10 (Js.or_str (Env.STOCK_MAX_RETRIES env) "5").

(** What happened between two worlds. *)
Definition since (w w' : World.t) : list Event :=
  drop (length (World.trace w)) (World.trace w').

Definition is_request (e : Event) : bool :=
  match e with
  | EvAlpha _ => true
  | _ => false
  end.

(** Number of requests to the primary provider, and the sleeps, in a run
    of events. *)
Definition attempts (evs : list Event) : nat :=
  length (List.filter is_request evs).

Definition sleeps (evs : list Event) : list (option Z) :=
  omap (fun e => match e with EvSleep ms => Some ms | _ => None end) evs.

(** [min(60 * i, 180)] seconds, in milliseconds. *)
Definition backoff_ms (i : Z) : Z := Z.min (60 * i) 180 * 1000.

Definition sumZ (l : list Z) : Z := foldr Z.add 0 l.

(** The events of [n] attempts that all meet a marker, from attempt [a]. *)
Fixpoint retry_events (p : Alpha.params) (a : Z) (n : nat) : list Event :=
  match n with
  | O => []
  | S O => [EvAlpha p]
  | S n' => EvAlpha p :: EvSleep (Some (backoff_ms a)) :: retry_events p (a + 1) n'
  end.

(** Row [r] is what the fallback loop builds at index [i] of [quote]. *)
Definition built_from (quote : Yahoo.quote) (i : nat) (r : PriceRow.t) : Prop :=
  let o := parseFloat_num (at_index (Yahoo.q_open quote) i) in
  let h := parseFloat_num (at_index (Yahoo.q_high quote) i) in
  let l := parseFloat_num (at_index (Yahoo.q_low quote) i) in
  let c := parseFloat_num (at_index (Yahoo.q_close quote) i) in
  Js.truthy o = true /\ Js.truthy c = true /\
  PriceRow.open r = o /\ PriceRow.close r = c /\
  PriceRow.high r = (if Js.truthy h then h else c) /\
  PriceRow.low r = (if Js.truthy l then l else c).

(** The percentage of a row follows the formula with its own open and
    close. *)
Definition percent_by_formula (r : PriceRow.t) : Prop :=
  PriceRow.priceChangePercent r
  = ((PriceRow.close r - PriceRow.open r) / PriceRow.open r * 100)%float.

(** The guard of a row: the formula for an open that is a number other
    than zero, and 0 for an open that is zero or NaN. *)
Definition zero_guarded (r : PriceRow.t) : Prop :=
  (PrimFloat.is_zero (PriceRow.open r) = false ->
   PrimFloat.is_nan (PriceRow.open r) = false ->
   percent_by_formula r) /\
  (PrimFloat.is_zero (PriceRow.open r) = true \/
   PrimFloat.is_nan (PriceRow.open r) = true ->
   PriceRow.priceChangePercent r = 0%float /\
   PrimFloat.is_nan (PriceRow.priceChangePercent r) = false).

(** The count the sidecar records for a table. *)
Definition dataPointsOf (csv : option string) : Z :=
  match csv with
  | Some text => Z.max 0 (Z.of_nat (length (nonblank_lines text)) - 1)
  | None => 0
  end.

Definition DAY_MS : Z := 24 * 60 * 60 * 1000.

(** The counters after a symbol that failed, and after one that gave
    [n] rows. *)
Definition tally_error (c : Counters.t) : Counters.t :=
  Counters.mk (Counters.successCount c) (Counters.errorCount c + 1)
    (Counters.totalRows c).

Definition tally_success (c : Counters.t) (n : nat) : Counters.t :=
  Counters.mk (Counters.successCount c + 1) (Counters.errorCount c)
    (Counters.totalRows c + Z.of_nat n).

(** The request that [fetchCompanyData] sends to the primary provider. *)
Definition primaryParams (env : Env.t) (company : Company.t) : Alpha.params :=
  Alpha.mkParams "TIME_SERIES_DAILY_ADJUSTED" (Company.symbol company)
    "compact" (Env.ALPHA_VANTAGE_API_KEY env).

(** Code that only talks to the network leaves the disk alone. *)
Definition same_disk (w w' : World.t) : Prop :=
  World.store w' = World.store w /\
  World.fsOps w' = World.fsOps w /\
  World.fsFault w' = World.fsFault w.

(** What the ingestion loop never changes: the fault oracle, the sidecar,
    and a data directory that exists. *)
Definition ingest_frame (w w' : World.t) : Prop :=
  World.fsFault w' = World.fsFault w /\
  Store.metaFile (World.store w') = Store.metaFile (World.store w) /\
  (Store.dirExists (World.store w) = true ->
   Store.dirExists (World.store w') = true).

(** The configured throttle between two symbols. *)
Definition perRequestDelayMs (env : Env.t) : option Z :=
  Js.parseInt10 (Js.or_str (Env.STOCK_FETCH_DELAY_MS env) "15000").

(** Enough recursion budget for a retry budget of [m]. *)
Definition enough_fuel (m : Z) (fuel : nat) : Prop :=
  (Z.to_nat (Z.max 1 m) <= fuel)%nat.

(** Occurrences of a character in a string. *)
Fixpoint count_char (c : ascii) (s : string) : nat :=
  match s with
  | EmptyString => O
  | String c' r => (if Ascii.eqb c' c then 1 else 0) + count_char c r
  end.

(** A company of the symbol override: named after its symbol, itself in
    normal form. *)
Definition override_company (c : Company.t) : Prop :=
  Company.name c = Company.symbol c /\
  Company.sector c = "Unknown" /\
  Js.trim (Company.symbol c) = Company.symbol c /\
  Js.toUpperCase (Company.symbol c) = Company.symbol c.

(** Events of the network side: requests and sleeps. *)
Definition is_net (e : Event) : bool :=
  match e with
  | EvAlpha _ | EvYahoo _ _ | EvSleep _ => true
  | EvCsvWrite _ _ | EvMetaWrite => false
  end.

Definition net_only (evs : list Event) : Prop :=
  Forall (fun e => is_net e = true) evs.

(** The writes of the table in a run of events: whether each one
    appended, and how many records it wrote. *)
Definition csv_writes (evs : list Event) : list (bool * nat) :=
  omap (fun e => match e with
                 | EvCsvWrite a n => Some (a, n)
                 | _ => None
                 end) evs.

(** The table after the batches of rows [batches] were appended to it one
    after the other; an absent table is created by the first append. *)
Definition appended (csvRecord : PriceRow.t -> string) (old : option string)
    (batches : list (list PriceRow.t)) : option string :=
  match batches with
  | [] => old
  | _ :: _ =>
      Some (default "" old
            ++ String.concat "" (map (records csvRecord) batches))%string
  end.

(** The table a run finds is the beginning of the table it leaves. *)
Definition grows (w w' : World.t) : Prop :=
  forall old,
    Store.csvFile (World.store w) = Some old ->
    exists suffix,
      Store.csvFile (World.store w') = Some (old ++ suffix)%string.

(** A table whose last line is ended by a line break, so that what is
    appended starts a line of its own; the line of a record: without a line
    break, and not blank. *)
Definition ends_with_newline (text : string) : Prop :=
  exists t, text = (t ++ newline)%string.

Definition record_line (l : string) : Prop :=
  count_char (ascii_of_nat 10) l = 0%nat /\ Js.trim l <> "".

(** How [callAlpha] ends on the answer it does not retry: a transport
    error is thrown again, a marker is thrown as an error, any other
    payload is returned. *)
Definition verdict (r : HttpResult Alpha.data) : Outcome Alpha.data :=
  match r with
  | HttpErr e => Throw e
  | HttpOk d =>
      if soft_failure d
      then Throw (Js.or_str (Alpha.Note d)
                    (Js.or_str (Alpha.ErrorMessage d) "Alpha Vantage error"))
      else Return d
  end.

(** The longest time [callAlpha] can sleep under a retry budget of [m]. *)
Definition full_backoff (m : Z) : Z := sumZ (map backoff_ms (seqZ 1 (m - 1))).

(** A sidecar that makes the data look fresh at the clock of the world:
    a record not older than 24 hours, or a truthy value without a date. *)
Definition fresh (w : World.t) : Prop :=
  match Store.metaFile (World.store w) with
  | Some (MetaJson (JsonInfo u)) =>
      World.now w - UpdateInfo.lastUpdate u <= DAY_MS
  | Some (MetaJson (JsonOther true)) => True
  | _ => False
  end.

(** A world in which nothing is left to do for the script: the file
    system works, the data directory and the table are there, and the
    sidecar is fresh. *)
Definition settled (w : World.t) : Prop :=
  (forall k, World.fsFault w k = false) /\
  Store.dirExists (World.store w) = true /\
  is_Some (Store.csvFile (World.store w)) /\
  fresh w.

(** Nothing happened between two worlds but file-system calls that
    changed nothing. *)
Definition idle (w w' : World.t) : Prop :=
  World.store w' = World.store w /\
  World.now w' = World.now w /\
  World.netOps w' = World.netOps w /\
  World.trace w' = World.trace w /\
  World.fsFault w' = World.fsFault w.

(** A timestamp of the chart payload (seconds, or [null]) of which the
    fallback loop can make a date. *)
Definition stamp_valid (stamp : option Z) : bool :=
  valid_time ((match stamp with Some t => t | None => 0 end) * 1000).

(** The count of rows of a table in the words of the specification: the
    lines of the text (what stands between two line breaks, before the
    first and after the last) that hold a character other than white
    space, less one for the header; no table, no rows.  [seen] tells
    whether the line that is being read has shown such a character. *)
Fixpoint nonempty_lines (text : string) (seen : bool) : nat :=
  match text with
  | EmptyString => if seen then 1%nat else 0%nat
  | String c rest =>
      if Ascii.eqb c (ascii_of_nat 10)
      then ((if seen then 1 else 0) + nonempty_lines rest false)%nat
      else nonempty_lines rest (seen || negb (Js.is_space c))
  end.

Definition rows_on_disk (csv : option string) : Z :=
  match csv with
  | Some text => Z.of_nat (Nat.pred (nonempty_lines text false))
  | None => 0
  end.

(** ** Tactics *)

(** Projections of a world that was built by the setters. *)
Ltac world_simpl :=
  cbn [World.store World.now World.fsFault World.fsOps World.alphaNet
       World.yahooNet World.netOps World.trace World.with_store World.with_now
       World.tick_fs World.tick_net World.log
       Store.dirExists Store.csvFile Store.metaFile fst snd] in *.

(** The combinators of the monad. *)
Ltac unfold_m :=
  unfold try_catch, bind, ret, throw, get, modify, lift, Date_now, fs_call in *.

(** * Properties *)

(** ** The JavaScript primitives on examples *)

Example trim_ex : Js.trim "  AAPL " = "AAPL". Proof. reflexivity. Qed.
Example split_ex : Js.split "," "a,,b" = ["a"; ""; "b"]. Proof. reflexivity. Qed.
Example parseInt10_ex : Js.parseInt10 " -42px" = Some (-42). Proof. reflexivity. Qed.
Example parseInt10_nan : Js.parseInt10 "abc" = None. Proof. reflexivity. Qed.
Example parseInt_hex : Js.parseInt "0x1A" = Some 26. Proof. reflexivity. Qed.
Example slice_from_ex : Js.slice_from (Some (-2)) [1;2;3] = [2;3]. Proof. reflexivity. Qed.
Example sort_ex : Js.sort Js.compare_str ["b"; "a"; "c"] = ["a"; "b"; "c"].
Proof. reflexivity. Qed.
Example truthy_ex : Js.truthy 0%float = false /\ Js.truthy nan = false /\ Js.truthy infinity = true.
Proof. repeat split; reflexivity. Qed.
Example date_parse_ex : Engine.Date_parse "2024-01-02" = Some 1704153600000.
Proof. reflexivity. Qed.
Example toISODate_ex : Engine.toISODate 1704153600000 = "2024-01-02".
Proof. reflexivity. Qed.
Example parseFloat_ex : Engine.parseFloat "150.25" = 150.25%float.
Proof. reflexivity. Qed.

(** ** The monad *)

Lemma bind_Return {A B} (m : M A) (f : A -> M B) w b w' :
  bind m f w = (Return b, w') ->
  exists a w1, m w = (Return a, w1) /\ f a w1 = (Return b, w').
Proof.
  unfold bind. destruct (m w) as [[a | e |] w1]; intros H; try discriminate.
  eauto.
Qed.

Lemma bind_eq {A B} (m : M A) (f : A -> M B) w a w1 :
  m w = (Return a, w1) -> bind m f w = f a w1.
Proof. unfold bind. intros ->. reflexivity. Qed.

Lemma try_catch_Return {A} (m : M A) h w a w1 :
  m w = (Return a, w1) -> try_catch m h w = (Return a, w1).
Proof. unfold try_catch. intros ->. reflexivity. Qed.

Lemma try_catch_Throw {A} (m : M A) h w e w1 :
  m w = (Throw e, w1) -> try_catch m h w = h e w1.
Proof. unfold try_catch. intros ->. reflexivity. Qed.

Lemma try_catch_Diverge {A} (m : M A) h w w1 :
  m w = (Diverge, w1) -> try_catch m h w = (Diverge, w1).
Proof. unfold try_catch. intros ->. reflexivity. Qed.

(** ** Numbers *)

Lemma truthy_spec x :
  Js.truthy x = true <->
  PrimFloat.is_zero x = false /\ PrimFloat.is_nan x = false.
Proof.
  unfold Js.truthy.
  destruct (PrimFloat.is_zero x), (PrimFloat.is_nan x); simpl; intuition congruence.
Qed.

Lemma percent_zero_guard o c :
  (PrimFloat.is_zero o = false -> PrimFloat.is_nan o = false ->
   percent o (c - o) = ((c - o) / o * 100)%float) /\
  (PrimFloat.is_zero o = true \/ PrimFloat.is_nan o = true ->
   percent o (c - o) = 0%float).
Proof.
  unfold percent, Js.truthy. split.
  - intros -> ->. reflexivity.
  - intros [ -> | -> ]; [ reflexivity | ].
    destruct (PrimFloat.is_zero o); reflexivity.
Qed.

Lemma or_null_Some x y : Js.or_null x = Some y -> x = y /\ Js.truthy y = true.
Proof.
  unfold Js.or_null. destruct (Js.truthy x) eqn:E; intros H; inversion H; subst; auto.
Qed.

Lemma or_null_default x c :
  default c (Js.or_null x) = if Js.truthy x then x else c.
Proof. unfold Js.or_null. destruct (Js.truthy x); reflexivity. Qed.

Lemma Forall_slice_from {A} (P : A -> Prop) start (l : list A) :
  Forall P l -> Forall P (Js.slice_from start l).
Proof.
  intros H. unfold Js.slice_from. destruct start; [ | assumption ].
  apply Forall_drop. assumption.
Qed.

(** ** The two adapters, row by row *)

Section Rows.
Context (parseFloat : string -> float) (toISODate : Z -> string).

Lemma alphaRow_zero_guarded company date d :
  zero_guarded (alphaRow parseFloat company date d).
Proof.
  unfold zero_guarded, percent_by_formula, alphaRow; simpl.
  pose proof (percent_zero_guard (parseFloatU parseFloat (Daily.f_open d))
                (parseFloatU parseFloat (Daily.f_close d))) as [Hn Hz].
  split; [ exact Hn | ].
  intros Hzero. rewrite (Hz Hzero). split; reflexivity.
Qed.

Lemma alphaRows_Forall (P : PriceRow.t -> Prop) company ts :
  (forall date d, P (alphaRow parseFloat company date d)) ->
  forall dates rows,
    alphaRows parseFloat company ts dates = Return rows -> Forall P rows.
Proof.
  intros HP. induction dates as [ | date rest IH ]; simpl; intros rows H.
  - inversion H. constructor.
  - destruct (assoc date ts) as [ [ d | ] | ]; try discriminate.
    destruct (alphaRows parseFloat company ts rest) as [ rows' | | ];
      try discriminate.
    inversion H; subst. constructor; auto.
Qed.

Lemma yahooRow_built symbol q i stamp r :
  yahooRow toISODate symbol q i stamp = Return (Some r) ->
  exists quote, q = Yahoo.QuoteObject quote /\ built_from quote i r /\
                percent_by_formula r.
Proof.
  unfold yahooRow. destruct (negb (valid_time _)); [ discriminate | ].
  destruct q as [ | | quote ]; try discriminate.
  destruct (Js.or_null (parseFloat_num (at_index (Yahoo.q_open quote) i)))
    as [ o | ] eqn:Ho; [ | discriminate ].
  destruct (Js.or_null (parseFloat_num (at_index (Yahoo.q_close quote) i)))
    as [ c | ] eqn:Hc; [ | discriminate ].
  intros H. inversion H; subst; clear H.
  apply or_null_Some in Ho as [Ho To], Hc as [Hc Tc].
  exists quote. split; [ reflexivity | ].
  unfold built_from, percent_by_formula; simpl.
  rewrite !or_null_default, Ho, Hc.
  repeat split; auto.
  unfold percent. rewrite To. reflexivity.
Qed.

Lemma yahooRow_skips symbol quote i stamp :
  Js.truthy (parseFloat_num (at_index (Yahoo.q_open quote) i)) = false \/
  Js.truthy (parseFloat_num (at_index (Yahoo.q_close quote) i)) = false ->
  yahooRow toISODate symbol (Yahoo.QuoteObject quote) i stamp = Return None.
Proof.
  intros H. unfold yahooRow. destruct (negb (valid_time _)); [ reflexivity | ].
  unfold Js.or_null.
  destruct H as [ -> | -> ]; [ reflexivity | ].
  destruct (Js.truthy (parseFloat_num (at_index (Yahoo.q_open quote) i)));
    reflexivity.
Qed.

Lemma yahooLoop_Forall (P : PriceRow.t -> Prop) symbol q :
  (forall i stamp r, yahooRow toISODate symbol q i stamp = Return (Some r) -> P r) ->
  forall stamps i acc rows,
    Forall P acc ->
    yahooLoop toISODate symbol q i stamps acc = Return rows -> Forall P rows.
Proof.
  intros HP. induction stamps as [ | stamp rest IH ]; simpl; intros i acc rows Hacc H.
  - inversion H; subst. assumption.
  - destruct (yahooRow toISODate symbol q i stamp) as [ [ r | ] | | ] eqn:E;
      try discriminate.
    + eapply IH; [ | exact H ]. apply Forall_app. split; [ assumption | ].
      constructor; [ eauto | constructor ].
    + eapply IH; eauto.
Qed.

Lemma yahooRow_finishes symbol q i stamp :
  yahooRow toISODate symbol q i stamp <> Diverge.
Proof.
  unfold yahooRow. destruct (negb (valid_time _)); [ discriminate | ].
  destruct q as [ | | quote ]; try discriminate.
  destruct (Js.or_null _); [ | discriminate ].
  destruct (Js.or_null _); discriminate.
Qed.

Lemma yahooLoop_finishes symbol q stamps :
  forall i acc, yahooLoop toISODate symbol q i stamps acc <> Diverge.
Proof.
  induction stamps as [ | stamp rest IH ]; simpl; intros i acc.
  - discriminate.
  - pose proof (yahooRow_finishes symbol q i stamp) as Hr.
    destruct (yahooRow toISODate symbol q i stamp) as [ [ r | ] | | ];
      try apply IH; try discriminate. congruence.
Qed.

(** The fallback makes one request and returns: it never throws, and
    the rows it returns are a final segment of what its loop built from
    the payload. *)
Lemma fetchFromYahoo_spec self symbol w :
  exists r,
    fetchFromYahoo toISODate self symbol w
    = (Return r,
       World.tick_net
         (World.log (EvYahoo symbol (yahooRange (Agent.days self))) w)) /\
    (forall rows, r = Some rows ->
       exists result all,
         World.yahooNet w (World.netOps w) symbol (yahooRange (Agent.days self))
         = HttpOk (Some result) /\
         yahooLoop toISODate symbol (Yahoo.quote0 result) 0
           (default [] (Yahoo.timestamp result)) [] = Return all /\
         rows = Js.slice_from (neg_num (Agent.days self)) all).
Proof.
  unfold fetchFromYahoo, try_catch, bind, axios_get_yahoo, ret, throw, lift.
  destruct (World.yahooNet w (World.netOps w) symbol (yahooRange (Agent.days self)))
    as [ [ result | ] | e ].
  - pose proof (yahooLoop_finishes symbol (Yahoo.quote0 result)
                  (default [] (Yahoo.timestamp result)) 0 []) as Hf.
    destruct (Yahoo.quote0 result) as [ | | quote ] eqn:Eq.
    + eexists; split; [ reflexivity | discriminate ].
    + destruct (yahooLoop toISODate symbol Yahoo.QuoteUndefined 0
                  (default [] (Yahoo.timestamp result)) []) as [ all | | ] eqn:El;
        [ | | congruence ];
        (eexists; split; [ reflexivity | ]); try discriminate.
      intros rows H; inversion H; subst.
      exists result, all. rewrite Eq. auto.
    + destruct (yahooLoop toISODate symbol (Yahoo.QuoteObject quote) 0
                  (default [] (Yahoo.timestamp result)) []) as [ all | | ] eqn:El;
        [ | | congruence ];
        (eexists; split; [ reflexivity | ]); try discriminate.
      intros rows H; inversion H; subst.
      exists result, all. rewrite Eq. auto.
  - eexists; split; [ reflexivity | discriminate ].
  - eexists; split; [ reflexivity | discriminate ].
Qed.

Lemma fetchFromYahoo_Forall (P : PriceRow.t -> Prop) self symbol :
  (forall q i stamp r,
      yahooRow toISODate symbol q i stamp = Return (Some r) -> P r) ->
  forall w rows w',
    fetchFromYahoo toISODate self symbol w = (Return (Some rows), w') ->
    Forall P rows.
Proof.
  intros HP w rows w' H.
  destruct (fetchFromYahoo_spec self symbol w) as (r & E & Hr).
  rewrite E in H. inversion H; subst.
  destruct (Hr rows eq_refl) as (result & all & _ & Hl & ->).
  apply Forall_slice_from.
  eapply yahooLoop_Forall; [ | constructor | exact Hl ]. eauto.
Qed.

(** Where the rows of [fetchCompanyData] come from: the primary time
    series, or the fallback. *)
Lemma fetchCompanyData_rows fuel env self company w rows w' :
  fetchCompanyData parseFloat toISODate fuel env self company w
  = (Return (Some rows), w') ->
  (exists ts dates, alphaRows parseFloat company ts dates = Return rows) \/
  (exists w1, fetchFromYahoo toISODate self (Company.symbol company) w1
              = (Return (Some rows), w')).
Proof.
  unfold fetchCompanyData. set (p := Alpha.mkParams _ _ _ _).
  unfold try_catch at 1. unfold bind at 1.
  destruct (callAlpha fuel env p 1 w) as [ [ daily | e | ] w1 ].
  - destruct (Alpha.TimeSeries daily) as [ ts | ].
    + unfold bind, lift, ret.
      destruct (alphaRows parseFloat company ts _) as [ rows' | e | ] eqn:Ea.
      * intros H; inversion H; subst. left; eauto.
      * destruct (fetchFromYahoo_spec self (Company.symbol company) w1)
          as (r & E & _).
        unfold try_catch at 1. rewrite E. intros H. right. exists w1.
        rewrite E. exact H.
      * discriminate.
    + destruct (fetchFromYahoo_spec self (Company.symbol company) w1)
        as (r & E & _).
      rewrite E. intros H. right. exists w1. rewrite E. exact H.
  - destruct (fetchFromYahoo_spec self (Company.symbol company) w1)
      as (r & E & _).
    unfold try_catch at 1. rewrite E. intros H. right. exists w1.
    rewrite E. exact H.
  - discriminate.
Qed.

End Rows.

(** ** Zero guard of the percentage (C7) *)

Lemma yahooRow_zero_guarded toISODate symbol q i stamp r :
  yahooRow toISODate symbol q i stamp = Return (Some r) -> zero_guarded r.
Proof.
  intros H. apply yahooRow_built in H as (quote & _ & Hb & Hf).
  destruct Hb as (To & _ & Ho & _).
  rewrite <- Ho in To. apply truthy_spec in To as [Hz Hn].
  split; [ auto | ]. intros [ Hzero | Hnan ]; congruence.
Qed.

(** C7, as the code has it. Every row that [fetchCompanyData] returns,
    whether built from the primary time series or by the fallback, has
    [priceChangePercent = (close - open) / open * 100] when its open is a
    number other than zero, and [priceChangePercent = 0], which is not NaN,
    when its open is zero or NaN: the guard is the truthiness of [open]. *)
Theorem priceChangePercent_zero_guarded
    parseFloat toISODate fuel env self company w rows w' :
  fetchCompanyData parseFloat toISODate fuel env self company w
  = (Return (Some rows), w') ->
  Forall zero_guarded rows.
Proof.
  intros H. apply fetchCompanyData_rows in H as [ (ts & dates & Ha) | (w1 & Hy) ].
  - eapply alphaRows_Forall; [ | exact Ha ].
    intros date d. apply alphaRow_zero_guarded.
  - eapply fetchFromYahoo_Forall; [ | exact Hy ].
    intros q i stamp r. apply yahooRow_zero_guarded.
Qed.

Lemma priceChangePercent_zero_guarded_witness :
  match fetchCompanyData Engine.parseFloat Engine.toISODate 5
          (Examples.env None) (Examples.agent [Examples.aapl]) Examples.aapl
          (Examples.world Examples.ready 0 Examples.noFault
             Examples.alphaTwoDays Examples.yahooDown) with
  | (Return (Some rows), _) => length rows = 2%nat /\ Forall zero_guarded rows
  | _ => False
  end.
Proof.
  destruct (fetchCompanyData Engine.parseFloat Engine.toISODate 5
              (Examples.env None) (Examples.agent [Examples.aapl]) Examples.aapl
              (Examples.world Examples.ready 0 Examples.noFault
                 Examples.alphaTwoDays Examples.yahooDown))
    as [ [ [ rows | ] | e | ] w' ] eqn:E;
    try (vm_compute in E; discriminate).
  split.
  - vm_compute in E. inversion E. reflexivity.
  - exact (priceChangePercent_zero_guarded _ _ _ _ _ _ _ _ _ E).
Defined.

(** The row of the day whose open is "0", on the primary path. *)
Example zero_open_row :
  alphaRow Engine.parseFloat Examples.aapl "2024-01-02"
    (Daily.mk (Some "0") (Some "10") (Some "0") (Some "10") (Some "10") (Some "1000"))
  = PriceRow.mk "2024-01-02" "AAPL" "Apple Inc." "Technology"
      0 10 0 10 (Some 1000) 10 10 0.
Proof. vm_compute. reflexivity. Qed.

(** An open that is not zero does not always get the formula: a day of the
    primary time series without '1. open' has a NaN open, for which the
    formula gives NaN, and its percentage is 0. *)
Lemma nan_open_percent_is_zero :
  exists r w',
    fetchCompanyData Engine.parseFloat Engine.toISODate 5 (Examples.env None)
      (Examples.agent [Examples.aapl]) Examples.aapl
      (Examples.world Examples.ready 0 Examples.noFault
         Examples.alphaNoOpen Examples.yahooDown)
    = (Return (Some [r]), w') /\
    PrimFloat.is_zero (PriceRow.open r) = false /\
    PriceRow.priceChangePercent r = 0%float /\
    ~ percent_by_formula r.
Proof.
  eexists. eexists. split; [ vm_compute; reflexivity | ].
  split; [ reflexivity | ]. split; [ reflexivity | ].
  unfold percent_by_formula.
  cbn [PriceRow.priceChangePercent PriceRow.close PriceRow.open].
  intros H. apply (f_equal PrimFloat.is_nan) in H.
  vm_compute in H. discriminate H.
Qed.

(** ** Rows of the fallback (C9) *)

(** C9, as the code has it. Every row the fallback returns was built at an
    index of the payload whose parsed open and close are both truthy, that
    is nonzero and not NaN (an index where either is null, NaN or 0 yields
    no row); a high or low that is missing or falsy is replaced by the close
    of the row; and the percentage of the row follows the formula, the zero
    branch being out of reach.  The open and the close need not be finite. *)
Theorem yahoo_rows_nonzero toISODate self symbol :
  (forall w rows w',
     fetchFromYahoo toISODate self symbol w = (Return (Some rows), w') ->
     exists result,
       World.yahooNet w (World.netOps w) symbol (yahooRange (Agent.days self))
       = HttpOk (Some result) /\
       Forall (fun r =>
                 (exists quote i,
                     Yahoo.quote0 result = Yahoo.QuoteObject quote /\
                     built_from quote i r) /\
                 PrimFloat.is_zero (PriceRow.open r) = false /\
                 PrimFloat.is_nan (PriceRow.open r) = false /\
                 PrimFloat.is_zero (PriceRow.close r) = false /\
                 PrimFloat.is_nan (PriceRow.close r) = false /\
                 percent_by_formula r) rows) /\
  (forall quote i stamp,
     Js.truthy (parseFloat_num (at_index (Yahoo.q_open quote) i)) = false \/
     Js.truthy (parseFloat_num (at_index (Yahoo.q_close quote) i)) = false ->
     yahooRow toISODate symbol (Yahoo.QuoteObject quote) i stamp = Return None).
Proof.
  split; [ | apply yahooRow_skips ].
  intros w rows w' H.
  destruct (fetchFromYahoo_spec toISODate self symbol w) as (r & E & Hr).
  rewrite E in H. inversion H; subst.
  destruct (Hr rows eq_refl) as (result & all & Hnet & Hl & ->).
  exists result. split; [ assumption | ].
  apply Forall_slice_from.
  eapply yahooLoop_Forall; [ | constructor | exact Hl ].
  intros i stamp r0 Hrow.
  apply yahooRow_built in Hrow as (quote & Hq & Hb & Hf).
  pose proof Hb as (To & Tc & Ho & Hc & _).
  rewrite <- Ho in To. rewrite <- Hc in Tc.
  apply truthy_spec in To as [? ?]. apply truthy_spec in Tc as [? ?].
  repeat split; eauto.
Qed.

Lemma yahoo_rows_nonzero_witness :
  (exists rows w',
     fetchFromYahoo Engine.toISODate (Examples.agent [Examples.aapl]) "AAPL"
       (Examples.world Examples.ready 0 Examples.noFault
          Examples.alphaDown Examples.yahooOneDay)
     = (Return (Some rows), w') /\
     length rows = 1%nat /\
     Forall (fun r => PrimFloat.is_zero (PriceRow.open r) = false /\
                      percent_by_formula r) rows) /\
  yahooRow Engine.toISODate "AAPL"
    (Yahoo.QuoteObject
       (Yahoo.mkQuote (Some [Some 0%float]) None None (Some [Some 101%float]) None))
    0 (Some 1704153600)
  = Return None.
Proof.
  split.
  - eexists. eexists. split; [ vm_compute; reflexivity | ].
    split; [ reflexivity | ].
    destruct (proj1 (yahoo_rows_nonzero Engine.toISODate
                       (Examples.agent [Examples.aapl]) "AAPL")
                (Examples.world Examples.ready 0 Examples.noFault
                   Examples.alphaDown Examples.yahooOneDay) _ _
                ltac:(vm_compute; reflexivity)) as (result & _ & HF).
    eapply Forall_impl; [ exact HF | ].
    intros r Hr. simpl in Hr. tauto.
  - apply (proj2 (yahoo_rows_nonzero Engine.toISODate
                    (Examples.agent [Examples.aapl]) "AAPL")).
    left. vm_compute. reflexivity.
Defined.

(** The claim with "finite" fails: a payload whose open overflowed to
    Infinity passes the truthiness test and its row is returned. *)
Lemma yahoo_row_open_infinite :
  exists r w',
    fetchFromYahoo Engine.toISODate (Examples.agent [Examples.aapl]) "AAPL"
      (Examples.world Examples.ready 0 Examples.noFault
         Examples.alphaDown Examples.yahooOverflow)
    = (Return (Some [r]), w') /\
    PriceRow.open r = infinity /\
    PrimFloat.is_finite (PriceRow.open r) = false.
Proof.
  eexists. eexists. split; [ vm_compute; reflexivity | ].
  split; reflexivity.
Qed.

(** ** Retry bound of the primary fetch helper (C2) *)

Lemma retry_events_SS p a n :
  retry_events p a (S (S n))
  = EvAlpha p :: EvSleep (Some (backoff_ms a)) :: retry_events p (a + 1) (S n).
Proof. reflexivity. Qed.

Lemma attempts_retry_events p n : forall a, attempts (retry_events p a n) = n.
Proof.
  induction n as [ | n IH ]; intros a; [ reflexivity | ].
  destruct n as [ | n ]; [ reflexivity | ].
  rewrite retry_events_SS. specialize (IH (a + 1)).
  unfold attempts in *.
  remember (retry_events p (a + 1) (S n)) as rest.
  simpl. rewrite IH. reflexivity.
Qed.

Lemma sleeps_retry_events p n :
  forall a,
    sleeps (retry_events p a (S n))
    = map (fun i => Some (backoff_ms i)) (seqZ a (Z.of_nat n)).
Proof.
  induction n as [ | n IH ]; intros a; [ reflexivity | ].
  rewrite retry_events_SS. specialize (IH (a + 1)).
  rewrite seqZ_cons by lia.
  replace (Z.pred (Z.of_nat (S n))) with (Z.of_nat n) by lia.
  unfold sleeps in *.
  remember (retry_events p (a + 1) (S n)) as rest.
  simpl. f_equal. exact IH.
Qed.

Lemma timer_delay_backoff a : 1 <= a -> timer_delay (Some (backoff_ms a)) = backoff_ms a.
Proof.
  intros Ha. unfold timer_delay, backoff_ms.
  destruct (Z.leb_spec 1 (Z.min (60 * a) 180 * 1000));
    destruct (Z.leb_spec (Z.min (60 * a) 180 * 1000) 2147483647);
    simpl; lia.
Qed.

Lemma since_app w w' (evs : list Event) :
  World.trace w' = (World.trace w ++ evs)%list -> since w w' = evs.
Proof. unfold since. intros ->. apply drop_app_length. Qed.

(** The run of [callAlpha] when every answer carries a marker and [n]
    retries are left in the budget. *)
Lemma callAlpha_exhausts env p m :
  maxAttempts env = Some m ->
  forall n fuel a w,
    n = Z.to_nat (Z.max 0 (m - a)) ->
    (S n <= fuel)%nat ->
    1 <= a ->
    (forall k, (World.netOps w <= k)%nat ->
       exists d, World.alphaNet w k p = HttpOk d /\ soft_failure d = true) ->
    exists d w',
      callAlpha fuel env p a w
      = (Throw (Js.or_str (Alpha.Note d)
                  (Js.or_str (Alpha.ErrorMessage d) "Alpha Vantage error")), w') /\
      soft_failure d = true /\
      World.alphaNet w (World.netOps w + n)%nat p = HttpOk d /\
      World.trace w' = (World.trace w ++ retry_events p a (S n))%list /\
      World.now w' = World.now w + sumZ (map backoff_ms (seqZ a (Z.of_nat n))) /\
      World.store w' = World.store w.
Proof.
  intros Hm. induction n as [ | n IH ]; intros fuel a w Hn Hfuel Ha Hnet.
  - destruct fuel as [ | fuel ]; [ lia | ].
    destruct (Hnet (World.netOps w) (le_n _)) as (d & Hd & Hs).
    exists d. eexists. simpl callAlpha.
    unfold bind, axios_get_alpha. rewrite Hd.
    unfold soft_failure in Hs. rewrite Hs.
    fold (maxAttempts env). rewrite Hm. unfold ge_num.
    destruct (Z.leb_spec m a); [ | lia ].
    unfold throw. split; [ reflexivity | ].
    world_simpl. cbn [retry_events Z.of_nat seqZ].
    rewrite Nat.add_0_r. repeat split; auto.
    rewrite seqZ_nil by lia. simpl. lia.
  - destruct fuel as [ | fuel ]; [ lia | ].
    destruct (Hnet (World.netOps w) (le_n _)) as (d0 & Hd0 & Hs0).
    simpl callAlpha. unfold bind at 1. unfold axios_get_alpha at 1. rewrite Hd0.
    unfold soft_failure in Hs0. rewrite Hs0.
    fold (maxAttempts env). rewrite Hm. unfold ge_num.
    destruct (Z.leb_spec m a); [ lia | ].
    unfold bind at 1. unfold sleep at 1, modify.
    set (w2 := World.with_now _ _).
    destruct (IH fuel (a + 1) w2) as (d & w' & Hrun & Hs & Hlast & Htr & Hnow & Hst).
    + lia.
    + lia.
    + lia.
    + intros k Hk. apply Hnet. subst w2. world_simpl. lia.
    + exists d, w'. split; [ exact Hrun | ]. split; [ exact Hs | ].
      subst w2. world_simpl. fold (backoff_ms a) in *.
      split; [ | split; [ | split ] ].
      * rewrite <- Hlast. f_equal. lia.
      * rewrite Htr, retry_events_SS. rewrite <- !app_assoc. reflexivity.
      * rewrite Hnow. rewrite (seqZ_cons a) by lia.
        replace (Z.pred (Z.of_nat (S n))) with (Z.of_nat n) by lia.
        rewrite timer_delay_backoff by lia.
        unfold sumZ. cbn [map foldr].
        replace (Z.succ a) with (a + 1) by lia. lia.
      * exact Hst.
Qed.

Lemma soft_failure_message d :
  soft_failure d = true ->
  let msg := Js.or_str (Alpha.Note d)
               (Js.or_str (Alpha.ErrorMessage d) "Alpha Vantage error") in
  Alpha.Note d = Some msg \/ Alpha.ErrorMessage d = Some msg.
Proof.
  unfold soft_failure, Js.or_str. intros H.
  destruct (Js.truthy_str (Alpha.Note d)) eqn:En.
  - left. destruct (Alpha.Note d); [ reflexivity | discriminate ].
  - simpl in H. rewrite H. right.
    destruct (Alpha.ErrorMessage d); [ reflexivity | discriminate ].
Qed.

(** C2, as the code has it. When the retry budget [maxAttempts] is a number
    and every answer of the primary provider carries a Note or an Error
    Message, the helper makes exactly [max(1, maxAttempts)] requests and then
    throws the note or error message of the last answer; the sleeps between
    the attempts are [min(60 i, 180)] seconds for [i = 1 .. maxAttempts - 1],
    and their total is what the clock advanced. *)
Theorem callAlpha_retry_bound env p m fuel w :
  maxAttempts env = Some m ->
  (forall k, (World.netOps w <= k)%nat ->
     exists d, World.alphaNet w k p = HttpOk d /\ soft_failure d = true) ->
  (Z.to_nat (Z.max 1 m) <= fuel)%nat ->
  exists d msg w',
    callAlpha fuel env p 1 w = (Throw msg, w') /\
    World.alphaNet w (World.netOps w + (Z.to_nat (Z.max 1 m) - 1))%nat p
    = HttpOk d /\
    (Alpha.Note d = Some msg \/ Alpha.ErrorMessage d = Some msg) /\
    attempts (since w w') = Z.to_nat (Z.max 1 m) /\
    sleeps (since w w') = map (fun i => Some (backoff_ms i)) (seqZ 1 (m - 1)) /\
    World.now w' - World.now w = sumZ (map backoff_ms (seqZ 1 (m - 1))).
Proof.
  intros Hm Hnet Hfuel.
  destruct (callAlpha_exhausts env p m Hm (Z.to_nat (Z.max 0 (m - 1))) fuel 1 w)
    as (d & w' & Hrun & Hs & Hlast & Htr & Hnow & _); auto; try lia.
  exists d. eexists. exists w'. split; [ exact Hrun | ].
  split; [ rewrite <- Hlast; f_equal; lia | ].
  split; [ apply soft_failure_message; exact Hs | ].
  apply since_app in Htr. rewrite Htr.
  assert (Hseq : seqZ 1 (Z.of_nat (Z.to_nat (Z.max 0 (m - 1)))) = seqZ 1 (m - 1)).
  { destruct (Z.le_gt_cases (m - 1) 0).
    - rewrite Z.max_l by lia. rewrite !seqZ_nil by (simpl; lia). reflexivity.
    - rewrite Z.max_r by lia. rewrite Z2Nat.id by lia. reflexivity. }
  split; [ | split ].
  - rewrite attempts_retry_events. lia.
  - rewrite sleeps_retry_events, Hseq. reflexivity.
  - rewrite Hnow, Hseq. lia.
Qed.

Lemma callAlpha_retry_bound_witness :
  let w := Examples.world Examples.ready 0 Examples.noFault
             Examples.alphaLimited Examples.yahooDown in
  exists w',
    callAlpha 5 (Examples.env None) (Examples.params "AAPL") 1 w
    = (Throw "Thank you for using Alpha Vantage!", w') /\
    attempts (since w w') = 5%nat /\
    sleeps (since w w')
    = [Some 60000; Some 120000; Some 180000; Some 180000] /\
    World.now w' - World.now w = 540000.
Proof.
  intros w.
  destruct (callAlpha_retry_bound (Examples.env None) (Examples.params "AAPL")
              5 5 w) as (d & msg & w' & Hrun & Hlast & Hmsg & Hn & Hs & Hclock).
  - reflexivity.
  - intros k _. exists Examples.rateLimited. split; reflexivity.
  - vm_compute. lia.
  - assert (d = Examples.rateLimited) by (inversion Hlast; reflexivity). subst d.
    assert (msg = "Thank you for using Alpha Vantage!")
      by (destruct Hmsg as [ H | H ]; inversion H; reflexivity).
    subst msg. exists w'. repeat split; assumption.
Defined.

(** With a budget of 0 the helper still makes one request: the number of
    attempts is not [maxAttempts]. *)
Lemma callAlpha_zero_budget :
  maxAttempts (Examples.env (Some "0")) = Some 0 /\
  exists w',
    callAlpha 5 (Examples.env (Some "0")) (Examples.params "AAPL") 1
      (Examples.world Examples.ready 0 Examples.noFault
         Examples.alphaLimited Examples.yahooDown)
    = (Throw "Thank you for using Alpha Vantage!", w') /\
    attempts (since (Examples.world Examples.ready 0 Examples.noFault
                       Examples.alphaLimited Examples.yahooDown) w') = 1%nat.
Proof.
  split; [ reflexivity | ].
  eexists. split; [ vm_compute; reflexivity | reflexivity ].
Qed.

(** A budget that does not parse as a number is never reached: against a
    provider that always answers with a marker the helper does not stop. *)
Remark callAlpha_nan_budget env p :
  maxAttempts env = None ->
  forall fuel a w,
    (forall k, (World.netOps w <= k)%nat ->
       exists d, World.alphaNet w k p = HttpOk d /\ soft_failure d = true) ->
    fst (callAlpha fuel env p a w) = Diverge.
Proof.
  intros Hm. induction fuel as [ | fuel IH ]; intros a w Hnet; [ reflexivity | ].
  destruct (Hnet (World.netOps w) (le_n _)) as (d0 & Hd0 & Hs0).
  simpl callAlpha. unfold bind at 1. unfold axios_get_alpha at 1. rewrite Hd0.
  unfold soft_failure in Hs0. rewrite Hs0.
  fold (maxAttempts env). rewrite Hm. unfold ge_num.
  unfold bind at 1. unfold sleep at 1, modify.
  apply IH. intros k Hk. apply Hnet. world_simpl. lia.
Qed.


(** ** Persistent store: initialisation (C8) *)

Lemma append_empty (s : string) : (s ++ "")%string = s.
Proof.
  induction s as [ | c s IH ]; [ reflexivity | ].
  change (String c (s ++ "")%string = String c s). congruence.
Qed.

Lemma records_nil csvRecord : records csvRecord [] = newline.
Proof. reflexivity. Qed.

(** The table that [createInitialCsv] writes. *)
Lemma header_only csvRecord :
  ((csvHeader ++ newline) ++ records csvRecord [])%string
  = (csvHeader ++ newline ++ newline)%string.
Proof. reflexivity. Qed.

(** *** What each file-system call does *)

Lemma fileExists_eq p w :
  fileExists p w
  = (Return (negb (World.fsFault w (World.fsOps w)) && present p (World.store w)),
     World.tick_fs w).
Proof.
  unfold fileExists, access. unfold_m.
  destruct (World.fsFault w (World.fsOps w)); [ reflexivity | ].
  world_simpl. destruct (present p (World.store w)); reflexivity.
Qed.

Lemma mkdir_eq w :
  mkdir w
  = if World.fsFault w (World.fsOps w) then (Throw "EIO", World.tick_fs w)
    else (Return tt,
          World.with_store
            (Store.mk true (Store.csvFile (World.store w))
               (Store.metaFile (World.store w)))
            (World.tick_fs w)).
Proof.
  unfold mkdir. unfold_m.
  destruct (World.fsFault w (World.fsOps w)); reflexivity.
Qed.

Lemma writeRecords_eq csvRecord append rows w :
  writeRecords csvRecord append rows w
  = if World.fsFault w (World.fsOps w) then (Throw "EIO", World.tick_fs w)
    else if Store.dirExists (World.store w) then
      (Return tt,
       World.log (EvCsvWrite append (length rows))
         (World.with_store
            (Store.mk true
               (Some ((if append then default "" (Store.csvFile (World.store w))
                       else csvHeader ++ newline) ++ records csvRecord rows)%string)
               (Store.metaFile (World.store w)))
            (World.tick_fs w)))
    else (Throw "ENOENT", World.tick_fs w).
Proof.
  unfold writeRecords. unfold_m.
  destruct (World.fsFault w (World.fsOps w)); [ reflexivity | ].
  world_simpl. destruct (Store.dirExists (World.store w)); reflexivity.
Qed.

Lemma getDataPointCount_eq w :
  getDataPointCount w
  = (Return (if World.fsFault w (World.fsOps w) then 0
             else dataPointsOf (Store.csvFile (World.store w))),
     World.tick_fs w).
Proof.
  unfold getDataPointCount, readCsv, dataPointsOf. unfold_m.
  destruct (World.fsFault w (World.fsOps w)); [ reflexivity | ].
  world_simpl. destruct (Store.csvFile (World.store w)); reflexivity.
Qed.

Lemma writeMeta_eq u w :
  writeMeta u w
  = if World.fsFault w (World.fsOps w) then (Throw "EIO", World.tick_fs w)
    else if Store.dirExists (World.store w) then
      (Return tt,
       World.log EvMetaWrite
         (World.with_store
            (Store.mk true (Store.csvFile (World.store w))
               (Some (MetaJson (JsonInfo u))))
            (World.tick_fs w)))
    else (Throw "ENOENT", World.tick_fs w).
Proof.
  unfold writeMeta. unfold_m.
  destruct (World.fsFault w (World.fsOps w)); [ reflexivity | ].
  world_simpl. destruct (Store.dirExists (World.store w)); reflexivity.
Qed.

(** The sidecar write is the second file-system call of
    [updateLastUpdateTime], after the read of the table. *)
Lemma updateLastUpdateTime_eq self w :
  updateLastUpdateTime self w
  = (Return tt,
     let w1 := World.tick_fs (World.tick_fs w) in
     if negb (World.fsFault w (S (World.fsOps w)))
        && Store.dirExists (World.store w) then
       World.log EvMetaWrite
         (World.with_store
            (Store.mk true (Store.csvFile (World.store w))
               (Some (MetaJson (JsonInfo
                  (UpdateInfo.mk (World.now w)
                     (Z.of_nat (length (Agent.companies self)))
                     (if World.fsFault w (World.fsOps w) then 0
                      else dataPointsOf (Store.csvFile (World.store w))))))))
            w1)
     else w1).
Proof.
  unfold updateLastUpdateTime.
  unfold try_catch at 1. unfold bind at 1. unfold Date_now, get.
  unfold bind at 1. rewrite getDataPointCount_eq. rewrite writeMeta_eq.
  world_simpl.
  destruct (World.fsFault w (S (World.fsOps w))); [ reflexivity | ].
  destruct (Store.dirExists (World.store w)); reflexivity.
Qed.

Lemma initialize_eq csvRecord w :
  initialize csvRecord w
  = if World.fsFault w (World.fsOps w) then (Throw "EIO", World.tick_fs w)
    else
      let w1 := World.with_store
                  (Store.mk true (Store.csvFile (World.store w))
                     (Store.metaFile (World.store w)))
                  (World.tick_fs (World.tick_fs w)) in
      if negb (World.fsFault w (S (World.fsOps w)))
         && present CsvPath (World.store w)
      then (Return tt, w1)
      else if World.fsFault w (S (S (World.fsOps w)))
           then (Throw "EIO", World.tick_fs w1)
           else (Return tt,
                 World.log (EvCsvWrite false 0)
                   (World.with_store
                      (Store.mk true
                         (Some (csvHeader ++ newline ++ newline)%string)
                         (Store.metaFile (World.store w)))
                      (World.tick_fs w1))).
Proof.
  destruct w as [ s n ff fo an yn no tr ].
  unfold initialize, createInitialCsv.
  unfold try_catch at 1. unfold bind at 1. rewrite mkdir_eq. world_simpl.
  destruct (ff fo); [ reflexivity | ].
  unfold bind at 1. rewrite fileExists_eq. world_simpl.
  unfold present. world_simpl.
  destruct (negb (ff (S fo)) &&
            match Store.csvFile s with Some _ => true | None => false end);
    [ reflexivity | ].
  cbn [negb]. rewrite writeRecords_eq. world_simpl.
  destruct (ff (S (S fo))); [ reflexivity | ].
  rewrite header_only. reflexivity.
Qed.

(** C8. From a store without table file, a call of [initialize] that
    returns leaves the data directory and a table that holds the header line
    only (the file is the header line followed by the line break with which
    the writer ends the empty list of records: its only non-blank line is
    the header, and it counts no data point); a second call, whatever the
    file system does during it, leaves that store exactly as it is, and it
    returns normally when the file system does not fail. *)
Theorem initialize_idempotent csvRecord w w1 :
  Store.csvFile (World.store w) = None ->
  initialize csvRecord w = (Return tt, w1) ->
  World.store w1
  = Store.mk true (Some (csvHeader ++ newline ++ newline)%string)
      (Store.metaFile (World.store w)) /\
  (forall text,
      Store.csvFile (World.store w1) = Some text ->
      nonblank_lines text = [csvHeader] /\
      dataPointsOf (Some text) = 0) /\
  (forall w2,
      World.store w2 = World.store w1 ->
      World.store (snd (initialize csvRecord w2)) = World.store w1 /\
      (World.fsFault w2 (World.fsOps w2) = false ->
       World.fsFault w2 (S (World.fsOps w2)) = false ->
       fst (initialize csvRecord w2) = Return tt)).
Proof.
  intros Hcsv Hinit.
  assert (Hs1 : World.store w1
                = Store.mk true (Some (csvHeader ++ newline ++ newline)%string)
                    (Store.metaFile (World.store w))).
  { rewrite initialize_eq in Hinit. unfold present in Hinit. rewrite Hcsv in Hinit.
    rewrite andb_false_r in Hinit.
    destruct (World.fsFault w (World.fsOps w)); [ discriminate | ].
    destruct (World.fsFault w (S (S (World.fsOps w)))); [ discriminate | ].
    inversion Hinit; subst. reflexivity. }
  split; [ exact Hs1 | ].
  split.
  { intros text Htext. rewrite Hs1 in Htext. inversion Htext; subst text.
    split; vm_compute; reflexivity. }
  intros w2 Hs2. rewrite Hs1 in *. rewrite initialize_eq.
  unfold present. rewrite Hs2. world_simpl.
  destruct (World.fsFault w2 (World.fsOps w2)).
  { world_simpl. split; [ exact Hs2 | discriminate ]. }
  destruct (World.fsFault w2 (S (World.fsOps w2))); world_simpl.
  - split; [ | discriminate ].
    destruct (World.fsFault w2 (S (S (World.fsOps w2)))); world_simpl; reflexivity.
  - split; reflexivity.
Qed.

Lemma initialize_idempotent_witness :
  let w := Examples.world Store.empty 0 Examples.noFault
             Examples.alphaDown Examples.yahooDown in
  let w1 := snd (initialize Engine.csvRecord w) in
  World.store w1 = Examples.initialized /\
  dataPointsOf (Store.csvFile (World.store w1)) = 0 /\
  initialize Engine.csvRecord w1 = (Return tt, World.tick_fs (World.tick_fs w1)).
Proof.
  intros w w1.
  destruct (initialize_idempotent Engine.csvRecord w w1 eq_refl)
    as (Hs & Hhead & Hagain).
  - vm_compute. reflexivity.
  - split; [ exact Hs | ].
    split; [ rewrite Hs; apply (Hhead _ (f_equal Store.csvFile Hs)) | ].
    vm_compute. reflexivity.
Defined.

(** The guard matters: on a table that holds rows a further call keeps
    them. *)
Example initialize_keeps_rows :
  World.store
    (snd (initialize Engine.csvRecord
            (Examples.world (Store.mk true (Some Examples.duplicated) None) 0
               Examples.noFault Examples.alphaDown Examples.yahooDown)))
  = Store.mk true (Some Examples.duplicated) None.
Proof. vm_compute. reflexivity. Qed.

(** ** The adapter with fallback (C3) *)

Lemma same_disk_refl w : same_disk w w.
Proof. repeat split. Qed.

Lemma same_disk_trans w1 w2 w3 :
  same_disk w1 w2 -> same_disk w2 w3 -> same_disk w1 w3.
Proof.
  unfold same_disk. intros (? & ? & ?) (? & ? & ?). repeat split; congruence.
Qed.

Lemma callAlpha_disk env p fuel :
  forall a w, same_disk w (snd (callAlpha fuel env p a w)).
Proof.
  induction fuel as [ | fuel IH ]; intros a w; [ apply same_disk_refl | ].
  simpl callAlpha. unfold bind at 1. unfold axios_get_alpha at 1.
  destruct (World.alphaNet w (World.netOps w) p) as [ d | e ];
    [ | repeat split ].
  destruct (Js.truthy_str (Alpha.Note d) || Js.truthy_str (Alpha.ErrorMessage d));
    [ | repeat split ].
  destruct (ge_num a _); [ repeat split | ].
  unfold bind at 1. unfold sleep at 1, modify.
  eapply same_disk_trans; [ | apply IH ]. repeat split.
Qed.

Lemma callAlpha_first_event env p fuel a w :
  (0 < fuel)%nat ->
  exists evs,
    World.trace (snd (callAlpha fuel env p a w))
    = (World.trace w ++ EvAlpha p :: evs)%list.
Proof.
  assert (Hext : forall fuel a w,
             exists evs, World.trace (snd (callAlpha fuel env p a w))
                         = (World.trace w ++ evs)%list).
  { clear. induction fuel as [ | fuel IH ]; intros a w.
    - exists []. simpl. rewrite app_nil_r. reflexivity.
    - simpl callAlpha. unfold bind at 1. unfold axios_get_alpha at 1.
      destruct (World.alphaNet w (World.netOps w) p) as [ d | e ];
        [ | exists [EvAlpha p]; reflexivity ].
      destruct (Js.truthy_str (Alpha.Note d) || Js.truthy_str (Alpha.ErrorMessage d));
        [ | exists [EvAlpha p]; reflexivity ].
      destruct (ge_num a _); [ exists [EvAlpha p]; reflexivity | ].
      unfold bind at 1. unfold sleep at 1, modify.
      edestruct IH as (evs & ->). world_simpl.
      eexists. rewrite <- !app_assoc. reflexivity. }
  intros Hfuel. destruct fuel as [ | fuel ]; [ lia | ].
  simpl callAlpha. unfold bind at 1. unfold axios_get_alpha at 1.
  destruct (World.alphaNet w (World.netOps w) p) as [ d | e ];
    [ | exists []; reflexivity ].
  destruct (Js.truthy_str (Alpha.Note d) || Js.truthy_str (Alpha.ErrorMessage d));
    [ | exists []; reflexivity ].
  destruct (ge_num a _); [ exists []; reflexivity | ].
  unfold bind at 1. unfold sleep at 1, modify.
  edestruct Hext as (evs & ->). world_simpl.
  eexists. rewrite <- !app_assoc. reflexivity.
Qed.

(** With a numeric retry budget the helper finishes, whatever the network
    answers. *)
Lemma callAlpha_finishes env p m :
  maxAttempts env = Some m ->
  forall fuel a w,
    1 <= a ->
    (S (Z.to_nat (Z.max 0 (m - a))) <= fuel)%nat ->
    fst (callAlpha fuel env p a w) <> Diverge.
Proof.
  intros Hm. induction fuel as [ | fuel IH ]; intros a w Ha Hfuel; [ lia | ].
  simpl callAlpha. unfold bind at 1. unfold axios_get_alpha at 1.
  destruct (World.alphaNet w (World.netOps w) p) as [ d | e ];
    [ | discriminate ].
  destruct (Js.truthy_str (Alpha.Note d) || Js.truthy_str (Alpha.ErrorMessage d));
    [ | discriminate ].
  fold (maxAttempts env). rewrite Hm. unfold ge_num.
  destruct (Z.leb_spec m a); [ discriminate | ].
  unfold bind at 1. unfold sleep at 1, modify.
  apply IH; lia.
Qed.

Lemma alphaRows_finishes parseFloat company ts dates :
  alphaRows parseFloat company ts dates <> Diverge.
Proof.
  induction dates as [ | date rest IH ]; simpl; [ discriminate | ].
  destruct (assoc date ts) as [ [ d | ] | ]; try discriminate.
  destruct (alphaRows parseFloat company ts rest); congruence.
Qed.

Section Adapter.
Context (parseFloat : string -> float) (toISODate : Z -> string)
        (csvRecord : PriceRow.t -> string).

(** [fetchCompanyData] by the outcome of the primary call. *)
Lemma fetchCompanyData_eq fuel env self company w :
  fetchCompanyData parseFloat toISODate fuel env self company w
  = match callAlpha fuel env (primaryParams env company) 1 w with
    | (Return daily, w1) =>
        match Alpha.TimeSeries daily with
        | Some ts =>
            match alphaRows parseFloat company ts
                    (Js.slice_from (neg_num (Agent.days self))
                       (Js.sort Js.compare_str (map fst ts))) with
            | Return rows => (Return (Some rows), w1)
            | _ => fetchFromYahoo toISODate self (Company.symbol company) w1
            end
        | None => fetchFromYahoo toISODate self (Company.symbol company) w1
        end
    | (Throw _, w1) => fetchFromYahoo toISODate self (Company.symbol company) w1
    | (Diverge, w1) => (Diverge, w1)
    end.
Proof.
  unfold fetchCompanyData. fold (primaryParams env company).
  unfold try_catch at 1. unfold bind at 1.
  destruct (callAlpha fuel env (primaryParams env company) 1 w)
    as [ [ daily | e | ] w1 ]; [ | | reflexivity ].
  - destruct (Alpha.TimeSeries daily) as [ ts | ].
    + unfold bind, lift, ret.
      pose proof (alphaRows_finishes parseFloat company ts
                    (Js.slice_from (neg_num (Agent.days self))
                       (Js.sort Js.compare_str (map fst ts)))) as Hf.
      destruct (alphaRows parseFloat company ts _) as [ rows | e | ];
        [ reflexivity | | congruence ].
      destruct (fetchFromYahoo_spec toISODate self (Company.symbol company) w1)
        as (r & E & _).
      unfold try_catch at 1. rewrite E. reflexivity.
    + destruct (fetchFromYahoo_spec toISODate self (Company.symbol company) w1)
        as (r & E & _).
      rewrite E. reflexivity.
  - destruct (fetchFromYahoo_spec toISODate self (Company.symbol company) w1)
      as (r & E & _).
    unfold try_catch at 1. rewrite E. reflexivity.
Qed.

Lemma fetchFromYahoo_disk self symbol w :
  same_disk w (snd (fetchFromYahoo toISODate self symbol w)).
Proof.
  destruct (fetchFromYahoo_spec toISODate self symbol w) as (r & E & _).
  rewrite E. repeat split.
Qed.

Lemma fetchFromYahoo_returns self symbol w :
  exists r, fst (fetchFromYahoo toISODate self symbol w) = Return r.
Proof.
  destruct (fetchFromYahoo_spec toISODate self symbol w) as (r & E & _).
  rewrite E. eauto.
Qed.

Lemma fetchCompanyData_disk fuel env self company w :
  same_disk w (snd (fetchCompanyData parseFloat toISODate fuel env self company w)).
Proof.
  rewrite fetchCompanyData_eq.
  pose proof (callAlpha_disk env (primaryParams env company) fuel 1 w) as Hd.
  destruct (callAlpha fuel env (primaryParams env company) 1 w)
    as [ [ daily | e | ] w1 ]; cbn [snd] in Hd; [ | | exact Hd ].
  - destruct (Alpha.TimeSeries daily) as [ ts | ].
    + destruct (alphaRows parseFloat company ts _); [ exact Hd | | ];
        (eapply same_disk_trans; [ exact Hd | apply fetchFromYahoo_disk ]).
    + eapply same_disk_trans; [ exact Hd | apply fetchFromYahoo_disk ].
  - eapply same_disk_trans; [ exact Hd | apply fetchFromYahoo_disk ].
Qed.

(** The adapter returns rows or [null], or does not finish: it never
    throws. *)
Lemma fetchCompanyData_outcome fuel env self company w :
  (exists r, fst (fetchCompanyData parseFloat toISODate fuel env self company w)
             = Return r) \/
  (fst (fetchCompanyData parseFloat toISODate fuel env self company w) = Diverge /\
   fst (callAlpha fuel env (primaryParams env company) 1 w) = Diverge).
Proof.
  rewrite fetchCompanyData_eq.
  destruct (callAlpha fuel env (primaryParams env company) 1 w)
    as [ [ daily | e | ] w1 ]; [ | | right; split; reflexivity ]; left.
  - destruct (Alpha.TimeSeries daily) as [ ts | ].
    + destruct (alphaRows parseFloat company ts _); eauto;
        apply fetchFromYahoo_returns.
    + apply fetchFromYahoo_returns.
  - apply fetchFromYahoo_returns.
Qed.

(** [ingestOne] by the outcome of the adapter. *)
Lemma ingestOne_eq fuel env self company c w :
  ingestOne parseFloat toISODate csvRecord fuel env self company c w
  = match fetchCompanyData parseFloat toISODate fuel env self company w with
    | (Return (Some ((_ :: _) as rows)), w1) =>
        match saveToCsv csvRecord rows true w1 with
        | (Return _, w2) => (Return (tally_success c (length rows)), w2)
        | (Throw _, w2) => (Return (tally_error c), w2)
        | (Diverge, w2) => (Diverge, w2)
        end
    | (Return _, w1) => (Return (tally_error c), w1)
    | (Throw _, w1) => (Return (tally_error c), w1)
    | (Diverge, w1) => (Diverge, w1)
    end.
Proof.
  unfold ingestOne. unfold try_catch at 1. unfold bind at 1.
  destruct (fetchCompanyData parseFloat toISODate fuel env self company w)
    as [ [ [ [ | r rs ] | ] | e | ] w1 ]; try reflexivity.
  unfold bind.
  destruct (saveToCsv csvRecord (r :: rs) true w1) as [ [ b | e | ] w2 ];
    reflexivity.
Qed.

Lemma saveToCsv_eq rows w :
  saveToCsv csvRecord rows true w
  = if negb (World.fsFault w (World.fsOps w)) && Store.dirExists (World.store w)
    then
      (Return true,
       World.log (EvCsvWrite true (length rows))
         (World.with_store
            (Store.mk true
               (Some (default "" (Store.csvFile (World.store w))
                      ++ records csvRecord rows)%string)
               (Store.metaFile (World.store w)))
            (World.tick_fs w)))
    else
      (Throw (if World.fsFault w (World.fsOps w) then "EIO" else "ENOENT"),
       World.tick_fs w).
Proof.
  unfold saveToCsv. unfold try_catch, bind. rewrite writeRecords_eq.
  destruct (World.fsFault w (World.fsOps w)); [ reflexivity | ].
  destruct (Store.dirExists (World.store w)); reflexivity.
Qed.

End Adapter.

(** C3. [fetchCompanyData] sends its first request to the primary
    provider.  When the primary call throws, or returns a payload without
    'Time Series (Daily)', the result of [fetchCompanyData] is the result of
    the fallback run right after it, which always returns: its rows when it
    has them, and [null] otherwise.  In the second case [fetchCompanyData]
    returns [null], the loop body counts the symbol in [errorCount] only,
    and the store is what it was before the symbol. *)
Theorem fetchCompanyData_falls_back
    parseFloat toISODate csvRecord fuel env self company w out w1 :
  callAlpha fuel env (primaryParams env company) 1 w = (out, w1) ->
  (0 < fuel)%nat ->
  (exists evs,
      World.trace w1
      = (World.trace w ++ EvAlpha (primaryParams env company) :: evs)%list) /\
  ((exists e, out = Throw e) \/
   (exists daily, out = Return daily /\ Alpha.TimeSeries daily = None) ->
   fetchCompanyData parseFloat toISODate fuel env self company w
   = fetchFromYahoo toISODate self (Company.symbol company) w1 /\
   (exists r,
       fetchFromYahoo toISODate self (Company.symbol company) w1
       = (Return r,
          World.tick_net
            (World.log (EvYahoo (Company.symbol company)
                          (yahooRange (Agent.days self))) w1))) /\
   (forall w2,
       fetchFromYahoo toISODate self (Company.symbol company) w1
       = (Return None, w2) ->
       fetchCompanyData parseFloat toISODate fuel env self company w
       = (Return None, w2) /\
       World.store w2 = World.store w /\
       forall c,
         ingestOne parseFloat toISODate csvRecord fuel env self company c w
         = (Return (tally_error c), w2))).
Proof.
  intros Hprimary Hfuel. split.
  - pose proof (callAlpha_first_event env (primaryParams env company) fuel 1 w Hfuel)
      as (evs & Hevs).
    rewrite Hprimary in Hevs. eauto.
  - intros Hfail.
    assert (Heq : fetchCompanyData parseFloat toISODate fuel env self company w
                  = fetchFromYahoo toISODate self (Company.symbol company) w1).
    { rewrite fetchCompanyData_eq, Hprimary.
      destruct Hfail as [ (e & ->) | (daily & -> & Hts) ]; [ reflexivity | ].
      rewrite Hts. reflexivity. }
    split; [ exact Heq | ].
    destruct (fetchFromYahoo_spec toISODate self (Company.symbol company) w1)
      as (r & E & _).
    split; [ eauto | ].
    intros w2 Hy. split; [ congruence | ]. split.
    + pose proof (callAlpha_disk env (primaryParams env company) fuel 1 w) as (Hs & _).
      rewrite Hprimary in Hs. cbn [snd] in Hs.
      pose proof (fetchFromYahoo_disk toISODate self (Company.symbol company) w1)
        as (Hs' & _).
      rewrite Hy in Hs'. cbn [snd] in Hs'. congruence.
    + intros c. rewrite ingestOne_eq, Heq, Hy. reflexivity.
Qed.

Lemma fetchCompanyData_falls_back_witness :
  let w := Examples.world Examples.ready 0 Examples.noFault
             Examples.alphaEmpty Examples.yahooDown in
  let self := Examples.agent [Examples.aapl] in
  let w1 := snd (callAlpha 5 (Examples.env None)
                   (primaryParams (Examples.env None) Examples.aapl) 1 w) in
  let w2 := snd (fetchFromYahoo Engine.toISODate self "AAPL" w1) in
  fetchCompanyData Engine.parseFloat Engine.toISODate 5 (Examples.env None)
    self Examples.aapl w = (Return None, w2) /\
  World.trace w2
  = [EvAlpha (primaryParams (Examples.env None) Examples.aapl);
     EvYahoo "AAPL" "1mo"] /\
  ingestOne Engine.parseFloat Engine.toISODate Engine.csvRecord 5
    (Examples.env None) self Examples.aapl (Counters.mk 0 0 0) w
  = (Return (Counters.mk 0 1 0), w2).
Proof.
  intros w self w1 w2.
  destruct (fetchCompanyData_falls_back Engine.parseFloat Engine.toISODate
              Engine.csvRecord 5 (Examples.env None) self Examples.aapl w
              (Return (Alpha.mkData None None None)) w1)
    as (_ & Hfall).
  - vm_compute. reflexivity.
  - lia.
  - destruct Hfall as (_ & _ & Hnull).
    + right. exists (Alpha.mkData None None None). split; reflexivity.
    + destruct (Hnull w2) as (Hdata & _ & Hone).
      * vm_compute. reflexivity.
      * split; [ exact Hdata | ]. split; [ vm_compute; reflexivity | ].
        apply (Hone (Counters.mk 0 0 0)).
Defined.

(** The fallback succeeds after a primary payload without time series:
    its rows are what [fetchCompanyData] returns. *)
Example fallback_rows_returned :
  fst (fetchCompanyData Engine.parseFloat Engine.toISODate 5 (Examples.env None)
         (Examples.agent [Examples.aapl]) Examples.aapl
         (Examples.world Examples.ready 0 Examples.noFault
            Examples.alphaEmpty Examples.yahooOneDay))
  = Return (Some [PriceRow.mk "2024-01-02" "AAPL" "AAPL" "Unknown"
                    100 101 101 101 (Some 0) 101 1 1]).
Proof. vm_compute. reflexivity. Qed.

(** The fallback after an exhausted retry budget. *)
Example fallback_after_exhaustion :
  fst (fetchCompanyData Engine.parseFloat Engine.toISODate 5 (Examples.env (Some "2"))
         (Examples.agent [Examples.aapl]) Examples.aapl
         (Examples.world Examples.ready 0 Examples.noFault
            Examples.alphaLimited Examples.yahooOneDay))
  = Return (Some [PriceRow.mk "2024-01-02" "AAPL" "AAPL" "Unknown"
                    100 101 101 101 (Some 0) 101 1 1]).
Proof. vm_compute. reflexivity. Qed.

(** ** Bulk ingestion (C4) *)

Lemma ingest_frame_refl w : ingest_frame w w.
Proof. repeat split; auto. Qed.

Lemma ingest_frame_trans w1 w2 w3 :
  ingest_frame w1 w2 -> ingest_frame w2 w3 -> ingest_frame w1 w3.
Proof.
  unfold ingest_frame. intros (? & ? & ?) (? & ? & ?).
  repeat split; try congruence. auto.
Qed.

Lemma same_disk_frame w w' : same_disk w w' -> ingest_frame w w'.
Proof.
  unfold same_disk, ingest_frame. intros (Hs & _ & Hf).
  rewrite Hs. repeat split; auto.
Qed.

Lemma sleep_frame ms w : ingest_frame w (snd (sleep ms w)).
Proof. repeat split; auto. Qed.

Section Ingestion.
Context (parseFloat : string -> float) (toISODate : Z -> string)
        (csvRecord : PriceRow.t -> string).

Lemma saveToCsv_frame rows w :
  ingest_frame w (snd (saveToCsv csvRecord rows true w)).
Proof.
  rewrite saveToCsv_eq.
  destruct (negb (World.fsFault w (World.fsOps w)) &&
            Store.dirExists (World.store w)); repeat split; auto.
Qed.

Lemma ingestOne_frame fuel env self company c w :
  ingest_frame w
    (snd (ingestOne parseFloat toISODate csvRecord fuel env self company c w)).
Proof.
  rewrite ingestOne_eq.
  pose proof (fetchCompanyData_disk parseFloat toISODate fuel env self company w)
    as Hd. apply same_disk_frame in Hd.
  destruct (fetchCompanyData parseFloat toISODate fuel env self company w)
    as [ [ [ [ | r rs ] | ] | e | ] w1 ]; cbn [snd] in *; try exact Hd.
  pose proof (saveToCsv_frame (r :: rs) w1) as Hs.
  destruct (saveToCsv csvRecord (r :: rs) true w1) as [ [ b | e | ] w2 ];
    cbn [snd] in *; eapply ingest_frame_trans; eauto.
Qed.

Lemma ingestLoop_cons fuel env self delay company rest c w :
  ingestLoop parseFloat toISODate csvRecord fuel env self delay
    (company :: rest) c w
  = match ingestOne parseFloat toISODate csvRecord fuel env self company c w with
    | (Return c', w1) =>
        ingestLoop parseFloat toISODate csvRecord fuel env self delay rest c'
          (match rest with
           | [] => w1
           | _ :: _ => snd (sleep delay w1)
           end)
    | (Throw e, w1) => (Throw e, w1)
    | (Diverge, w1) => (Diverge, w1)
    end.
Proof.
  cbn [ingestLoop]. unfold bind at 1.
  destruct (ingestOne parseFloat toISODate csvRecord fuel env self company c w)
    as [ [ c' | e | ] w1 ]; try reflexivity.
  destruct rest; reflexivity.
Qed.

Lemma ingestLoop_frame fuel env self delay companies :
  forall c w,
    ingest_frame w
      (snd (ingestLoop parseFloat toISODate csvRecord fuel env self delay
              companies c w)).
Proof.
  induction companies as [ | company rest IH ]; intros c w.
  - apply ingest_frame_refl.
  - rewrite ingestLoop_cons.
    pose proof (ingestOne_frame fuel env self company c w) as H1.
    destruct (ingestOne parseFloat toISODate csvRecord fuel env self company c w)
      as [ [ c' | e | ] w1 ]; cbn [snd] in *; try exact H1.
    eapply ingest_frame_trans; [ exact H1 | ].
    eapply ingest_frame_trans; [ | apply IH ].
    destruct rest; [ apply ingest_frame_refl | apply sleep_frame ].
Qed.

(** With a numeric retry budget the body of the loop returns, and counts
    the symbol once. *)
Lemma ingestOne_returns fuel env self company c w m :
  maxAttempts env = Some m -> enough_fuel m fuel ->
  exists c' w',
    ingestOne parseFloat toISODate csvRecord fuel env self company c w
    = (Return c', w') /\
    Counters.successCount c' + Counters.errorCount c'
    = Counters.successCount c + Counters.errorCount c + 1.
Proof.
  intros Hm Hfuel. rewrite ingestOne_eq.
  destruct (fetchCompanyData_outcome parseFloat toISODate fuel env self company w)
    as [ (r & Hr) | (_ & Hd) ].
  - destruct (fetchCompanyData parseFloat toISODate fuel env self company w)
      as [ res w1 ]. cbn [fst] in Hr. subst res.
    destruct r as [ [ | r rs ] | ];
      try (eexists; eexists; split; [ reflexivity | simpl; lia ]).
    rewrite saveToCsv_eq.
    destruct (negb (World.fsFault w1 (World.fsOps w1)) &&
              Store.dirExists (World.store w1));
      eexists; eexists; (split; [ reflexivity | simpl; lia ]).
  - exfalso. revert Hd.
    apply (callAlpha_finishes env (primaryParams env company) m Hm); [ lia | ].
    unfold enough_fuel in Hfuel. lia.
Qed.

Lemma ingestLoop_returns fuel env self delay m :
  maxAttempts env = Some m -> enough_fuel m fuel ->
  forall companies c w,
  exists c' w',
    ingestLoop parseFloat toISODate csvRecord fuel env self delay companies c w
    = (Return c', w') /\
    Counters.successCount c' + Counters.errorCount c'
    = Counters.successCount c + Counters.errorCount c
      + Z.of_nat (length companies).
Proof.
  intros Hm Hfuel. induction companies as [ | company rest IH ]; intros c w.
  - exists c, w. split; [ reflexivity | simpl; lia ].
  - rewrite ingestLoop_cons.
    destruct (ingestOne_returns fuel env self company c w m Hm Hfuel)
      as (c1 & w1 & -> & Hc1).
    destruct (IH c1 (match rest with [] => w1 | _ :: _ => snd (sleep delay w1) end))
      as (c' & w' & -> & Hc').
    exists c', w'. split; [ reflexivity | ].
    rewrite Hc', Hc1. cbn [length]. lia.
Qed.

(** [fetchAllStockData] once the API key is there. *)
Lemma fetchAllStockData_eq fuel env self w :
  Js.truthy_str (Env.ALPHA_VANTAGE_API_KEY env) = true ->
  fetchAllStockData parseFloat toISODate csvRecord fuel env self w
  = match ingestLoop parseFloat toISODate csvRecord fuel env self
            (perRequestDelayMs env) (Agent.companies self)
            (Counters.mk 0 0 0) w with
    | (Return c, wl) => (Return c, snd (updateLastUpdateTime self wl))
    | (Throw e, wl) => (Throw e, wl)
    | (Diverge, wl) => (Diverge, wl)
    end.
Proof.
  intros Hkey. unfold fetchAllStockData. rewrite Hkey. cbn [negb].
  fold (perRequestDelayMs env).
  unfold try_catch at 1. unfold bind at 1.
  destruct (ingestLoop parseFloat toISODate csvRecord fuel env self
              (perRequestDelayMs env) (Agent.companies self)
              (Counters.mk 0 0 0) w) as [ [ c | e | ] wl ]; try reflexivity.
  unfold bind. rewrite updateLastUpdateTime_eq. reflexivity.
Qed.

Lemma fetchAllStockData_no_key fuel env self w :
  Js.truthy_str (Env.ALPHA_VANTAGE_API_KEY env) = false ->
  fetchAllStockData parseFloat toISODate csvRecord fuel env self w
  = (Throw "Alpha Vantage API key not configured", w).
Proof.
  intros Hkey. unfold fetchAllStockData. rewrite Hkey. reflexivity.
Qed.

(** A run that returns had its key, and went through the loop and the
    update of the sidecar. *)
Lemma fetchAllStockData_Return fuel env self w c w' :
  fetchAllStockData parseFloat toISODate csvRecord fuel env self w
  = (Return c, w') ->
  exists wl,
    ingestLoop parseFloat toISODate csvRecord fuel env self
      (perRequestDelayMs env) (Agent.companies self) (Counters.mk 0 0 0) w
    = (Return c, wl) /\
    w' = snd (updateLastUpdateTime self wl).
Proof.
  intros H.
  destruct (Js.truthy_str (Env.ALPHA_VANTAGE_API_KEY env)) eqn:Hkey.
  - rewrite fetchAllStockData_eq in H by exact Hkey.
    destruct (ingestLoop parseFloat toISODate csvRecord fuel env self
                (perRequestDelayMs env) (Agent.companies self)
                (Counters.mk 0 0 0) w) as [ [ c0 | e | ] wl ];
      inversion H; subst. eauto.
  - rewrite fetchAllStockData_no_key in H by exact Hkey. discriminate.
Qed.

(** With its key and a numeric retry budget, a run returns, and has
    counted every configured symbol once. *)
Lemma fetchAllStockData_returns fuel env self m w :
  Js.truthy_str (Env.ALPHA_VANTAGE_API_KEY env) = true ->
  maxAttempts env = Some m -> enough_fuel m fuel ->
  exists c wl,
    ingestLoop parseFloat toISODate csvRecord fuel env self
      (perRequestDelayMs env) (Agent.companies self) (Counters.mk 0 0 0) w
    = (Return c, wl) /\
    fetchAllStockData parseFloat toISODate csvRecord fuel env self w
    = (Return c, snd (updateLastUpdateTime self wl)) /\
    Counters.successCount c + Counters.errorCount c
    = Z.of_nat (length (Agent.companies self)).
Proof.
  intros Hkey Hm Hfuel.
  rewrite fetchAllStockData_eq by exact Hkey.
  destruct (ingestLoop_returns fuel env self (perRequestDelayMs env) m Hm Hfuel
              (Agent.companies self) (Counters.mk 0 0 0) w)
    as (c & wl & -> & Hc).
  exists c, wl. repeat split. rewrite Hc. simpl. lia.
Qed.

End Ingestion.

(** C4, as the code has it. In the body of the loop, a symbol whose
    adapter result is a non-empty array has its rows appended to the table
    at once, in the world the next symbol starts from, and is counted in
    [successCount] (with its rows in [totalRows]); a symbol whose result is
    [null] or an empty array, or whose append throws, is counted in
    [errorCount] and leaves the table as it was.  The body never throws, the
    loop goes on with the remaining symbols, and a run with a numeric retry
    budget returns with every configured symbol counted once. *)
Theorem ingestion_tallies_each_symbol parseFloat toISODate csvRecord :
  (forall fuel env self company c w res w1,
      fetchCompanyData parseFloat toISODate fuel env self company w = (res, w1) ->
      res <> Diverge ->
      exists c' w2,
        ingestOne parseFloat toISODate csvRecord fuel env self company c w
        = (Return c', w2) /\
        match res with
        | Return (Some ((_ :: _) as rows)) =>
            if negb (World.fsFault w1 (World.fsOps w1))
               && Store.dirExists (World.store w1)
            then c' = tally_success c (length rows) /\
                 Store.csvFile (World.store w2)
                 = Some (default "" (Store.csvFile (World.store w1))
                         ++ records csvRecord rows)%string
            else c' = tally_error c /\ World.store w2 = World.store w1
        | _ => c' = tally_error c /\ w2 = w1
        end) /\
  (forall fuel env self delay company next rest c w c' w2,
      ingestOne parseFloat toISODate csvRecord fuel env self company c w
      = (Return c', w2) ->
      ingestLoop parseFloat toISODate csvRecord fuel env self delay
        (company :: next :: rest) c w
      = ingestLoop parseFloat toISODate csvRecord fuel env self delay
          (next :: rest) c' (snd (sleep delay w2))) /\
  (forall fuel env self m w,
      Js.truthy_str (Env.ALPHA_VANTAGE_API_KEY env) = true ->
      maxAttempts env = Some m -> enough_fuel m fuel ->
      exists c w',
        fetchAllStockData parseFloat toISODate csvRecord fuel env self w
        = (Return c, w') /\
        Counters.successCount c + Counters.errorCount c
        = Z.of_nat (length (Agent.companies self))).
Proof.
  split; [ | split ].
  - intros fuel env self company c w res w1 Hres Hfin.
    rewrite ingestOne_eq, Hres.
    destruct res as [ [ [ | r rs ] | ] | e | ]; try congruence;
      try (eexists; eexists; split; [ reflexivity | split; reflexivity ]).
    rewrite saveToCsv_eq.
    destruct (negb (World.fsFault w1 (World.fsOps w1)) &&
              Store.dirExists (World.store w1));
      eexists; eexists; (split; [ reflexivity | split; reflexivity ]).
  - intros fuel env self delay company next rest c w c' w2 Hone.
    rewrite ingestLoop_cons, Hone. reflexivity.
  - intros fuel env self m w Hkey Hm Hfuel.
    destruct (fetchAllStockData_returns parseFloat toISODate csvRecord
                fuel env self m w Hkey Hm Hfuel) as (c & wl & _ & Hrun & Hc).
    eauto.
Qed.

Lemma ingestion_tallies_each_symbol_witness :
  let w := Examples.world Examples.ready 1000 Examples.noFault
             Examples.alphaTwoDays Examples.yahooDown in
  let self := Examples.agent [Examples.aapl; Examples.msft] in
  let env := Examples.env None in
  let w2 := snd (ingestOne Engine.parseFloat Engine.toISODate Engine.csvRecord 5
                   env self Examples.aapl (Counters.mk 0 0 0) w) in
  (ingestOne Engine.parseFloat Engine.toISODate Engine.csvRecord 5
     env self Examples.aapl (Counters.mk 0 0 0) w
   = (Return (Counters.mk 1 0 2), w2) /\
   Store.csvFile (World.store w2)
   = Some ((csvHeader ++ newline)
           ++ records Engine.csvRecord Examples.aaplTwoDays)%string) /\
  ingestLoop Engine.parseFloat Engine.toISODate Engine.csvRecord 5 env self
    (Some 15000) [Examples.aapl; Examples.msft] (Counters.mk 0 0 0) w
  = ingestLoop Engine.parseFloat Engine.toISODate Engine.csvRecord 5 env self
      (Some 15000) [Examples.msft] (Counters.mk 1 0 2)
      (snd (sleep (Some 15000) w2)) /\
  exists c w',
    fetchAllStockData Engine.parseFloat Engine.toISODate Engine.csvRecord 5
      env self w = (Return c, w') /\
    Counters.successCount c + Counters.errorCount c = 2.
Proof.
  intros w self env w2.
  pose proof (ingestion_tallies_each_symbol
                Engine.parseFloat Engine.toISODate Engine.csvRecord)
    as (Hstep & Hnext & Hrun).
  assert (Hone : ingestOne Engine.parseFloat Engine.toISODate Engine.csvRecord 5
                   env self Examples.aapl (Counters.mk 0 0 0) w
                 = (Return (Counters.mk 1 0 2), w2))
    by (vm_compute; reflexivity).
  split; [ | split ].
  - destruct (Hstep 5%nat env self Examples.aapl (Counters.mk 0 0 0) w
                (Return (Some Examples.aaplTwoDays))
                (snd (fetchCompanyData Engine.parseFloat Engine.toISODate 5
                        env self Examples.aapl w)))
      as (c' & w2' & Hone' & Hok).
    + vm_compute. reflexivity.
    + discriminate.
    + rewrite Hone in Hone'. inversion Hone'; subst c' w2'.
      split; [ reflexivity | ]. exact (proj2 Hok).
  - exact (Hnext 5%nat env self (Some 15000) Examples.aapl Examples.msft []
             (Counters.mk 0 0 0) w (Counters.mk 1 0 2) w2 Hone).
  - apply (Hrun 5%nat env self 5 w).
    + reflexivity.
    + reflexivity.
    + unfold enough_fuel. vm_compute. lia.
Defined.

(** What that run leaves: both symbols appended, in order. *)
Example two_symbols_ingested :
  let r := fetchAllStockData Engine.parseFloat Engine.toISODate Engine.csvRecord 5
             (Examples.env None) (Examples.agent [Examples.aapl; Examples.msft])
             (Examples.world Examples.ready 1000 Examples.noFault
                Examples.alphaTwoDays Examples.yahooDown) in
  fst r = Return (Counters.mk 2 0 4) /\
  Store.csvFile (World.store (snd r))
  = Some (Examples.line csvHeader
          ++ Examples.line "2024-01-02,AAPL,Apple Inc.,Technology,0,10,0,10,1000,10,10,0"
          ++ Examples.line "2024-01-03,AAPL,Apple Inc.,Technology,10,12.5,10,12.5,1000,12.5,2.5,25"
          ++ Examples.line "2024-01-02,MSFT,Microsoft Corporation,Technology,0,10,0,10,1000,10,10,0"
          ++ Examples.line "2024-01-03,MSFT,Microsoft Corporation,Technology,10,12.5,10,12.5,1000,12.5,2.5,25")%string /\
  World.trace (snd r)
  = [EvAlpha (Examples.params "AAPL"); EvCsvWrite true 2; EvSleep (Some 15000);
     EvAlpha (Examples.params "MSFT"); EvCsvWrite true 2; EvMetaWrite].
Proof. vm_compute. repeat split; reflexivity. Qed.

(** A result that is not [null] but empty is counted as an error: the
    primary provider answers with a time series that has no day. *)
Lemma empty_result_counts_as_error :
  let w := Examples.world Examples.ready 1000 Examples.noFault
             Examples.alphaNoDays Examples.yahooOneDay in
  let self := Examples.agent [Examples.aapl] in
  fst (fetchCompanyData Engine.parseFloat Engine.toISODate 5 (Examples.env None)
         self Examples.aapl w) = Return (Some []) /\
  fst (ingestOne Engine.parseFloat Engine.toISODate Engine.csvRecord 5
         (Examples.env None) self Examples.aapl (Counters.mk 0 0 0) w)
  = Return (Counters.mk 0 1 0).
Proof. vm_compute. split; reflexivity. Qed.

(** ** The sidecar after a run (C5, C10) *)

(** *** The count that the sidecar records

    [getDataPointCount] splits the text at the line breaks, drops the
    pieces that [trim] empties, and takes one off their number; this is the
    count of the specification. *)

Lemma trim_blank_cons c s :
  String.eqb (Js.trim (String c s)) ""
  = Js.is_space c && String.eqb (Js.trim s) "".
Proof.
  unfold Js.trim. cbn [Js.trimStart].
  destruct (Js.is_space c) eqn:E; [ reflexivity | ].
  cbn [Js.trimEnd]. rewrite E. reflexivity.
Qed.

Lemma nonempty_lines_split text :
  forall seen,
    match Js.split (ascii_of_nat 10) text with
    | [] => False
    | h :: t =>
        nonempty_lines text seen
        = ((if seen || negb (String.eqb (Js.trim h) "") then 1 else 0)
           + length (List.filter
                       (fun line => negb (String.eqb (Js.trim line) "")) t))%nat
    end.
Proof.
  induction text as [ | c rest IH ]; intros seen.
  - cbn. destruct seen; reflexivity.
  - cbn [Js.split nonempty_lines].
    destruct (Ascii.eqb c (ascii_of_nat 10)).
    + specialize (IH false).
      destruct (Js.split (ascii_of_nat 10) rest) as [ | h t ]; [ contradiction | ].
      rewrite IH. cbn [List.filter length orb].
      change (Js.trim "") with "". cbn [String.eqb negb].
      rewrite orb_false_r.
      destruct (negb (String.eqb (Js.trim h) "")); cbn [length]; lia.
    + specialize (IH (seen || negb (Js.is_space c))).
      destruct (Js.split (ascii_of_nat 10) rest) as [ | h t ]; [ contradiction | ].
      rewrite IH, trim_blank_cons, negb_andb, orb_assoc. reflexivity.
Qed.

Lemma nonblank_lines_count text :
  length (nonblank_lines text) = nonempty_lines text false.
Proof.
  unfold nonblank_lines. pose proof (nonempty_lines_split text false) as H.
  destruct (Js.split (ascii_of_nat 10) text) as [ | h t ]; [ contradiction | ].
  rewrite H. cbn [List.filter orb].
  destruct (negb (String.eqb (Js.trim h) "")); reflexivity.
Qed.

Lemma dataPointsOf_rows_on_disk csv : dataPointsOf csv = rows_on_disk csv.
Proof.
  destruct csv as [ text | ]; [ | reflexivity ].
  unfold dataPointsOf, rows_on_disk. rewrite nonblank_lines_count. lia.
Qed.

(** C5. A run that has its key and a numeric retry budget returns; and in
    every run that returns, the loop is followed by the update of the
    sidecar: provided the data directory exists and the two file-system
    calls of the update do not fail, the sidecar then holds the clock at the
    end of the loop, the number of configured companies, and the number of
    rows of the table as it is on disk at the end of the loop, that is the
    number of its lines that hold more than white space, less the header:
    none of them depends on the counters of the run. *)
Theorem sidecar_rewritten_after_loop parseFloat toISODate csvRecord :
  (forall fuel env self m w,
      Js.truthy_str (Env.ALPHA_VANTAGE_API_KEY env) = true ->
      maxAttempts env = Some m -> enough_fuel m fuel ->
      exists c w',
        fetchAllStockData parseFloat toISODate csvRecord fuel env self w
        = (Return c, w')) /\
  (forall fuel env self w c w',
      fetchAllStockData parseFloat toISODate csvRecord fuel env self w
      = (Return c, w') ->
      exists wl,
        ingestLoop parseFloat toISODate csvRecord fuel env self
          (perRequestDelayMs env) (Agent.companies self) (Counters.mk 0 0 0) w
        = (Return c, wl) /\
        (Store.dirExists (World.store wl) = true ->
         World.fsFault wl (World.fsOps wl) = false ->
         World.fsFault wl (S (World.fsOps wl)) = false ->
         World.store w'
         = Store.mk true (Store.csvFile (World.store wl))
             (Some (MetaJson (JsonInfo
                (UpdateInfo.mk (World.now wl)
                   (Z.of_nat (length (Agent.companies self)))
                   (rows_on_disk (Store.csvFile (World.store wl))))))))).
Proof.
  split.
  - intros fuel env self m w Hkey Hm Hfuel.
    destruct (fetchAllStockData_returns parseFloat toISODate csvRecord
                fuel env self m w Hkey Hm Hfuel) as (c & wl & _ & Hrun & _).
    eauto.
  - intros fuel env self w c w' H.
    apply fetchAllStockData_Return in H as (wl & Hloop & ->).
    exists wl. split; [ exact Hloop | ].
    intros Hdir Hread Hwrite. rewrite updateLastUpdateTime_eq.
    cbn [snd]. rewrite Hdir, Hread, Hwrite, dataPointsOf_rows_on_disk.
    reflexivity.
Qed.

(** On a table that holds four rows: a run in which every symbol failed
    appends nothing and counts no row, and the sidecar it writes records
    the four rows of the table; a run that appends four rows counts four,
    and the sidecar records eight. *)
Lemma sidecar_rewritten_after_loop_witness :
  let self := Examples.agent [Examples.aapl; Examples.msft] in
  let run := fun alpha =>
    fetchAllStockData Engine.parseFloat Engine.toISODate Engine.csvRecord 5
      (Examples.env None) self
      (Examples.world (Store.mk true (Some Examples.duplicated) None) 1000
         Examples.noFault alpha Examples.yahooDown) in
  ((exists c w', run Examples.alphaDown = (Return c, w')) /\
   fst (run Examples.alphaDown) = Return (Counters.mk 0 2 0) /\
   World.store (snd (run Examples.alphaDown))
   = Store.mk true (Some Examples.duplicated)
       (Some (MetaJson (JsonInfo (UpdateInfo.mk 16000 2 4))))) /\
  (fst (run Examples.alphaTwoDays) = Return (Counters.mk 2 0 4) /\
   Store.metaFile (World.store (snd (run Examples.alphaTwoDays)))
   = Some (MetaJson (JsonInfo (UpdateInfo.mk 16000 2 8)))).
Proof.
  intros self run.
  pose proof (sidecar_rewritten_after_loop Engine.parseFloat Engine.toISODate
                Engine.csvRecord) as (Hreturns & Hsidecar).
  assert (Hpin : forall alpha c,
             fst (run alpha) = Return c ->
             exists wl,
               wl = snd (ingestLoop Engine.parseFloat Engine.toISODate
                           Engine.csvRecord 5 (Examples.env None) self
                           (perRequestDelayMs (Examples.env None))
                           (Agent.companies self) (Counters.mk 0 0 0)
                           (Examples.world
                              (Store.mk true (Some Examples.duplicated) None) 1000
                              Examples.noFault alpha Examples.yahooDown)) /\
               (Store.dirExists (World.store wl) = true ->
                World.fsFault wl (World.fsOps wl) = false ->
                World.fsFault wl (S (World.fsOps wl)) = false ->
                World.store (snd (run alpha))
                = Store.mk true (Store.csvFile (World.store wl))
                    (Some (MetaJson (JsonInfo
                       (UpdateInfo.mk (World.now wl)
                          (Z.of_nat (length (Agent.companies self)))
                          (rows_on_disk (Store.csvFile (World.store wl))))))))).
  { intros alpha c Hc.
    destruct (Hsidecar 5%nat (Examples.env None) self
                (Examples.world (Store.mk true (Some Examples.duplicated) None)
                   1000 Examples.noFault alpha Examples.yahooDown)
                c (snd (run alpha))) as (wl & Hloop & Hmeta).
    - subst run. cbn beta in *.
      destruct (fetchAllStockData _ _ _ _ _ _ _) as [ o w' ].
      cbn [fst snd] in *. subst o. reflexivity.
    - exists wl. split; [ rewrite Hloop; reflexivity | exact Hmeta ]. }
  split.
  - split.
    { apply (Hreturns 5%nat (Examples.env None) self 5).
      - reflexivity.
      - reflexivity.
      - unfold enough_fuel. vm_compute. lia. }
    split; [ vm_compute; reflexivity | ].
    destruct (Hpin Examples.alphaDown (Counters.mk 0 2 0)) as (wl & -> & Hmeta);
      [ vm_compute; reflexivity | ].
    rewrite Hmeta; vm_compute; reflexivity.
  - split; [ vm_compute; reflexivity | ].
    destruct (Hpin Examples.alphaTwoDays (Counters.mk 2 0 4)) as (wl & -> & Hmeta);
      [ vm_compute; reflexivity | ].
    rewrite Hmeta; vm_compute; reflexivity.
Defined.

(** The recorded count is read back from the table: here the table held
    four rows before the run, which appended four. *)
Example dataPoints_from_table :
  let r := fetchAllStockData Engine.parseFloat Engine.toISODate Engine.csvRecord 5
             (Examples.env None) (Examples.agent [Examples.aapl; Examples.msft])
             (Examples.world (Store.mk true (Some Examples.duplicated) None) 1000
                Examples.noFault Examples.alphaTwoDays Examples.yahooDown) in
  fst r = Return (Counters.mk 2 0 4) /\
  Store.metaFile (World.store (snd r))
  = Some (MetaJson (JsonInfo (UpdateInfo.mk 16000 2 8))).
Proof. vm_compute. split; reflexivity. Qed.

(** C10. [updateLastUpdateTime] always returns normally; when the write of
    the sidecar fails it leaves the store as it is.  So a run (with its key
    and a numeric retry budget) gets through its loop, and when the write of
    the sidecar then fails it still returns its counters, and the sidecar is
    the one from before the run, or still absent. *)
Theorem sidecar_write_failure_swallowed parseFloat toISODate csvRecord :
  (forall self w,
      fst (updateLastUpdateTime self w) = Return tt /\
      (World.fsFault w (S (World.fsOps w)) = true ->
       World.store (snd (updateLastUpdateTime self w)) = World.store w)) /\
  (forall fuel env self m w,
      Js.truthy_str (Env.ALPHA_VANTAGE_API_KEY env) = true ->
      maxAttempts env = Some m -> enough_fuel m fuel ->
      exists c wl,
        ingestLoop parseFloat toISODate csvRecord fuel env self
          (perRequestDelayMs env) (Agent.companies self) (Counters.mk 0 0 0) w
        = (Return c, wl) /\
        (World.fsFault wl (S (World.fsOps wl)) = true ->
         exists w',
           fetchAllStockData parseFloat toISODate csvRecord fuel env self w
           = (Return c, w') /\
           World.store w' = World.store wl /\
           Store.metaFile (World.store w') = Store.metaFile (World.store w))).
Proof.
  split.
  - intros self w. rewrite updateLastUpdateTime_eq. split; [ reflexivity | ].
    intros ->. reflexivity.
  - intros fuel env self m w Hkey Hm Hfuel.
    destruct (fetchAllStockData_returns parseFloat toISODate csvRecord
                fuel env self m w Hkey Hm Hfuel) as (c & wl & Hloop & Hrun & _).
    exists c, wl. split; [ exact Hloop | ]. intros Hfail.
    eexists. split; [ exact Hrun | ].
    rewrite updateLastUpdateTime_eq. cbn [snd]. rewrite Hfail. cbn [negb andb].
    split; [ reflexivity | ].
    pose proof (ingestLoop_frame parseFloat toISODate csvRecord fuel env self
                  (perRequestDelayMs env) (Agent.companies self)
                  (Counters.mk 0 0 0) w) as (_ & Hmeta & _).
    rewrite Hloop in Hmeta. exact Hmeta.
Qed.

Lemma sidecar_write_failure_swallowed_witness :
  let old := MetaJson (JsonInfo (UpdateInfo.mk 5 1 0)) in
  let w := Examples.world
             (Store.mk true (Some (csvHeader ++ newline)%string) (Some old)) 1000
             (fun k => Nat.eqb k 1) Examples.alphaDown Examples.yahooDown in
  let self := Examples.agent [Examples.aapl] in
  (fst (updateLastUpdateTime self w) = Return tt /\
   World.store (snd (updateLastUpdateTime self w)) = World.store w) /\
  exists w',
    fetchAllStockData Engine.parseFloat Engine.toISODate Engine.csvRecord 5
      (Examples.env None) self w = (Return (Counters.mk 0 1 0), w') /\
    Store.metaFile (World.store w') = Some old.
Proof.
  intros old w self.
  pose proof (sidecar_write_failure_swallowed Engine.parseFloat Engine.toISODate
                Engine.csvRecord) as [Hupdate Hrun].
  split.
  - destruct (Hupdate self w) as [Hret Hstore].
    split; [ exact Hret | apply Hstore; reflexivity ].
  - destruct (Hrun 5%nat (Examples.env None) self 5 w)
      as (c & wl & Hloop & Hfail).
    + reflexivity.
    + reflexivity.
    + unfold enough_fuel. vm_compute. lia.
    + assert (Hcw : (Return c, wl)
                    = (Return (Counters.mk 0 1 0),
                       snd (ingestLoop Engine.parseFloat Engine.toISODate
                              Engine.csvRecord 5 (Examples.env None) self
                              (perRequestDelayMs (Examples.env None))
                              (Agent.companies self) (Counters.mk 0 0 0) w)))
        by (rewrite <- Hloop; vm_compute; reflexivity).
      inversion Hcw; subst c wl.
      destruct Hfail as (w' & Hw' & _ & Hmeta); [ vm_compute; reflexivity | ].
      exists w'. split; [ exact Hw' | exact Hmeta ].
Defined.

(** ** Freshness (C6) *)

Lemma over_24_hours now t :
  negb (Qle_bool (hoursBetween now t) (inject_Z 24))
  = bool_decide (DAY_MS < now - t).
Proof.
  unfold hoursBetween, Qle_bool, inject_Z, DAY_MS. cbn [Qnum Qden].
  destruct (Z.leb_spec ((now - t) * 1) (24 * 3600000)%Z);
    cbn [negb]; symmetry; [ apply bool_decide_eq_false | apply bool_decide_eq_true ];
    lia.
Qed.

(** What [needsUpdate] answers, by the state of the sidecar and of the two
    file-system calls it makes. *)
Lemma needsUpdate_fst w :
  fst (needsUpdate w)
  = Return
      (if World.fsFault w (World.fsOps w) then true
       else match Store.metaFile (World.store w) with
            | None => true
            | Some content =>
                if World.fsFault w (S (World.fsOps w)) then true
                else match content with
                     | MetaGarbage => true
                     | MetaJson (JsonOther b) => negb b
                     | MetaJson (JsonInfo u) =>
                         bool_decide (DAY_MS < World.now w - UpdateInfo.lastUpdate u)
                     end
            end).
Proof.
  destruct w as [ s n ff fo an yn no tr ].
  unfold needsUpdate, getLastUpdateInfo.
  unfold try_catch at 1. unfold bind at 1.
  unfold try_catch at 1. unfold bind at 1.
  rewrite fileExists_eq. unfold present. world_simpl.
  destruct (ff fo); [ reflexivity | ]. cbn [negb andb].
  destruct (Store.metaFile s) as [ content | ] eqn:Hmeta; [ | reflexivity ].
  unfold readMeta. unfold_m. world_simpl.
  destruct (ff (S fo)); [ reflexivity | ]. world_simpl. rewrite Hmeta.
  destruct content as [ [ u | [ | ] ] | ]; try reflexivity.
  cbn -[hoursBetween Qle_bool inject_Z]. rewrite over_24_hours. reflexivity.
Qed.

(** C6. [needsUpdate] answers true when there is no sidecar.  After a run
    of [fetchAllStockData] that returned, on a file system that does not
    fail and with the data directory in place, the sidecar holds the clock
    of the end of the run, [needsUpdate] answers false at once, and later,
    as long as the sidecar is the same, it answers true exactly when the
    clock is more than 24 hours past the recorded time. *)
Theorem needsUpdate_freshness parseFloat toISODate csvRecord :
  (forall w,
      Store.metaFile (World.store w) = None ->
      fst (needsUpdate w) = Return true) /\
  (forall fuel env self w c w',
      fetchAllStockData parseFloat toISODate csvRecord fuel env self w
      = (Return c, w') ->
      Store.dirExists (World.store w) = true ->
      (forall k, World.fsFault w k = false) ->
      (exists u,
          Store.metaFile (World.store w') = Some (MetaJson (JsonInfo u)) /\
          UpdateInfo.lastUpdate u = World.now w') /\
      fst (needsUpdate w') = Return false /\
      (forall w2,
          World.store w2 = World.store w' ->
          (forall k, World.fsFault w2 k = false) ->
          fst (needsUpdate w2)
          = Return (bool_decide (DAY_MS < World.now w2 - World.now w')))).
Proof.
  split.
  - intros w Hnone. rewrite needsUpdate_fst, Hnone.
    destruct (World.fsFault w (World.fsOps w)); reflexivity.
  - intros fuel env self w c w' Hrun Hdir Hfs.
    apply fetchAllStockData_Return in Hrun as (wl & Hloop & Hw').
    pose proof (ingestLoop_frame parseFloat toISODate csvRecord fuel env self
                  (perRequestDelayMs env) (Agent.companies self)
                  (Counters.mk 0 0 0) w) as (Hff & _ & Hd).
    rewrite Hloop in Hff, Hd. cbn [snd] in Hff, Hd. specialize (Hd Hdir).
    rewrite updateLastUpdateTime_eq in Hw'. cbn [snd] in Hw'.
    rewrite Hff, !Hfs, Hd in Hw'. cbn [negb andb] in Hw'.
    assert (Hmeta : Store.metaFile (World.store w')
                    = Some (MetaJson (JsonInfo
                        (UpdateInfo.mk (World.now wl)
                           (Z.of_nat (length (Agent.companies self)))
                           (dataPointsOf (Store.csvFile (World.store wl)))))))
      by (subst w'; reflexivity).
    assert (Hnow : World.now w' = World.now wl) by (subst w'; reflexivity).
    assert (Hfs' : forall k, World.fsFault w' k = false)
      by (intros k; subst w'; world_simpl; rewrite Hff; apply Hfs).
    split; [ eexists; split; [ exact Hmeta | rewrite Hnow; reflexivity ] | ].
    split.
    + rewrite needsUpdate_fst, Hmeta, !Hfs'. cbn [UpdateInfo.lastUpdate].
      rewrite Hnow. f_equal. apply bool_decide_eq_false. unfold DAY_MS. lia.
    + intros w2 Hs2 Hfs2. rewrite needsUpdate_fst, Hs2, Hmeta, !Hfs2.
      cbn [UpdateInfo.lastUpdate]. rewrite Hnow. reflexivity.
Qed.

Lemma needsUpdate_freshness_witness :
  let w := Examples.world Examples.ready 1000 Examples.noFault
             Examples.alphaTwoDays Examples.yahooDown in
  let self := Examples.agent [Examples.aapl; Examples.msft] in
  let w' := snd (fetchAllStockData Engine.parseFloat Engine.toISODate
                   Engine.csvRecord 5 (Examples.env None) self w) in
  fst (needsUpdate w) = Return true /\
  World.now w' = 16000 /\
  fst (needsUpdate w') = Return false /\
  fst (needsUpdate (World.with_now (16000 + DAY_MS) w')) = Return false /\
  fst (needsUpdate (World.with_now (16000 + DAY_MS + 1) w')) = Return true.
Proof.
  intros w self w'.
  pose proof (needsUpdate_freshness Engine.parseFloat Engine.toISODate
                Engine.csvRecord) as [Hcold Hrun].
  split; [ apply Hcold; reflexivity | ].
  split; [ vm_compute; reflexivity | ].
  destruct (Hrun 5%nat (Examples.env None) self w (Counters.mk 2 0 4) w')
    as (_ & Hfresh & Hlater).
  - vm_compute. reflexivity.
  - reflexivity.
  - intros k. reflexivity.
  - split; [ exact Hfresh | ].
    split; (rewrite Hlater; [ vm_compute; reflexivity | vm_compute; reflexivity
                            | intros k; vm_compute; reflexivity ]).
Defined.

(** A sidecar from a run in which nothing was fetched makes the data look
    fresh all the same. *)
Example failed_run_looks_fresh :
  let w := Examples.world Examples.ready 1000 Examples.noFault
             Examples.alphaDown Examples.yahooDown in
  let r := fetchAllStockData Engine.parseFloat Engine.toISODate Engine.csvRecord 5
             (Examples.env None) (Examples.agent [Examples.aapl]) w in
  fst r = Return (Counters.mk 0 1 0) /\ fst (needsUpdate (snd r)) = Return false.
Proof. vm_compute. split; reflexivity. Qed.

(** ** Query engine (C1) *)

Section SortFacts.
Context {A : Type} (cmp : A -> A -> option Z).

Lemma insert_sorted_length x l :
  length (Js.insert_sorted cmp x l) = S (length l).
Proof.
  induction l as [ | y l IH ]; simpl; [ reflexivity | ].
  destruct (Js.after cmp x y); simpl; [ rewrite IH | ]; reflexivity.
Qed.

Lemma sort_length l : length (Js.sort cmp l) = length l.
Proof.
  induction l as [ | x l IH ]; simpl; [ reflexivity | ].
  rewrite insert_sorted_length, IH. reflexivity.
Qed.

Lemma insert_sorted_Forall (P : A -> Prop) x l :
  P x -> Forall P l -> Forall P (Js.insert_sorted cmp x l).
Proof.
  intros Hx Hl. induction Hl as [ | y l Hy Hl IH ]; simpl.
  - constructor; [ assumption | constructor ].
  - destruct (Js.after cmp x y); constructor; auto.
Qed.

Lemma sort_Forall (P : A -> Prop) l : Forall P l -> Forall P (Js.sort cmp l).
Proof.
  induction 1 as [ | x l Hx Hl IH ]; simpl; [ constructor | ].
  apply insert_sorted_Forall; assumption.
Qed.
End SortFacts.

Section Query.
Context (parseFloat : string -> float) (Date_parse : string -> option Z).

Local Abbreviation date_of := (rowDate Date_parse).
Local Abbreviation by_date := (byDateDesc Date_parse).
Local Abbreviation not_older := (not_older Date_parse).
Local Abbreviation dated := (dated Date_parse).

Lemma after_spec a b ta tb :
  date_of a = Some ta -> date_of b = Some tb ->
  Js.after by_date a b = (ta <? tb).
Proof.
  intros Ha Hb. unfold Js.after, byDateDesc. rewrite Ha, Hb.
  destruct (Z.ltb_spec 0 (tb - ta)), (Z.ltb_spec ta tb); auto; lia.
Qed.

Lemma insert_sorted_desc x l :
  dated x -> Forall dated l ->
  StronglySorted not_older l ->
  StronglySorted not_older (Js.insert_sorted by_date x l).
Proof.
  intros [tx Hx] Hl Hs. induction Hs as [ | y l Hs IH Hy ]; simpl.
  - constructor; constructor.
  - inversion Hl as [ | ? ? [ty Hty] Hl' ]; subst.
    rewrite (after_spec x y tx ty Hx Hty).
    destruct (Z.ltb_spec tx ty).
    + constructor; [ auto | ].
      apply insert_sorted_Forall; [ | assumption ].
      unfold not_older. rewrite Hty, Hx. simpl. lia.
    + constructor; [ constructor; assumption | ].
      constructor.
      * unfold not_older. rewrite Hty, Hx. simpl. lia.
      * eapply Forall_impl; [ exact Hy | ].
        intros z. unfold not_older. rewrite Hty, Hx.
        destruct (date_of z); simpl; [ lia | auto ].
Qed.

Lemma sort_desc l :
  Forall dated l -> StronglySorted not_older (Js.sort by_date l).
Proof.
  induction 1 as [ | x l Hx Hl IH ]; simpl; [ constructor | ].
  apply insert_sorted_desc; auto. apply sort_Forall. assumption.
Qed.

(** Sorting an array that is in order leaves it as it is. *)
Lemma sort_sorted l :
  Forall dated l -> StronglySorted not_older l -> Js.sort by_date l = l.
Proof.
  intros Hl Hs. induction Hs as [ | x l Hs IH Hx ]; simpl; [ reflexivity | ].
  inversion Hl as [ | ? ? [tx Htx] Hl' ]; subst.
  rewrite IH by assumption.
  destruct l as [ | y l ]; [ reflexivity | ]. simpl.
  inversion Hl' as [ | ? ? [ty Hty] _ ]; subst.
  rewrite (after_spec x y tx ty Htx Hty).
  inversion Hx as [ | ? ? Hxy _ ]; subst.
  unfold not_older in Hxy. rewrite Htx, Hty in Hxy. simpl in Hxy.
  destruct (Z.ltb_spec tx ty); [ lia | reflexivity ].
Qed.

Lemma StronglySorted_take {B} (R : B -> B -> Prop) n l :
  StronglySorted R l -> StronglySorted R (take n l).
Proof.
  intros Hs. revert n. induction Hs as [ | x l Hs IH Hx ]; intros [ | n ]; simpl;
    try constructor; auto.
  apply Forall_take. assumption.
Qed.

Lemma history_dates l :
  map PricePoint.date (map (pricePoint parseFloat Date_parse) l) = map date_of l.
Proof. induction l as [ | r l IH ]; simpl; [ | rewrite IH ]; reflexivity. Qed.

Lemma StronglySorted_dates l :
  StronglySorted not_older l -> StronglySorted date_ge (map date_of l).
Proof.
  induction 1 as [ | x l Hs IH Hx ]; simpl; constructor; auto.
  apply Forall_map. exact Hx.
Qed.

Lemma slice_to_take {B} stop (l : list B) :
  0 <= stop -> Js.slice_to stop l = take (Z.to_nat stop) l.
Proof.
  intros Hstop. unfold Js.slice_to.
  destruct (Z.ltb_spec stop 0); [ lia | ].
  destruct (Z.le_gt_cases stop (Z.of_nat (length l))).
  - rewrite Z.min_l by lia. reflexivity.
  - rewrite Z.min_r by lia. rewrite Nat2Z.id.
    rewrite !take_ge by lia. reflexivity.
Qed.

Lemma daysToKeep_nonneg period len : 0 <= daysToKeep period len.
Proof.
  unfold daysToKeep.
  repeat match goal with |- context [String.eqb ?a ?b] => destruct (String.eqb a b) end;
    lia.
Qed.

Lemma daysToKeep_other period len :
  period <> "1d" -> period <> "5d" -> period <> "1mo" ->
  period <> "3mo" -> period <> "6mo" -> period <> "1y" ->
  daysToKeep period len = Z.of_nat len.
Proof.
  intros H1 H2 H3 H4 H5 H6. unfold daysToKeep.
  repeat match goal with
         | |- context [String.eqb ?a ?b] =>
             destruct (String.eqb_spec a b); [ congruence | ]
         end.
  reflexivity.
Qed.

Lemma readCsv_eq w :
  readCsv w
  = (if World.fsFault w (World.fsOps w) then Throw "EIO"
     else match Store.csvFile (World.store w) with
          | Some text => Return text
          | None => Throw "ENOENT"
          end,
     World.tick_fs w).
Proof.
  unfold readCsv. unfold_m.
  destruct (World.fsFault w (World.fsOps w)); [ reflexivity | ].
  world_simpl. destruct (Store.csvFile (World.store w)); reflexivity.
Qed.

(** A query that returns has read the table and found rows of the
    symbol. *)
Lemma getStockData_Return symbol period w s w' :
  getStockData parseFloat Date_parse symbol period w = (Return s, w') ->
  exists csv,
    Store.csvFile (World.store w) = Some csv /\
    summarize parseFloat Date_parse csv symbol period = Return s.
Proof.
  destruct w as [ st n ff fo an yn no tr ].
  unfold getStockData. unfold try_catch at 1. unfold bind at 1.
  rewrite fileExists_eq. unfold present. world_simpl.
  destruct (ff fo); cbn [negb andb]; [ intros H; discriminate H | ].
  destruct (Store.csvFile st) as [ csv | ] eqn:Hcsv;
    [ | intros H; discriminate H ].
  cbn [negb]. unfold bind at 1. rewrite readCsv_eq. world_simpl. rewrite Hcsv.
  destruct (ff (S fo)); [ intros H; discriminate H | ].
  unfold lift.
  destruct (summarize parseFloat Date_parse csv symbol period) as [ s0 | | ] eqn:E;
    intros H; inversion H; subst. eauto.
Qed.

Lemma summarize_history csv symbol period s :
  summarize parseFloat Date_parse csv symbol period = Return s ->
  let rows := companyRows csv symbol in
  rows <> [] /\
  Summary.priceHistory s
  = map (pricePoint parseFloat Date_parse)
      (take (Z.to_nat (daysToKeep period (length rows)))
            (Js.sort by_date (Js.sort by_date rows))).
Proof.
  unfold summarize. destruct (_ <=? 1)%nat; [ discriminate | ].
  destruct (companyRows csv symbol) as [ | r rows ] eqn:Hrows;
    [ discriminate | ].
  cbn zeta.
  assert (Hlen : length (Js.sort by_date (r :: rows)) = S (length rows))
    by (rewrite sort_length; reflexivity).
  unfold filterByPeriod.
  destruct (Js.sort by_date (r :: rows)) as [ | r1 sorted1 ] eqn:Hs1;
    [ discriminate | ].
  assert (Hlen2 : length (Js.sort by_date (r1 :: sorted1)) = S (length rows))
    by (rewrite sort_length; exact Hlen).
  destruct (Js.sort by_date (r1 :: sorted1)) as [ | r2 sorted2 ] eqn:Hs2;
    [ discriminate | ].
  intros H. inversion H; subst; clear H. cbn [Summary.priceHistory].
  split; [ discriminate | ].
  rewrite slice_to_take by apply daysToKeep_nonneg.
  cbn [length] in *. replace (length sorted1) with (length rows) by lia.
  reflexivity.
Qed.

(** The query returns when the table is readable and has a row of the
    symbol. *)
Lemma summarize_returns csv symbol period :
  companyRows csv symbol <> [] ->
  exists s, summarize parseFloat Date_parse csv symbol period = Return s.
Proof.
  intros Hne. unfold summarize.
  assert (Hlines : (length (nonblank_lines csv) <=? 1)%nat = false).
  { unfold companyRows in Hne.
    destruct (nonblank_lines csv) as [ | head [ | l rest ] ];
      [ contradiction | simpl in Hne; contradiction | reflexivity ]. }
  rewrite Hlines.
  destruct (companyRows csv symbol) as [ | r rows ]; [ contradiction | ].
  cbn zeta. unfold filterByPeriod.
  pose proof (sort_length by_date (r :: rows)) as Hlen.
  destruct (Js.sort by_date (r :: rows)) as [ | r1 sorted1 ];
    [ discriminate Hlen | ].
  pose proof (sort_length by_date (r1 :: sorted1)) as Hlen2.
  destruct (Js.sort by_date (r1 :: sorted1)) as [ | r2 sorted2 ];
    [ discriminate Hlen2 | ].
  eauto.
Qed.

Lemma getStockData_returns symbol period w csv :
  Store.csvFile (World.store w) = Some csv ->
  World.fsFault w (World.fsOps w) = false ->
  World.fsFault w (S (World.fsOps w)) = false ->
  companyRows csv symbol <> [] ->
  exists s w', getStockData parseFloat Date_parse symbol period w = (Return s, w').
Proof.
  intros Hcsv Hf1 Hf2 Hne.
  destruct (summarize_returns csv symbol period Hne) as (s & Hs).
  unfold getStockData. unfold try_catch at 1. unfold bind at 1.
  rewrite fileExists_eq. unfold present. rewrite Hcsv, Hf1. cbn [negb andb].
  unfold bind at 1. rewrite readCsv_eq. world_simpl. rewrite Hcsv, Hf2.
  unfold lift. rewrite Hs. eauto.
Qed.

End Query.

(** C1, as the code has it. The period labels map to 1, 5, 30, 90, 180
    and 365, and any other label to the number of rows of the symbol.  A
    query on a readable table that has rows of the symbol returns; a query
    that returns gives as [priceHistory] the first [N] rows of the symbol's
    rows after sorting, so at most [N] of them, and all of them for another
    label; when every row of the symbol has a valid date, the second sort
    changes nothing and the dates of the history are in descending order,
    equal dates being allowed. *)
Theorem getStockData_history parseFloat Date_parse :
  (forall k,
      daysToKeep "1d" k = 1 /\ daysToKeep "5d" k = 5 /\
      daysToKeep "1mo" k = 30 /\ daysToKeep "3mo" k = 90 /\
      daysToKeep "6mo" k = 180 /\ daysToKeep "1y" k = 365) /\
  (forall period k,
      period <> "1d" -> period <> "5d" -> period <> "1mo" ->
      period <> "3mo" -> period <> "6mo" -> period <> "1y" ->
      daysToKeep period k = Z.of_nat k) /\
  (forall symbol period w csv,
      Store.csvFile (World.store w) = Some csv ->
      World.fsFault w (World.fsOps w) = false ->
      World.fsFault w (S (World.fsOps w)) = false ->
      companyRows csv symbol <> [] ->
      exists s w',
        getStockData parseFloat Date_parse symbol period w = (Return s, w')) /\
  (forall symbol period w s w',
      getStockData parseFloat Date_parse symbol period w = (Return s, w') ->
      exists csv,
        Store.csvFile (World.store w) = Some csv /\
        let rows := companyRows csv symbol in
        let N := daysToKeep period (length rows) in
        let sorted := Js.sort (byDateDesc Date_parse)
                        (Js.sort (byDateDesc Date_parse) rows) in
        Summary.priceHistory s
        = map (pricePoint parseFloat Date_parse) (take (Z.to_nat N) sorted) /\
        Z.of_nat (length (Summary.priceHistory s))
        = Z.min N (Z.of_nat (length rows)) /\
        (Forall (dated Date_parse) rows ->
         sorted = Js.sort (byDateDesc Date_parse) rows /\
         StronglySorted date_ge
           (map PricePoint.date (Summary.priceHistory s)))).
Proof.
  split; [ intros k; repeat split; reflexivity | ].
  split; [ intros period k; apply daysToKeep_other | ].
  split; [ intros symbol period w csv; apply getStockData_returns | ].
  intros symbol period w s w' H.
  apply getStockData_Return in H as (csv & Hcsv & Hsum).
  apply summarize_history in Hsum as (Hne & Hhist).
  exists csv. split; [ exact Hcsv | ]. cbn zeta.
  split; [ exact Hhist | ]. split.
  - rewrite Hhist, length_map, length_take, !sort_length.
    pose proof (daysToKeep_nonneg period (length (companyRows csv symbol))). lia.
  - intros Hdated.
    assert (Hsorted : StronglySorted (not_older Date_parse)
                        (Js.sort (byDateDesc Date_parse) (companyRows csv symbol)))
      by (apply sort_desc; exact Hdated).
    assert (Hsame : Js.sort (byDateDesc Date_parse)
                      (Js.sort (byDateDesc Date_parse) (companyRows csv symbol))
                    = Js.sort (byDateDesc Date_parse) (companyRows csv symbol))
      by (apply sort_sorted; [ apply sort_Forall; exact Hdated | exact Hsorted ]).
    split; [ exact Hsame | ].
    rewrite Hhist, Hsame, history_dates.
    apply StronglySorted_dates, StronglySorted_take. exact Hsorted.
Qed.

Lemma dated_check Date_parse rows :
  forallb (fun r => match rowDate Date_parse r with Some _ => true | None => false end)
          rows = true ->
  Forall (dated Date_parse) rows.
Proof.
  induction rows as [ | r rows IH ]; simpl; intros H; constructor.
  - unfold dated. destruct (rowDate Date_parse r); [ eauto | discriminate ].
  - apply IH. destruct (rowDate Date_parse r); [ exact H | discriminate ].
Qed.

Lemma getStockData_history_witness :
  let w := Examples.world (Store.mk true (Some Examples.duplicated) None) 0
             Examples.noFault Examples.alphaDown Examples.yahooDown in
  daysToKeep "max" 7 = 7 /\
  (exists s w',
      getStockData Engine.parseFloat Engine.Date_parse "aapl" "1d" w
      = (Return s, w')) /\
  exists s,
    fst (getStockData Engine.parseFloat Engine.Date_parse "aapl" "1d" w) = Return s /\
    length (Summary.priceHistory s) = 1%nat /\
    StronglySorted date_ge (map PricePoint.date (Summary.priceHistory s)).
Proof.
  intros w.
  pose proof (getStockData_history Engine.parseFloat Engine.Date_parse)
    as (_ & Hother & Hreturns & Hhistory).
  split; [ apply Hother; discriminate | ].
  split.
  { apply (Hreturns "aapl" "1d" w Examples.duplicated); try reflexivity.
    assert (Hlen : length (companyRows Examples.duplicated "aapl") = 3%nat)
      by (vm_compute; reflexivity).
    intros Hnil. rewrite Hnil in Hlen. discriminate Hlen. }
  eexists. split; [ vm_compute; reflexivity | ].
  split; [ reflexivity | ].
  match goal with
  | |- StronglySorted _ (map _ (Summary.priceHistory ?s)) =>
      destruct (Hhistory "aapl" "1d" w s
                  (snd (getStockData Engine.parseFloat Engine.Date_parse
                          "aapl" "1d" w)))
        as (csv & Hcsv & _ & _ & Hsorted); [ vm_compute; reflexivity | ]
  end.
  assert (csv = Examples.duplicated) by (inversion Hcsv; reflexivity). subst csv.
  apply Hsorted. apply dated_check. vm_compute. reflexivity.
Defined.

(** The dates need not be strictly descending: the table holds a day of
    AAPL twice (the store appends without looking), and the history has
    both rows, next to each other. *)
Lemma duplicate_days_not_strictly_descending :
  let w := Examples.world (Store.mk true (Some Examples.duplicated) None) 0
             Examples.noFault Examples.alphaDown Examples.yahooDown in
  exists s,
    fst (getStockData Engine.parseFloat Engine.Date_parse "aapl" "1mo" w) = Return s /\
    map PricePoint.date (Summary.priceHistory s)
    = [Some 1704240000000; Some 1704153600000; Some 1704153600000] /\
    ~ StronglySorted date_gt (map PricePoint.date (Summary.priceHistory s)).
Proof.
  intros w. eexists. split; [ vm_compute; reflexivity | ].
  split; [ reflexivity | ].
  cbn [map Summary.priceHistory PricePoint.date].
  intros Hs. inversion Hs as [ | ? ? Htail _ ]; subst.
  inversion Htail as [ | ? ? _ Hhead ]; subst.
  inversion Hhead as [ | ? ? Hlt _ ]; subst.
  simpl in Hlt. lia.
Qed.


(** Without valid dates there is no order to speak of: the comparator
    answers NaN next to the row whose date does not parse, and the rows
    stay as they are in the table, the older one first. *)
Example invalid_date_keeps_table_order :
  let table :=
    (Examples.line csvHeader
     ++ Examples.line "2024-01-02,AAPL,Apple Inc.,Technology,1,2,0.5,1.5,100,1.5,0.5,50"
     ++ Examples.line "n/a,AAPL,Apple Inc.,Technology,1,2,0.5,1.5,100,1.5,0.5,50"
     ++ Examples.line "2024-01-03,AAPL,Apple Inc.,Technology,1.5,2,1,2,100,2,0.5,33.3333")%string in
  exists s,
    fst (getStockData Engine.parseFloat Engine.Date_parse "AAPL" "1mo"
           (Examples.world (Store.mk true (Some table) None) 0
              Examples.noFault Examples.alphaDown Examples.yahooDown))
    = Return s /\
    map PricePoint.date (Summary.priceHistory s)
    = [Some 1704153600000; None; Some 1704240000000].
Proof.
  intros table. eexists. split; [ vm_compute; reflexivity | reflexivity ].
Qed.

(** * Further properties of the agent and of its callers *)

(** ** Strings *)

Lemma upper_ascii_idem c : Js.upper_ascii (Js.upper_ascii c) = Js.upper_ascii c.
Proof. destruct c as [[] [] [] [] [] [] [] []]; reflexivity. Qed.

Lemma is_space_upper c : Js.is_space (Js.upper_ascii c) = Js.is_space c.
Proof. destruct c as [[] [] [] [] [] [] [] []]; reflexivity. Qed.

Lemma toUpperCase_idem s : Js.toUpperCase (Js.toUpperCase s) = Js.toUpperCase s.
Proof.
  induction s as [ | c r IH ]; simpl; [ reflexivity | ].
  rewrite upper_ascii_idem, IH. reflexivity.
Qed.

Lemma toUpperCase_empty s : String.eqb (Js.toUpperCase s) "" = String.eqb s "".
Proof. destruct s; reflexivity. Qed.

Lemma trimStart_upper s :
  Js.trimStart (Js.toUpperCase s) = Js.toUpperCase (Js.trimStart s).
Proof.
  induction s as [ | c r IH ]; simpl; [ reflexivity | ].
  rewrite is_space_upper. destruct (Js.is_space c); [ exact IH | reflexivity ].
Qed.

Lemma trimEnd_upper s :
  Js.trimEnd (Js.toUpperCase s) = Js.toUpperCase (Js.trimEnd s).
Proof.
  induction s as [ | c r IH ]; simpl; [ reflexivity | ].
  rewrite is_space_upper, IH, toUpperCase_empty.
  destruct (Js.is_space c && String.eqb (Js.trimEnd r) ""); reflexivity.
Qed.

Lemma trim_upper s : Js.trim (Js.toUpperCase s) = Js.toUpperCase (Js.trim s).
Proof. unfold Js.trim. rewrite trimStart_upper, trimEnd_upper. reflexivity. Qed.

Lemma trimEnd_idem s : Js.trimEnd (Js.trimEnd s) = Js.trimEnd s.
Proof.
  induction s as [ | c r IH ]; simpl; [ reflexivity | ].
  destruct (Js.is_space c && String.eqb (Js.trimEnd r) "") eqn:E; [ reflexivity | ].
  simpl. rewrite IH, E. reflexivity.
Qed.

(** A string that does not begin with white space. *)
Lemma trimStart_head s :
  Js.trimStart s = ""
  \/ exists c r, Js.trimStart s = String c r /\ Js.is_space c = false.
Proof.
  induction s as [ | c r IH ]; simpl; [ left; reflexivity | ].
  destruct (Js.is_space c) eqn:E; [ exact IH | right; eauto ].
Qed.

Lemma trimStart_trimEnd s :
  Js.trimStart (Js.trimEnd (Js.trimStart s)) = Js.trimEnd (Js.trimStart s).
Proof.
  destruct (trimStart_head s) as [ -> | (c & r & -> & E) ]; [ reflexivity | ].
  simpl. rewrite E. simpl. rewrite E. reflexivity.
Qed.

Lemma trim_idem s : Js.trim (Js.trim s) = Js.trim s.
Proof.
  unfold Js.trim. rewrite trimStart_trimEnd. apply trimEnd_idem.
Qed.

Lemma split_nonempty sep s : Js.split sep s <> [].
Proof.
  induction s as [ | c r IH ]; simpl; [ discriminate | ].
  destruct (Ascii.eqb c sep); [ discriminate | ].
  destruct (Js.split sep r); [ contradiction | discriminate ].
Qed.

Lemma split_length sep s : length (Js.split sep s) = S (count_char sep s).
Proof.
  induction s as [ | c r IH ]; simpl; [ reflexivity | ].
  destruct (Ascii.eqb c sep); simpl; [ rewrite IH; reflexivity | ].
  pose proof (split_nonempty sep r) as Hne.
  destruct (Js.split sep r); [ contradiction | exact IH ].
Qed.

(** ** The agent's configuration *)

(** X1. With [STOCK_SYMBOLS] set to a non-empty string the agent tracks
    one company per comma-separated piece, in order of appearance (one more
    than there are commas): its symbol is the piece trimmed and upper-cased,
    so that trimming or upper-casing it again changes nothing, its name is
    its symbol and its sector is "Unknown".  With [STOCK_SYMBOLS] unset or
    empty it tracks the fifteen default companies; with [STOCK_DAYS] unset
    or empty the history depth is 30. *)
Theorem constructor_companies env :
  (forall s, Env.STOCK_SYMBOLS env = Some s -> s <> "" ->
     let cs := Agent.companies (constructor env) in
     map Company.symbol cs
     = map (fun piece => Js.toUpperCase (Js.trim piece)) (Js.split "," s) /\
     length cs = S (count_char "," s) /\
     Forall override_company cs) /\
  (Env.STOCK_SYMBOLS env = None \/ Env.STOCK_SYMBOLS env = Some "" ->
   Agent.companies (constructor env) = defaultCompanies /\
   length (Agent.companies (constructor env)) = 15%nat) /\
  (Env.STOCK_DAYS env = None \/ Env.STOCK_DAYS env = Some "" ->
   Agent.days (constructor env) = Some 30).
Proof.
  split; [ | split ].
  - intros s Hs Hne cs. subst cs. unfold constructor. cbn [Agent.companies].
    rewrite Hs. cbn [Js.truthy_str default].
    assert (E : String.eqb s "" = false) by (apply String.eqb_neq; exact Hne).
    rewrite E. cbn [negb].
    split; [ | split ].
    + rewrite map_map. reflexivity.
    + rewrite length_map. apply split_length.
    + apply Forall_map. apply Forall_forall. intros piece _.
      unfold override_company. cbn [Company.name Company.symbol Company.sector].
      repeat split.
      * rewrite trim_upper, trim_idem. reflexivity.
      * apply toUpperCase_idem.
  - intros [ H | H ]; unfold constructor; rewrite H; split; reflexivity.
  - intros [ H | H ]; unfold constructor; rewrite H; reflexivity.
Qed.

Lemma constructor_companies_witness :
  let env := Env.mk (Some "demo") (Some " aapl, msft ,tcs.ns") None None None in
  map Company.symbol (Agent.companies (constructor env))
  = ["AAPL"; "MSFT"; "TCS.NS"] /\
  length (Agent.companies (constructor env)) = 3%nat /\
  Forall override_company (Agent.companies (constructor env)) /\
  Agent.days (constructor env) = Some 30.
Proof.
  intros env.
  destruct (constructor_companies env) as (H & _ & Hd).
  destruct (H " aapl, msft ,tcs.ns" eq_refl) as (H1 & H2 & H3);
    [ discriminate | ].
  split; [ rewrite H1; reflexivity | ].
  split; [ rewrite H2; reflexivity | ].
  split; [ exact H3 | apply Hd; left; reflexivity ].
Defined.

(** An empty piece of the override is a company of its own, with the empty
    symbol. *)
Example constructor_empty_piece :
  map Company.symbol
    (Agent.companies (constructor (Env.mk None (Some "AAPL,,MSFT,") None None None)))
  = ["AAPL"; ""; "MSFT"; ""].
Proof. reflexivity. Qed.

(** ** The query engine: failures, prices, periods *)

Section SortPermutation.
Context {A : Type} (cmp : A -> A -> option Z).

Lemma insert_sorted_perm x l : Js.insert_sorted cmp x l ≡ₚ x :: l.
Proof.
  induction l as [ | y l IH ]; simpl; [ reflexivity | ].
  destruct (Js.after cmp x y); [ | reflexivity ].
  rewrite IH. apply perm_swap.
Qed.

Lemma sort_perm l : Js.sort cmp l ≡ₚ l.
Proof.
  induction l as [ | x l IH ]; simpl; [ reflexivity | ].
  rewrite insert_sorted_perm, IH. reflexivity.
Qed.

End SortPermutation.

Section QueryFacts.
Context (parseFloat : string -> float) (Date_parse : string -> option Z).

Local Abbreviation by_date := (byDateDesc Date_parse).
Local Abbreviation point := (pricePoint parseFloat Date_parse).

(** [getStockData] by the state of the table and of the two file-system
    calls it makes. *)
Lemma getStockData_eq symbol period w :
  getStockData parseFloat Date_parse symbol period w
  = if negb (World.fsFault w (World.fsOps w))
       && present CsvPath (World.store w)
    then
      (if World.fsFault w (S (World.fsOps w)) then Throw "EIO"
       else match Store.csvFile (World.store w) with
            | Some text => summarize parseFloat Date_parse text symbol period
            | None => Throw "ENOENT"
            end,
       World.tick_fs (World.tick_fs w))
    else
      (Throw "Stock data file not found. Run bulk fetch first.", World.tick_fs w).
Proof.
  destruct w as [ st n ff fo an yn no tr ].
  unfold getStockData. unfold try_catch at 1. unfold bind at 1.
  rewrite fileExists_eq. world_simpl.
  destruct (negb (ff fo) && present CsvPath st); cbn [negb]; [ | reflexivity ].
  unfold bind at 1. rewrite readCsv_eq. world_simpl.
  destruct (ff (S fo)); [ reflexivity | ].
  destruct (Store.csvFile st) as [ text | ]; [ | reflexivity ].
  unfold lift, throw.
  destruct (summarize parseFloat Date_parse text symbol period); reflexivity.
Qed.

Lemma summarize_finishes csv symbol period :
  summarize parseFloat Date_parse csv symbol period <> Diverge.
Proof.
  unfold summarize. destruct (_ <=? 1)%nat; [ discriminate | ].
  destruct (companyRows csv symbol) as [ | r rows ]; [ discriminate | ].
  cbn zeta. unfold filterByPeriod.
  destruct (Js.sort by_date (r :: rows)) as [ | r1 sorted1 ]; [ discriminate | ].
  destruct (Js.sort by_date (r1 :: sorted1)); discriminate.
Qed.

(** The summary of a query that returns, from the rows of the symbol
    sorted as the code sorts them. *)
Lemma summarize_Return csv symbol period s :
  summarize parseFloat Date_parse csv symbol period = Return s ->
  let rows := companyRows csv symbol in
  exists first others,
    Js.sort by_date (Js.sort by_date rows) = first :: others /\
    length (first :: others) = length rows /\
    s = Summary.mk (Js.toUpperCase symbol)
          (first !! "Name") (first !! "Sector")
          (parseFloatU parseFloat (first !! "Close"))
          (match others with
           | second :: _ => parseFloatU parseFloat (second !! "Close")
           | [] => parseFloatU parseFloat (first !! "Close")
           end)
          (map point
             (take (Z.to_nat (daysToKeep period (length rows)))
                   (first :: others))).
Proof.
  unfold summarize. destruct (_ <=? 1)%nat; [ discriminate | ].
  destruct (companyRows csv symbol) as [ | r rows ] eqn:Hrows;
    [ discriminate | ].
  cbn zeta.
  assert (Hlen : length (Js.sort by_date (r :: rows)) = S (length rows))
    by (rewrite sort_length; reflexivity).
  unfold filterByPeriod.
  destruct (Js.sort by_date (r :: rows)) as [ | r1 sorted1 ] eqn:Hs1;
    [ discriminate | ].
  assert (Hlen2 : length (Js.sort by_date (r1 :: sorted1)) = S (length rows))
    by (rewrite sort_length; exact Hlen).
  destruct (Js.sort by_date (r1 :: sorted1)) as [ | r2 sorted2 ] eqn:Hs2;
    [ discriminate | ].
  intros H. inversion H; subst; clear H.
  exists r2, sorted2. split; [ reflexivity | ]. split; [ exact Hlen2 | ].
  rewrite slice_to_take by apply daysToKeep_nonneg.
  cbn [length] in *. replace (length sorted1) with (length rows) by lia.
  reflexivity.
Qed.

Lemma daysToKeep_positive period len : (0 < len)%nat -> 1 <= daysToKeep period len.
Proof.
  intros H. unfold daysToKeep.
  repeat match goal with |- context [String.eqb ?a ?b] => destruct (String.eqb a b) end;
    lia.
Qed.

Lemma companyRows_symbol csv symbol :
  Forall (fun r => r !! "Symbol" = Some (Js.toUpperCase symbol))
         (companyRows csv symbol).
Proof.
  unfold companyRows. destruct (nonblank_lines csv) as [ | head rest ];
    [ constructor | ].
  apply List.Forall_forall. intros r Hr. apply filter_In in Hr.
  destruct Hr as [ _ Hr ]. apply bool_decide_eq_true in Hr. exact Hr.
Qed.

Lemma companyRows_upper csv symbol :
  companyRows csv (Js.toUpperCase symbol) = companyRows csv symbol.
Proof. unfold companyRows. rewrite toUpperCase_idem. reflexivity. Qed.

Lemma summarize_upper csv symbol period s :
  summarize parseFloat Date_parse csv (Js.toUpperCase symbol) period = Return s
  <-> summarize parseFloat Date_parse csv symbol period = Return s.
Proof.
  unfold summarize. rewrite companyRows_upper, toUpperCase_idem.
  destruct (_ <=? 1)%nat; [ split; discriminate | ].
  destruct (companyRows csv symbol); [ split; discriminate | reflexivity ].
Qed.

(** A query only reads, and finishes. *)
Lemma getStockData_reads symbol period w :
  let r := getStockData parseFloat Date_parse symbol period w in
  World.store (snd r) = World.store w /\
  World.trace (snd r) = World.trace w /\
  fst r <> Diverge.
Proof.
  cbn zeta. rewrite getStockData_eq.
  destruct (negb (World.fsFault w (World.fsOps w))
            && present CsvPath (World.store w)); cbn [fst snd];
    [ | repeat split; discriminate ].
  repeat split.
  destruct (World.fsFault w (S (World.fsOps w))); [ discriminate | ].
  destruct (Store.csvFile (World.store w));
    [ apply summarize_finishes | discriminate ].
Qed.

Lemma getStockData_upper symbol period w s :
  fst (getStockData parseFloat Date_parse (Js.toUpperCase symbol) period w)
  = Return s
  <-> fst (getStockData parseFloat Date_parse symbol period w) = Return s.
Proof.
  rewrite !getStockData_eq.
  destruct (negb (World.fsFault w (World.fsOps w))
            && present CsvPath (World.store w)); cbn [fst];
    [ | split; discriminate ].
  destruct (World.fsFault w (S (World.fsOps w))); [ split; discriminate | ].
  destruct (Store.csvFile (World.store w)); [ | split; discriminate ].
  apply summarize_upper.
Qed.

End QueryFacts.

(** X2. A query never changes the store and never logs an event, and it
    always finishes.  It throws "Stock data file not found. Run bulk fetch
    first." when there is no table, and also when the existence check
    itself fails; on a readable table it throws "Stock data file is empty or
    only contains headers" when the table has at most one non-blank line,
    "No data found for symbol: " followed by the symbol as it was asked
    for when no row carries the upper-cased symbol, and returns
    otherwise. *)
Theorem getStockData_failures parseFloat Date_parse symbol period w :
  let r := getStockData parseFloat Date_parse symbol period w in
  World.store (snd r) = World.store w /\
  World.trace (snd r) = World.trace w /\
  fst r <> Diverge /\
  (World.fsFault w (World.fsOps w) = true \/
   Store.csvFile (World.store w) = None ->
   fst r = Throw "Stock data file not found. Run bulk fetch first.") /\
  (forall csv,
     Store.csvFile (World.store w) = Some csv ->
     World.fsFault w (World.fsOps w) = false ->
     World.fsFault w (S (World.fsOps w)) = false ->
     if (length (nonblank_lines csv) <=? 1)%nat
     then fst r = Throw "Stock data file is empty or only contains headers"
     else match companyRows csv symbol with
          | [] => fst r = Throw ("No data found for symbol: " ++ symbol)%string
          | _ :: _ => exists s, fst r = Return s
          end).
Proof.
  cbn zeta.
  destruct (getStockData_reads parseFloat Date_parse symbol period w)
    as (Hstore & Htrace & Hfin).
  split; [ exact Hstore | ]. split; [ exact Htrace | ]. split; [ exact Hfin | ].
  clear Hstore Htrace Hfin. rewrite getStockData_eq.
  destruct w as [ st n ff fo an yn no tr ]. world_simpl.
  split.
  - intros [ H | H ]; unfold present; rewrite H; [ reflexivity | ].
    rewrite andb_false_r. reflexivity.
  - intros csv Hcsv Hf1 Hf2. unfold present. rewrite Hcsv, Hf1, Hf2.
    cbn [negb andb fst].
    unfold summarize. destruct (_ <=? 1)%nat; [ reflexivity | ].
    destruct (companyRows csv symbol) as [ | r rows ]; [ reflexivity | ].
    cbn zeta. unfold filterByPeriod.
    pose proof (sort_length (byDateDesc Date_parse) (r :: rows)) as Hlen.
    destruct (Js.sort (byDateDesc Date_parse) (r :: rows)) as [ | r1 sorted1 ];
      [ discriminate Hlen | ].
    pose proof (sort_length (byDateDesc Date_parse) (r1 :: sorted1)) as Hlen2.
    destruct (Js.sort (byDateDesc Date_parse) (r1 :: sorted1));
      [ discriminate Hlen2 | eauto ].
Qed.

Lemma getStockData_failures_witness :
  let q := fun store =>
    fst (getStockData Engine.parseFloat Engine.Date_parse "tsla" "1mo"
           (Examples.world store 0 Examples.noFault
              Examples.alphaDown Examples.yahooDown)) in
  q Store.empty = Throw "Stock data file not found. Run bulk fetch first." /\
  q Examples.ready = Throw "Stock data file is empty or only contains headers" /\
  q (Store.mk true (Some Examples.duplicated) None)
  = Throw "No data found for symbol: tsla".
Proof.
  intros q. subst q. cbn beta. split; [ | split ].
  - apply (getStockData_failures Engine.parseFloat Engine.Date_parse "tsla" "1mo").
    right. reflexivity.
  - pose proof (getStockData_failures Engine.parseFloat Engine.Date_parse "tsla" "1mo"
                  (Examples.world Examples.ready 0 Examples.noFault
                     Examples.alphaDown Examples.yahooDown)) as H.
    destruct H as (_ & _ & _ & _ & H).
    specialize (H _ eq_refl eq_refl eq_refl).
    assert (E : (length (nonblank_lines (csvHeader ++ newline)) <=? 1)%nat = true)
      by (vm_compute; reflexivity).
    rewrite E in H. exact H.
  - pose proof (getStockData_failures Engine.parseFloat Engine.Date_parse "tsla" "1mo"
                  (Examples.world (Store.mk true (Some Examples.duplicated) None) 0
                     Examples.noFault Examples.alphaDown Examples.yahooDown)) as H.
    destruct H as (_ & _ & _ & _ & H).
    specialize (H _ eq_refl eq_refl eq_refl).
    assert (E : (length (nonblank_lines Examples.duplicated) <=? 1)%nat = false)
      by (vm_compute; reflexivity).
    assert (E2 : companyRows Examples.duplicated "tsla" = [])
      by (vm_compute; reflexivity).
    rewrite E, E2 in H. exact H.
Defined.

(** X3. In the summary a query returns, the symbol is the upper-cased
    symbol, the history is not empty and its first point closes at
    [currentPrice]; when the history has a second point, that point closes
    at [previousClose]; the history of period "1d" has one point; and when
    the table has a single row of the symbol, [previousClose] is
    [currentPrice]. *)
Theorem getStockData_prices parseFloat Date_parse symbol period w s w' :
  getStockData parseFloat Date_parse symbol period w = (Return s, w') ->
  Summary.symbol s = Js.toUpperCase symbol /\
  exists pt pts,
    Summary.priceHistory s = pt :: pts /\
    PricePoint.close pt = Summary.currentPrice s /\
    match pts with
    | next :: _ => PricePoint.close next = Summary.previousClose s
    | [] => True
    end /\
    (period = "1d" -> pts = []) /\
    (forall csv,
        Store.csvFile (World.store w) = Some csv ->
        length (companyRows csv symbol) = 1%nat ->
        Summary.previousClose s = Summary.currentPrice s).
Proof.
  intros H. apply getStockData_Return in H. destruct H as (csv & Hcsv & Hs).
  apply summarize_Return in Hs. cbn zeta in Hs.
  destruct Hs as (first & others & Hsort & Hlen & ->).
  cbn [Summary.symbol Summary.priceHistory Summary.currentPrice
       Summary.previousClose].
  split; [ reflexivity | ].
  assert (Hpos : 1 <= daysToKeep period (length (companyRows csv symbol))).
  { apply daysToKeep_positive. rewrite <- Hlen. cbn [length]. lia. }
  destruct (Z.to_nat (daysToKeep period (length (companyRows csv symbol))))
    as [ | k ] eqn:Hk; [ lia | ].
  cbn [take map].
  exists (pricePoint parseFloat Date_parse first),
         (map (pricePoint parseFloat Date_parse) (take k others)).
  split; [ reflexivity | ]. split; [ reflexivity | ].
  split; [ | split ].
  - destruct others as [ | second others ]; [ rewrite take_nil; exact I | ].
    destruct k; [ exact I | reflexivity ].
  - intros ->. change (daysToKeep "1d" (length (companyRows csv symbol))) with 1 in Hk.
    assert (k = O) by lia. subst k. rewrite take_0. reflexivity.
  - intros csv' Hcsv' Hone. rewrite Hcsv in Hcsv'. inversion Hcsv'; subst csv'.
    rewrite Hone in Hlen. destruct others; [ reflexivity | discriminate Hlen ].
Qed.

Lemma getStockData_prices_witness :
  let w := Examples.world (Store.mk true (Some Examples.duplicated) None) 0
             Examples.noFault Examples.alphaDown Examples.yahooDown in
  exists s,
    fst (getStockData Engine.parseFloat Engine.Date_parse "aapl" "5d" w) = Return s /\
    Summary.symbol s = "AAPL" /\
    exists pt pts,
      Summary.priceHistory s = pt :: pts /\
      PricePoint.close pt = Summary.currentPrice s.
Proof.
  intros w.
  destruct (getStockData Engine.parseFloat Engine.Date_parse "aapl" "5d" w)
    as [ [ s | e | ] w' ] eqn:E.
  - exists s. split; [ reflexivity | ].
    destruct (getStockData_prices _ _ _ _ _ _ _ E) as (H1 & pt & pts & H2 & H3 & _).
    split; [ exact H1 | ]. exists pt, pts. split; assumption.
  - exfalso. revert E. vm_compute. discriminate.
  - exfalso. revert E. vm_compute. discriminate.
Defined.

Lemma take_prefix_le {A} (n m : nat) (l : list A) :
  (n <= m)%nat -> take n l `prefix_of` take m l.
Proof.
  intros H. replace (take n l) with (take n (take m l)).
  - apply prefix_take.
  - rewrite take_take. f_equal. lia.
Qed.

Lemma prefix_map {A B} (f : A -> B) (l1 l2 : list A) :
  l1 `prefix_of` l2 -> map f l1 `prefix_of` map f l2.
Proof. intros [ k -> ]. exists (map f k). apply map_app. Qed.

(** X4. Two queries for the same symbol on the same table that differ in
    the period only agree on everything but the history, and one history
    is an initial segment of the other: the history of [p1] begins the
    history of [p2] whenever [p1] keeps no more days than [p2], and
    whenever [p2] is none of the six labels (its history is then the whole
    of the symbol's rows). *)
Theorem getStockData_periods parseFloat Date_parse symbol p1 p2 w s1 w1 s2 w2 :
  getStockData parseFloat Date_parse symbol p1 w = (Return s1, w1) ->
  getStockData parseFloat Date_parse symbol p2 w = (Return s2, w2) ->
  (Summary.symbol s1 = Summary.symbol s2 /\
   Summary.name s1 = Summary.name s2 /\
   Summary.sector s1 = Summary.sector s2 /\
   Summary.currentPrice s1 = Summary.currentPrice s2 /\
   Summary.previousClose s1 = Summary.previousClose s2) /\
  (Summary.priceHistory s1 `prefix_of` Summary.priceHistory s2 \/
   Summary.priceHistory s2 `prefix_of` Summary.priceHistory s1) /\
  ((forall k, daysToKeep p1 k <= daysToKeep p2 k) ->
   Summary.priceHistory s1 `prefix_of` Summary.priceHistory s2) /\
  (p2 <> "1d" -> p2 <> "5d" -> p2 <> "1mo" ->
   p2 <> "3mo" -> p2 <> "6mo" -> p2 <> "1y" ->
   Summary.priceHistory s1 `prefix_of` Summary.priceHistory s2).
Proof.
  intros H1 H2.
  apply getStockData_Return in H1. destruct H1 as (csv & Hcsv & Hs1).
  apply getStockData_Return in H2. destruct H2 as (csv' & Hcsv' & Hs2).
  rewrite Hcsv in Hcsv'. inversion Hcsv'; subst csv'. clear Hcsv'.
  apply summarize_Return in Hs1. apply summarize_Return in Hs2.
  cbn zeta in Hs1, Hs2.
  destruct Hs1 as (first & others & Hsort & Hlen & ->).
  destruct Hs2 as (first' & others' & Hsort' & _ & ->).
  rewrite Hsort in Hsort'. inversion Hsort'; subst first' others'. clear Hsort'.
  cbn [Summary.symbol Summary.name Summary.sector Summary.currentPrice
       Summary.previousClose Summary.priceHistory].
  set (n := length (companyRows csv symbol)) in *.
  split; [ repeat split | ].
  split; [ | split ].
  - destruct (Z.le_ge_cases (daysToKeep p1 n) (daysToKeep p2 n)) as [ H | H ];
      [ left | right ]; apply prefix_map, take_prefix_le; lia.
  - intros H. apply prefix_map, take_prefix_le. specialize (H n). lia.
  - intros ? ? ? ? ? ?. rewrite (daysToKeep_other p2) by assumption.
    rewrite Nat2Z.id. rewrite <- Hlen at 2. rewrite firstn_all.
    apply prefix_map, prefix_take.
Qed.

Lemma getStockData_periods_witness :
  let w := Examples.world (Store.mk true (Some Examples.duplicated) None) 0
             Examples.noFault Examples.alphaDown Examples.yahooDown in
  exists s1 s2,
    fst (getStockData Engine.parseFloat Engine.Date_parse "AAPL" "1d" w) = Return s1 /\
    fst (getStockData Engine.parseFloat Engine.Date_parse "AAPL" "1mo" w) = Return s2 /\
    length (Summary.priceHistory s1) = 1%nat /\
    length (Summary.priceHistory s2) = 3%nat /\
    Summary.currentPrice s1 = Summary.currentPrice s2 /\
    Summary.priceHistory s1 `prefix_of` Summary.priceHistory s2.
Proof.
  intros w.
  destruct (getStockData Engine.parseFloat Engine.Date_parse "AAPL" "1d" w)
    as [ [ s1 | e | ] w1 ] eqn:E1;
    [ | exfalso; revert E1; vm_compute; discriminate
      | exfalso; revert E1; vm_compute; discriminate ].
  destruct (getStockData Engine.parseFloat Engine.Date_parse "AAPL" "1mo" w)
    as [ [ s2 | e | ] w2 ] eqn:E2;
    [ | exfalso; revert E2; vm_compute; discriminate
      | exfalso; revert E2; vm_compute; discriminate ].
  exists s1, s2. split; [ reflexivity | ]. split; [ reflexivity | ].
  destruct (getStockData_periods _ _ _ _ _ _ _ _ _ _ E1 E2)
    as ((_ & _ & _ & Hc & _) & _ & Hp & _).
  split; [ | split; [ | split ] ].
  - revert E1. vm_compute. intros E1. inversion E1. reflexivity.
  - revert E2. vm_compute. intros E2. inversion E2. reflexivity.
  - exact Hc.
  - apply Hp. intros k. vm_compute. discriminate.
Defined.

(** X5. The history of a query that returns is made of rows of the table
    only, each used at most as often as the table holds it, and all of
    them carry the upper-cased symbol in their [Symbol] column; for a
    period that is none of the six labels every row of the symbol is in the
    history, once per occurrence in the table. *)
Theorem getStockData_rows_of_symbol parseFloat Date_parse symbol period w s w' :
  getStockData parseFloat Date_parse symbol period w = (Return s, w') ->
  exists csv kept,
    Store.csvFile (World.store w) = Some csv /\
    Summary.priceHistory s = map (pricePoint parseFloat Date_parse) kept /\
    kept ⊆+ companyRows csv symbol /\
    Forall (fun r => r !! "Symbol" = Some (Js.toUpperCase symbol)) kept /\
    (period <> "1d" -> period <> "5d" -> period <> "1mo" ->
     period <> "3mo" -> period <> "6mo" -> period <> "1y" ->
     kept ≡ₚ companyRows csv symbol).
Proof.
  intros H. apply getStockData_Return in H. destruct H as (csv & Hcsv & Hs).
  apply summarize_Return in Hs. cbn zeta in Hs.
  destruct Hs as (first & others & Hsort & Hlen & ->).
  cbn [Summary.priceHistory].
  assert (Hperm : first :: others ≡ₚ companyRows csv symbol).
  { rewrite <- Hsort. rewrite !sort_perm. reflexivity. }
  exists csv,
    (take (Z.to_nat (daysToKeep period (length (companyRows csv symbol))))
          (first :: others)).
  split; [ exact Hcsv | ]. split; [ reflexivity | ].
  assert (Hsub : take (Z.to_nat (daysToKeep period (length (companyRows csv symbol))))
                   (first :: others) ⊆+ companyRows csv symbol).
  { transitivity (first :: others);
      [ apply sublist_submseteq, sublist_take | rewrite Hperm; reflexivity ]. }
  split; [ exact Hsub | ]. split.
  - apply List.Forall_forall. intros r Hr.
    pose proof (companyRows_symbol csv symbol) as Hall.
    rewrite List.Forall_forall in Hall. apply Hall.
    apply list_elem_of_In. eapply elem_of_submseteq; [ | exact Hsub ].
    apply list_elem_of_In. exact Hr.
  - intros ? ? ? ? ? ?. rewrite daysToKeep_other by assumption.
    rewrite Nat2Z.id, <- Hlen, firstn_all. exact Hperm.
Qed.

Lemma getStockData_rows_of_symbol_witness :
  let w := Examples.world (Store.mk true (Some Examples.duplicated) None) 0
             Examples.noFault Examples.alphaDown Examples.yahooDown in
  exists s kept,
    fst (getStockData Engine.parseFloat Engine.Date_parse "msft" "max" w) = Return s /\
    Summary.priceHistory s
    = map (pricePoint Engine.parseFloat Engine.Date_parse) kept /\
    kept ≡ₚ companyRows Examples.duplicated "msft".
Proof.
  intros w.
  destruct (getStockData Engine.parseFloat Engine.Date_parse "msft" "max" w)
    as [ [ s | e | ] w' ] eqn:E;
    [ | exfalso; revert E; vm_compute; discriminate
      | exfalso; revert E; vm_compute; discriminate ].
  destruct (getStockData_rows_of_symbol _ _ _ _ _ _ _ E)
    as (csv & kept & Hcsv & Hh & _ & _ & Hp).
  exists s, kept. split; [ reflexivity | ]. split; [ exact Hh | ].
  inversion Hcsv; subst csv. apply Hp; discriminate.
Defined.

(** X6. The case of the symbol that is asked for does not matter: a query
    for a symbol returns a summary exactly when the query for the
    upper-cased symbol returns it, and both leave the same world. *)
Theorem getStockData_case_insensitive parseFloat Date_parse symbol period w :
  snd (getStockData parseFloat Date_parse (Js.toUpperCase symbol) period w)
  = snd (getStockData parseFloat Date_parse symbol period w) /\
  forall s,
    fst (getStockData parseFloat Date_parse (Js.toUpperCase symbol) period w)
    = Return s
    <-> fst (getStockData parseFloat Date_parse symbol period w) = Return s.
Proof.
  split; [ | intros s; apply getStockData_upper ].
  rewrite !getStockData_eq.
  destruct (negb (World.fsFault w (World.fsOps w))
            && present CsvPath (World.store w)); reflexivity.
Qed.

Lemma getStockData_case_insensitive_witness :
  let w := Examples.world (Store.mk true (Some Examples.duplicated) None) 0
             Examples.noFault Examples.alphaDown Examples.yahooDown in
  exists s,
    fst (getStockData Engine.parseFloat Engine.Date_parse "Msft" "1mo" w) = Return s /\
    fst (getStockData Engine.parseFloat Engine.Date_parse "MSFT" "1mo" w) = Return s.
Proof.
  intros w.
  destruct (getStockData Engine.parseFloat Engine.Date_parse "Msft" "1mo" w)
    as [ [ s | e | ] w' ] eqn:E;
    [ | exfalso; revert E; vm_compute; discriminate
      | exfalso; revert E; vm_compute; discriminate ].
  exists s. split; [ reflexivity | ].
  apply (getStockData_case_insensitive Engine.parseFloat Engine.Date_parse
           "Msft" "1mo" w).
  rewrite E. reflexivity.
Defined.

(** ** The history route *)

Lemma symbol_history_eq parseFloat Date_parse symbol period w :
  symbol_history parseFloat Date_parse symbol period w
  = let q := getStockData parseFloat Date_parse (Js.toUpperCase symbol)
               (default "1mo" period) w in
    (match fst q with
     | Return s => Return (Ok200 s)
     | Throw _ => Return NotFound404
     | Diverge => Diverge
     end, snd q).
Proof.
  unfold symbol_history. cbn zeta. unfold try_catch at 1 2, bind at 1, ret.
  destruct (getStockData parseFloat Date_parse (Js.toUpperCase symbol)
              (default "1mo" period) w) as [ [ s | e | ] w' ]; reflexivity.
Qed.

(** X7. The history route always answers, with the summary or with "not
    found", never with a server error; it leaves the store as it is; its
    answer does not depend on the case of the symbol in the path; it answers
    with a summary exactly when the agent's query for the symbol (in any
    case, with the period of the request or "1mo" when there is none)
    returns that summary; and without a period the history it sends has at
    most 30 points. *)
Theorem symbol_history_answers parseFloat Date_parse symbol period w :
  let r := symbol_history parseFloat Date_parse symbol period w in
  (exists resp, fst r = Return resp /\ forall m, resp <> Error500 m) /\
  World.store (snd r) = World.store w /\
  symbol_history parseFloat Date_parse (Js.toUpperCase symbol) period w = r /\
  (forall s,
      fst r = Return (Ok200 s)
      <-> fst (getStockData parseFloat Date_parse symbol (default "1mo" period) w)
          = Return s) /\
  (forall s,
      fst r = Return (Ok200 s) -> period = None ->
      (length (Summary.priceHistory s) <= 30)%nat).
Proof.
  cbn zeta. rewrite !symbol_history_eq. cbn zeta. rewrite toUpperCase_idem.
  pose proof (getStockData_reads parseFloat Date_parse (Js.toUpperCase symbol)
                (default "1mo" period) w) as (Hstore & _ & Hfin).
  pose proof (getStockData_upper parseFloat Date_parse symbol
                (default "1mo" period) w) as Hcase.
  assert (Hok : forall s,
             match fst (getStockData parseFloat Date_parse (Js.toUpperCase symbol)
                          (default "1mo" period) w) with
             | Return s0 => Return (Ok200 s0)
             | Throw _ => Return NotFound404
             | Diverge => Diverge
             end = Return (Ok200 s)
             <-> fst (getStockData parseFloat Date_parse (Js.toUpperCase symbol)
                        (default "1mo" period) w) = Return s).
  { intros s.
    destruct (fst (getStockData parseFloat Date_parse (Js.toUpperCase symbol)
                     (default "1mo" period) w)) as [ s0 | e | ];
      split; intros H; inversion H; reflexivity. }
  cbn [fst snd]. split; [ | split; [ exact Hstore | split; [ reflexivity | split ] ] ].
  - destruct (fst (getStockData parseFloat Date_parse (Js.toUpperCase symbol)
                     (default "1mo" period) w)) as [ s0 | e | ];
      [ exists (Ok200 s0) | exists NotFound404 | contradiction ];
      (split; [ reflexivity | discriminate ]).
  - intros s. rewrite Hok. apply Hcase.
  - intros s H ->. apply Hok in H. cbn [default] in H.
    destruct (getStockData parseFloat Date_parse (Js.toUpperCase symbol) "1mo" w)
      as [ o w' ] eqn:E. cbn [fst] in H. subst o.
    apply getStockData_Return in E. destruct E as (csv & _ & Hs).
    apply summarize_Return in Hs. cbn zeta in Hs.
    destruct Hs as (first & others & _ & _ & ->).
    cbn [Summary.priceHistory]. rewrite length_map, length_take.
    change (daysToKeep "1mo" _) with 30. lia.
Qed.

Lemma symbol_history_answers_witness :
  let w := Examples.world (Store.mk true (Some Examples.duplicated) None) 0
             Examples.noFault Examples.alphaDown Examples.yahooDown in
  (exists s,
      fst (symbol_history Engine.parseFloat Engine.Date_parse "aapl" None w)
      = Return (Ok200 s) /\
      (length (Summary.priceHistory s) <= 30)%nat) /\
  fst (symbol_history Engine.parseFloat Engine.Date_parse "tsla" None w)
  = Return NotFound404.
Proof.
  intros w. split.
  - destruct (symbol_history Engine.parseFloat Engine.Date_parse "aapl" None w)
      as [ [ [ s | | m ] | e | ] w' ] eqn:E;
      try (exfalso; revert E; vm_compute; discriminate).
    exists s. split; [ reflexivity | ].
    apply (symbol_history_answers Engine.parseFloat Engine.Date_parse "aapl" None w);
      [ rewrite E; reflexivity | reflexivity ].
  - vm_compute. reflexivity.
Defined.

(** ** What a run adds to the table *)

Lemma net_only_app evs1 evs2 :
  net_only evs1 -> net_only evs2 -> net_only (evs1 ++ evs2).
Proof. apply Forall_app_2. Qed.

Lemma csv_writes_app evs1 evs2 :
  csv_writes (evs1 ++ evs2) = (csv_writes evs1 ++ csv_writes evs2)%list.
Proof. apply omap_app. Qed.

Lemma net_only_csv_writes evs : net_only evs -> csv_writes evs = [].
Proof.
  induction 1 as [ | e evs He _ IH ]; [ reflexivity | ].
  destruct e; try discriminate He; exact IH.
Qed.

Lemma net_only_no_meta evs :
  net_only evs -> Forall (fun e => e <> EvMetaWrite) evs.
Proof.
  intros H. eapply Forall_impl; [ exact H | ].
  intros e He ->. discriminate He.
Qed.

Lemma callAlpha_trace env p fuel :
  forall a w,
  exists evs,
    World.trace (snd (callAlpha fuel env p a w)) = (World.trace w ++ evs)%list /\
    net_only evs.
Proof.
  induction fuel as [ | fuel IH ]; intros a w.
  - exists []. split; [ simpl; rewrite app_nil_r; reflexivity | constructor ].
  - simpl callAlpha. unfold bind at 1. unfold axios_get_alpha at 1.
    assert (H1 : net_only [EvAlpha p]) by (repeat constructor).
    destruct (World.alphaNet w (World.netOps w) p) as [ d | e ];
      [ | exists [EvAlpha p]; split; [ reflexivity | exact H1 ] ].
    destruct (Js.truthy_str (Alpha.Note d) || Js.truthy_str (Alpha.ErrorMessage d));
      [ | exists [EvAlpha p]; split; [ reflexivity | exact H1 ] ].
    destruct (ge_num a _);
      [ exists [EvAlpha p]; split; [ reflexivity | exact H1 ] | ].
    unfold bind at 1. unfold sleep at 1, modify.
    edestruct IH as (evs & -> & Hevs). world_simpl.
    exists (EvAlpha p :: EvSleep (Some (Z.min (60 * a) 180 * 1000)) :: evs).
    split; [ rewrite <- !app_assoc; reflexivity | ].
    repeat constructor. exact Hevs.
Qed.

Section RunFacts.
Context (parseFloat : string -> float) (toISODate : Z -> string)
        (csvRecord : PriceRow.t -> string).

Lemma fetchFromYahoo_trace self symbol w :
  exists evs,
    World.trace (snd (fetchFromYahoo toISODate self symbol w))
    = (World.trace w ++ evs)%list /\
    net_only evs.
Proof.
  destruct (fetchFromYahoo_spec toISODate self symbol w) as (r & -> & _).
  exists [EvYahoo symbol (yahooRange (Agent.days self))].
  split; [ reflexivity | repeat constructor ].
Qed.

Lemma fetchCompanyData_trace fuel env self company w :
  exists evs,
    World.trace (snd (fetchCompanyData parseFloat toISODate fuel env self company w))
    = (World.trace w ++ evs)%list /\
    net_only evs.
Proof.
  rewrite fetchCompanyData_eq.
  destruct (callAlpha_trace env (primaryParams env company) fuel 1 w)
    as (evs & Ht & Hevs).
  assert (Hy : forall w1,
             World.trace w1 = (World.trace w ++ evs)%list ->
             exists evs',
               World.trace (snd (fetchFromYahoo toISODate self
                                   (Company.symbol company) w1))
               = (World.trace w ++ evs')%list /\ net_only evs').
  { intros w1 H1.
    destruct (fetchFromYahoo_trace self (Company.symbol company) w1)
      as (evs2 & -> & Hevs2).
    exists (evs ++ evs2)%list. rewrite H1, app_assoc.
    split; [ reflexivity | apply net_only_app; assumption ]. }
  destruct (callAlpha fuel env (primaryParams env company) 1 w)
    as [ [ daily | e | ] w1 ]; cbn [snd] in Ht; [ | auto | eauto ].
  destruct (Alpha.TimeSeries daily) as [ ts | ]; [ | auto ].
  destruct (alphaRows parseFloat company ts _); cbn [snd]; eauto.
Qed.

Lemma concat_cons (a : string) (l : list string) :
  String.concat "" (a :: l) = (a ++ String.concat "" l)%string.
Proof.
  destruct l as [ | b l ]; [ symmetry; apply append_empty | reflexivity ].
Qed.

Lemma string_app_assoc (a b c : string) :
  ((a ++ b) ++ c = a ++ (b ++ c))%string.
Proof.
  induction a as [ | x a IH ]; [ reflexivity | ].
  change (String x ((a ++ b) ++ c)%string = String x (a ++ (b ++ c))%string).
  congruence.
Qed.

Lemma appended_cons old rows batches :
  appended csvRecord
    (Some (default "" old ++ records csvRecord rows)%string) batches
  = appended csvRecord old (rows :: batches).
Proof.
  unfold appended. destruct batches as [ | b batches ].
  - cbn [map]. rewrite concat_cons. cbn [String.concat].
    rewrite append_empty. reflexivity.
  - cbn [default map]. rewrite (concat_cons (records csvRecord rows)).
    unfold id. rewrite string_app_assoc. reflexivity.
Qed.

(** What one turn of the loop does to the counters, the trace and the
    table: it appends one batch, or nothing. *)
Lemma ingestOne_batch fuel env self company c w c' w' :
  ingestOne parseFloat toISODate csvRecord fuel env self company c w
  = (Return c', w') ->
  exists evs batches,
    World.trace w' = (World.trace w ++ evs)%list /\
    Forall (fun e => e <> EvMetaWrite) evs /\
    Forall (fun rows : list PriceRow.t => rows <> []) batches /\
    (length batches <= 1)%nat /\
    Counters.successCount c'
    = Counters.successCount c + Z.of_nat (length batches) /\
    Counters.errorCount c'
    = Counters.errorCount c + 1 - Z.of_nat (length batches) /\
    Counters.totalRows c'
    = Counters.totalRows c
      + sumZ (map (fun rows => Z.of_nat (length rows)) batches) /\
    csv_writes evs = map (fun rows => (true, length rows)) batches /\
    Store.csvFile (World.store w')
    = appended csvRecord (Store.csvFile (World.store w)) batches.
Proof.
  rewrite ingestOne_eq.
  destruct (fetchCompanyData_trace fuel env self company w) as (evs & Ht & Hevs).
  pose proof (fetchCompanyData_disk parseFloat toISODate fuel env self company w)
    as (Hstore & _).
  assert (Hfail : forall w1,
             World.trace w1 = (World.trace w ++ evs)%list ->
             World.store w1 = World.store w ->
             (Return (tally_error c), w1) = (Return c', w') ->
             exists evs batches,
               World.trace w' = (World.trace w ++ evs)%list /\
               Forall (fun e => e <> EvMetaWrite) evs /\
               Forall (fun rows : list PriceRow.t => rows <> []) batches /\
               (length batches <= 1)%nat /\
               Counters.successCount c'
               = Counters.successCount c + Z.of_nat (length batches) /\
               Counters.errorCount c'
               = Counters.errorCount c + 1 - Z.of_nat (length batches) /\
               Counters.totalRows c'
               = Counters.totalRows c
                 + sumZ (map (fun rows => Z.of_nat (length rows)) batches) /\
               csv_writes evs = map (fun rows => (true, length rows)) batches /\
               Store.csvFile (World.store w')
               = appended csvRecord (Store.csvFile (World.store w)) batches).
  { intros w1 H1 H2 H. inversion H; subst. exists evs, [].
    split; [ exact H1 | ]. split; [ apply net_only_no_meta; exact Hevs | ].
    split; [ constructor | ]. split; [ simpl; lia | ].
    cbn [tally_error Counters.successCount Counters.errorCount
         Counters.totalRows length map sumZ foldr appended].
    repeat split; try lia.
    - apply net_only_csv_writes. exact Hevs.
    - rewrite H2. reflexivity. }
  destruct (fetchCompanyData parseFloat toISODate fuel env self company w)
    as [ [ [ [ | r rs ] | ] | e | ] w1 ]; cbn [snd] in Ht, Hstore;
    try (intros H; discriminate H); try (apply Hfail; assumption).
  rewrite saveToCsv_eq.
  destruct (negb (World.fsFault w1 (World.fsOps w1))
            && Store.dirExists (World.store w1));
    [ | intros H; apply (Hfail (World.tick_fs w1)); assumption ].
  intros H. inversion H; subst; clear H.
  exists (evs ++ [EvCsvWrite true (length (r :: rs))])%list, [r :: rs].
  world_simpl. rewrite Ht, Hstore.
  split; [ rewrite app_assoc; reflexivity | ].
  split; [ apply Forall_app_2;
           [ apply net_only_no_meta; exact Hevs | repeat constructor; discriminate ] | ].
  split; [ repeat constructor; discriminate | ].
  split; [ simpl; lia | ].
  cbn [tally_success Counters.successCount Counters.errorCount
       Counters.totalRows map sumZ foldr].
  repeat split; try (cbn [length]; lia).
  rewrite csv_writes_app, (net_only_csv_writes evs Hevs). reflexivity.
Qed.

End RunFacts.

Section RunBatches.
Context (parseFloat : string -> float) (toISODate : Z -> string)
        (csvRecord : PriceRow.t -> string).

Lemma appended_app old batches1 batches2 :
  appended csvRecord (appended csvRecord old batches1) batches2
  = appended csvRecord old (batches1 ++ batches2).
Proof.
  revert old. induction batches1 as [ | rows batches1 IH ]; intros old;
    [ reflexivity | ].
  rewrite <- app_comm_cons, <- !appended_cons. apply IH.
Qed.

Lemma sumZ_app l1 l2 : sumZ (l1 ++ l2) = sumZ l1 + sumZ l2.
Proof.
  unfold sumZ. induction l1 as [ | x l1 IH ]; simpl; [ reflexivity | ].
  rewrite IH. lia.
Qed.

(** The loop, turn after turn: the counters, the trace and the table
    move together. *)
Lemma ingestLoop_batches fuel env self delay companies :
  forall c w c' w',
    ingestLoop parseFloat toISODate csvRecord fuel env self delay companies c w
    = (Return c', w') ->
    exists evs batches,
      World.trace w' = (World.trace w ++ evs)%list /\
      Forall (fun e => e <> EvMetaWrite) evs /\
      Forall (fun rows : list PriceRow.t => rows <> []) batches /\
      Counters.successCount c'
      = Counters.successCount c + Z.of_nat (length batches) /\
      Counters.errorCount c'
      = Counters.errorCount c + Z.of_nat (length companies)
        - Z.of_nat (length batches) /\
      Counters.totalRows c'
      = Counters.totalRows c
        + sumZ (map (fun rows => Z.of_nat (length rows)) batches) /\
      csv_writes evs = map (fun rows => (true, length rows)) batches /\
      Store.csvFile (World.store w')
      = appended csvRecord (Store.csvFile (World.store w)) batches.
Proof.
  induction companies as [ | company rest IH ]; intros c w c' w' H.
  - inversion H; subst. exists [], [].
    rewrite app_nil_r. cbn [length map sumZ foldr appended csv_writes omap].
    repeat split; try constructor; lia.
  - rewrite ingestLoop_cons in H.
    destruct (ingestOne parseFloat toISODate csvRecord fuel env self company c w)
      as [ [ c1 | e | ] w1 ] eqn:E1; try discriminate H.
    apply ingestOne_batch in E1.
    destruct E1 as (evs1 & b1 & Ht1 & Hm1 & Hb1 & _ & Hs1 & He1 & Hr1 & Hw1 & Hc1).
    set (w1' := match rest with
                | [] => w1
                | _ :: _ => snd (sleep delay w1)
                end) in H.
    assert (Hsl : exists sl,
               World.trace w1' = (World.trace w1 ++ sl)%list /\ net_only sl /\
               World.store w1' = World.store w1).
    { subst w1'. destruct rest.
      - exists []. rewrite app_nil_r. repeat split. constructor.
      - exists [EvSleep delay]. repeat split. repeat constructor. }
    destruct Hsl as (sl & Htsl & Hsl & Hssl).
    apply IH in H.
    destruct H as (evs2 & b2 & Ht2 & Hm2 & Hb2 & Hs2 & He2 & Hr2 & Hw2 & Hc2).
    exists (evs1 ++ sl ++ evs2)%list, (b1 ++ b2)%list.
    split; [ rewrite Ht2, Htsl, Ht1, <- !app_assoc; reflexivity | ].
    split; [ apply Forall_app_2; [ exact Hm1 | apply Forall_app_2;
               [ apply net_only_no_meta; exact Hsl | exact Hm2 ] ] | ].
    split; [ apply Forall_app_2; assumption | ].
    rewrite length_app, map_app, map_app, sumZ_app, !csv_writes_app.
    rewrite (net_only_csv_writes sl Hsl), Hw1, Hw2. cbn [length app].
    rewrite Hc2, Hssl, Hc1, appended_app.
    repeat split; lia.
Qed.

(** The loop never throws: each turn has its own handler. *)
Lemma ingestLoop_no_throw fuel env self delay companies :
  forall c w e,
    fst (ingestLoop parseFloat toISODate csvRecord fuel env self delay
           companies c w) <> Throw e.
Proof.
  induction companies as [ | company rest IH ]; intros c w e;
    [ discriminate | ].
  rewrite ingestLoop_cons, ingestOne_eq.
  destruct (fetchCompanyData_outcome parseFloat toISODate fuel env self company w)
    as [ (r & Hr) | (Hd & _) ].
  - destruct (fetchCompanyData parseFloat toISODate fuel env self company w)
      as [ o w1 ]. cbn [fst] in Hr. subst o.
    destruct r as [ [ | r rs ] | ]; try apply IH.
    rewrite saveToCsv_eq.
    destruct (negb (World.fsFault w1 (World.fsOps w1))
              && Store.dirExists (World.store w1)); apply IH.
  - destruct (fetchCompanyData parseFloat toISODate fuel env self company w)
      as [ o w1 ]. cbn [fst] in Hd. subst o. discriminate.
Qed.

Lemma grows_refl w : grows w w.
Proof. intros old H. exists "". rewrite append_empty. exact H. Qed.

Lemma grows_trans w1 w2 w3 : grows w1 w2 -> grows w2 w3 -> grows w1 w3.
Proof.
  intros H12 H23 old H. destruct (H12 old H) as (s1 & H1).
  destruct (H23 _ H1) as (s2 & H2). exists (s1 ++ s2)%string.
  rewrite H2, string_app_assoc. reflexivity.
Qed.

Lemma same_store_grows w w' : World.store w' = World.store w -> grows w w'.
Proof. intros H old Hold. exists "". rewrite H, append_empty. exact Hold. Qed.

Lemma ingestOne_grows fuel env self company c w :
  grows w (snd (ingestOne parseFloat toISODate csvRecord fuel env self company c w)).
Proof.
  rewrite ingestOne_eq.
  pose proof (fetchCompanyData_disk parseFloat toISODate fuel env self company w)
    as (Hstore & _).
  destruct (fetchCompanyData parseFloat toISODate fuel env self company w)
    as [ [ [ [ | r rs ] | ] | e | ] w1 ]; cbn [snd] in *;
    try (apply same_store_grows; exact Hstore).
  rewrite saveToCsv_eq.
  destruct (negb (World.fsFault w1 (World.fsOps w1))
            && Store.dirExists (World.store w1)); cbn [snd];
    [ | apply same_store_grows; exact Hstore ].
  intros old Hold. world_simpl. rewrite Hstore, Hold. eauto.
Qed.

Lemma ingestLoop_grows fuel env self delay companies :
  forall c w,
    grows w (snd (ingestLoop parseFloat toISODate csvRecord fuel env self delay
                    companies c w)).
Proof.
  induction companies as [ | company rest IH ]; intros c w;
    [ apply grows_refl | ].
  rewrite ingestLoop_cons.
  pose proof (ingestOne_grows fuel env self company c w) as H1.
  destruct (ingestOne parseFloat toISODate csvRecord fuel env self company c w)
    as [ [ c1 | e | ] w1 ]; cbn [snd] in *; try exact H1.
  eapply grows_trans; [ exact H1 | ].
  eapply grows_trans; [ | apply IH ].
  destruct rest; [ apply grows_refl | apply same_store_grows; reflexivity ].
Qed.

Lemma updateLastUpdateTime_table self w :
  Store.csvFile (World.store (snd (updateLastUpdateTime self w)))
  = Store.csvFile (World.store w) /\
  (World.trace (snd (updateLastUpdateTime self w)) = World.trace w \/
   World.trace (snd (updateLastUpdateTime self w))
   = (World.trace w ++ [EvMetaWrite])%list).
Proof.
  rewrite updateLastUpdateTime_eq. cbn [snd].
  destruct (negb (World.fsFault w (S (World.fsOps w)))
            && Store.dirExists (World.store w));
    split; try reflexivity; [ right | left ]; reflexivity.
Qed.

End RunBatches.

(** X8. In a run that returns, the counters are the account of what was
    written: there is one append to the table per symbol counted in
    [successCount], in order, each of at least one row, and [totalRows] is
    the number of rows appended; the symbols not counted there are counted
    in [errorCount]; the table at the end is the table from before the run
    followed by the records of these appends, nothing else; and the sidecar
    is written at most once, as the last event of the run. *)
Theorem run_appends_what_it_counts
    parseFloat toISODate csvRecord fuel env self w c w' :
  fetchAllStockData parseFloat toISODate csvRecord fuel env self w
  = (Return c, w') ->
  exists batches,
    Forall (fun rows : list PriceRow.t => rows <> []) batches /\
    Counters.successCount c = Z.of_nat (length batches) /\
    Counters.errorCount c
    = Z.of_nat (length (Agent.companies self)) - Z.of_nat (length batches) /\
    Counters.totalRows c
    = sumZ (map (fun rows => Z.of_nat (length rows)) batches) /\
    csv_writes (since w w') = map (fun rows => (true, length rows)) batches /\
    Store.csvFile (World.store w')
    = appended csvRecord (Store.csvFile (World.store w)) batches /\
    (forall i, since w w' !! i = Some EvMetaWrite ->
               S i = length (since w w')).
Proof.
  intros H. apply fetchAllStockData_Return in H. destruct H as (wl & Hl & ->).
  apply ingestLoop_batches in Hl.
  destruct Hl as (evs & batches & Ht & Hm & Hb & Hs & He & Hr & Hw & Hc).
  cbn [Counters.successCount Counters.errorCount Counters.totalRows] in Hs, He, Hr.
  destruct (updateLastUpdateTime_table self wl) as (Hcsv & Htr).
  exists batches. rewrite Hcsv.
  repeat (split; [ first [ assumption | lia ] | ]).
  assert (Hno : forall i, evs !! i <> Some EvMetaWrite).
  { intros i Hi. rewrite Forall_forall in Hm.
    apply (Hm EvMetaWrite); [ | reflexivity ].
    eapply list_elem_of_lookup_2. exact Hi. }
  destruct Htr as [ Htr | Htr ].
  - rewrite (since_app w _ evs) by (rewrite Htr; exact Ht).
    split; [ exact Hw | ]. split; [ exact Hc | ].
    intros i Hi. destruct (Hno i Hi).
  - rewrite (since_app w _ (evs ++ [EvMetaWrite]))
      by (rewrite Htr, Ht, app_assoc; reflexivity).
    split; [ rewrite csv_writes_app, Hw; apply app_nil_r | ].
    split; [ exact Hc | ].
    intros i Hi. rewrite length_app. cbn [length].
    destruct (Nat.lt_ge_cases i (length evs)) as [ Hlt | Hge ].
    + rewrite lookup_app_l in Hi by exact Hlt. destruct (Hno i Hi).
    + apply lookup_lt_Some in Hi. rewrite length_app in Hi. cbn [length] in Hi.
      lia.
Qed.

Lemma run_appends_what_it_counts_witness :
  let w := Examples.world Examples.ready 1000 Examples.noFault
             Examples.alphaTwoDays Examples.yahooDown in
  let self := Examples.agent [Examples.aapl; Examples.msft] in
  exists c w' batches,
    fetchAllStockData Engine.parseFloat Engine.toISODate Engine.csvRecord 5
      (Examples.env None) self w = (Return c, w') /\
    c = Counters.mk 2 0 4 /\
    Z.of_nat (length batches) = 2 /\
    sumZ (map (fun rows => Z.of_nat (length rows)) batches) = 4 /\
    Store.csvFile (World.store w')
    = appended Engine.csvRecord (Some (csvHeader ++ newline)%string) batches.
Proof.
  intros w self.
  assert (Hc : fst (fetchAllStockData Engine.parseFloat Engine.toISODate
                      Engine.csvRecord 5 (Examples.env None) self w)
               = Return (Counters.mk 2 0 4)) by (vm_compute; reflexivity).
  destruct (fetchAllStockData Engine.parseFloat Engine.toISODate
              Engine.csvRecord 5 (Examples.env None) self w)
    as [ o w' ] eqn:E.
  cbn [fst] in Hc. subst o.
  destruct (run_appends_what_it_counts _ _ _ _ _ _ _ _ _ E)
    as (batches & _ & Hs & _ & Hr & _ & Hcsv & _).
  exists (Counters.mk 2 0 4), w', batches.
  split; [ reflexivity | ]. split; [ reflexivity | ].
  split; [ symmetry; exact Hs | ]. split; [ symmetry; exact Hr | exact Hcsv ].
Defined.

(** X9. A run only ever adds to the table: whatever the providers answer
    and whichever file-system calls fail, and whether the run returns,
    throws or does not finish, the table it leaves begins with the table it
    found. *)
Theorem table_only_grows parseFloat toISODate csvRecord fuel env self w old :
  Store.csvFile (World.store w) = Some old ->
  exists suffix,
    Store.csvFile
      (World.store
         (snd (fetchAllStockData parseFloat toISODate csvRecord fuel env self w)))
    = Some (old ++ suffix)%string.
Proof.
  intros Hold.
  destruct (Js.truthy_str (Env.ALPHA_VANTAGE_API_KEY env)) eqn:Hkey.
  - rewrite fetchAllStockData_eq by exact Hkey.
    pose proof (ingestLoop_grows parseFloat toISODate csvRecord fuel env self
                  (perRequestDelayMs env) (Agent.companies self)
                  (Counters.mk 0 0 0) w old Hold) as (suffix & Hs).
    exists suffix.
    destruct (ingestLoop parseFloat toISODate csvRecord fuel env self
                (perRequestDelayMs env) (Agent.companies self)
                (Counters.mk 0 0 0) w) as [ [ c | e | ] wl ];
      cbn [snd] in *; try exact Hs.
    destruct (updateLastUpdateTime_table self wl) as (-> & _). exact Hs.
  - rewrite fetchAllStockData_no_key by exact Hkey. cbn [snd].
    exists "". rewrite append_empty. exact Hold.
Qed.

Lemma table_only_grows_witness :
  exists suffix,
    Store.csvFile
      (World.store
         (snd (fetchAllStockData Engine.parseFloat Engine.toISODate
                 Engine.csvRecord 5 (Examples.env None)
                 (Examples.agent [Examples.aapl; Examples.msft])
                 (Examples.world (Store.mk true (Some Examples.duplicated) None)
                    1000 (fun k => Nat.eqb k 0) Examples.alphaTwoDays
                    Examples.yahooDown))))
    = Some (Examples.duplicated ++ suffix)%string.
Proof.
  apply (table_only_grows Engine.parseFloat Engine.toISODate Engine.csvRecord).
  reflexivity.
Defined.

(** X10. The only error a run throws is the configuration error: without
    an API key (unset or empty) it throws "Alpha Vantage API key not
    configured" before anything else happens, leaving the world as it is;
    and a run that throws threw that, for that reason. *)
Theorem fetchAllStockData_throws_only_without_key
    parseFloat toISODate csvRecord fuel env self w :
  (Js.truthy_str (Env.ALPHA_VANTAGE_API_KEY env) = false ->
   fetchAllStockData parseFloat toISODate csvRecord fuel env self w
   = (Throw "Alpha Vantage API key not configured", w)) /\
  (forall e w',
      fetchAllStockData parseFloat toISODate csvRecord fuel env self w
      = (Throw e, w') ->
      Js.truthy_str (Env.ALPHA_VANTAGE_API_KEY env) = false /\
      e = "Alpha Vantage API key not configured" /\ w' = w).
Proof.
  split; [ apply fetchAllStockData_no_key | ].
  intros e w' H.
  destruct (Js.truthy_str (Env.ALPHA_VANTAGE_API_KEY env)) eqn:Hkey.
  - exfalso. rewrite fetchAllStockData_eq in H by exact Hkey.
    pose proof (ingestLoop_no_throw parseFloat toISODate csvRecord fuel env self
                  (perRequestDelayMs env) (Agent.companies self)
                  (Counters.mk 0 0 0) w) as Hno.
    destruct (ingestLoop parseFloat toISODate csvRecord fuel env self
                (perRequestDelayMs env) (Agent.companies self)
                (Counters.mk 0 0 0) w) as [ [ c | e0 | ] wl ];
      try discriminate H.
    apply (Hno e0). reflexivity.
  - rewrite fetchAllStockData_no_key in H by exact Hkey.
    inversion H. repeat split.
Qed.

Lemma fetchAllStockData_throws_only_without_key_witness :
  let w := Examples.world Examples.ready 1000 Examples.noFault
             Examples.alphaTwoDays Examples.yahooOneDay in
  fetchAllStockData Engine.parseFloat Engine.toISODate Engine.csvRecord 5
    (Env.mk (Some "") None None None None) (Examples.agent [Examples.aapl]) w
  = (Throw "Alpha Vantage API key not configured", w).
Proof.
  intros w.
  apply (fetchAllStockData_throws_only_without_key
           Engine.parseFloat Engine.toISODate Engine.csvRecord).
  reflexivity.
Defined.

(** ** Appending and counting *)

Lemma append_cons c (a b : string) :
  (String c a ++ b)%string = String c (a ++ b)%string.
Proof. reflexivity. Qed.

Lemma split_app sep (a b : string) :
  Js.split sep (a ++ String sep b)
  = (Js.split sep a ++ Js.split sep b)%list.
Proof.
  induction a as [ | c a IH ].
  - change ("" ++ String sep b)%string with (String sep b).
    cbn [Js.split]. rewrite Ascii.eqb_refl. reflexivity.
  - rewrite append_cons. cbn [Js.split]. rewrite IH.
    destruct (Ascii.eqb c sep); [ reflexivity | ].
    pose proof (split_nonempty sep a) as Hne.
    destruct (Js.split sep a); [ contradiction | reflexivity ].
Qed.

Lemma split_no_sep sep s : count_char sep s = 0%nat -> Js.split sep s = [s].
Proof.
  induction s as [ | c s IH ]; [ reflexivity | ].
  cbn [count_char Js.split].
  destruct (Ascii.eqb c sep); [ discriminate | ].
  intros H. rewrite IH by exact H. reflexivity.
Qed.

Lemma records_one csvRecord r :
  records csvRecord [r] = (csvRecord r ++ newline)%string.
Proof. reflexivity. Qed.

Lemma records_cons csvRecord r r' rows :
  records csvRecord (r :: r' :: rows)
  = (csvRecord r ++ String (ascii_of_nat 10) (records csvRecord (r' :: rows)))%string.
Proof.
  unfold records. cbn [map String.concat].
  rewrite string_app_assoc. unfold newline at 1.
  rewrite append_cons. reflexivity.
Qed.

(** The lines of the records of a non-empty list of rows: one per row,
    and the empty line after the last line break. *)
Lemma split_records csvRecord rows :
  Forall (fun r => record_line (csvRecord r)) rows ->
  rows <> [] ->
  Js.split (ascii_of_nat 10) (records csvRecord rows)
  = (map csvRecord rows ++ [""])%list.
Proof.
  induction 1 as [ | r rows (Hr & _) Hrows IH ]; [ contradiction | ].
  intros _. destruct rows as [ | r' rows ].
  - rewrite records_one. unfold newline.
    rewrite split_app, split_no_sep by exact Hr. reflexivity.
  - rewrite records_cons, split_app, IH, split_no_sep by (exact Hr || discriminate).
    reflexivity.
Qed.

Lemma filter_record_lines (csvRecord : PriceRow.t -> string) rows :
  Forall (fun r => record_line (csvRecord r)) rows ->
  List.filter (fun line => negb (String.eqb (Js.trim line) ""))
    (map csvRecord rows)
  = map csvRecord rows.
Proof.
  induction 1 as [ | r rows (_ & Hr) _ IH ]; [ reflexivity | ].
  cbn [map List.filter]. apply String.eqb_neq in Hr. rewrite Hr, IH.
  reflexivity.
Qed.

(** The non-blank lines among the lines of the records: one per row, also
    for no row, where the records are one line break. *)
Lemma nonblank_records csvRecord rows :
  Forall (fun r => record_line (csvRecord r)) rows ->
  List.filter (fun line => negb (String.eqb (Js.trim line) ""))
    (Js.split (ascii_of_nat 10) (records csvRecord rows))
  = map csvRecord rows.
Proof.
  intros Hrows. destruct rows as [ | r rows ]; [ reflexivity | ].
  rewrite split_records by (exact Hrows || discriminate).
  rewrite List.filter_app, filter_record_lines by exact Hrows.
  apply app_nil_r.
Qed.

(** The non-blank lines of a table after an append: those it had, then
    one line per record. *)
Lemma nonblank_lines_append csvRecord text rows :
  ends_with_newline text ->
  Forall (fun r => record_line (csvRecord r)) rows ->
  nonblank_lines (text ++ records csvRecord rows)
  = (nonblank_lines text ++ map csvRecord rows)%list.
Proof.
  intros (t & ->) Hrows. unfold nonblank_lines, newline.
  rewrite string_app_assoc.
  change (String (ascii_of_nat 10) "" ++ records csvRecord rows)%string
    with (String (ascii_of_nat 10) (records csvRecord rows)).
  rewrite !split_app, !List.filter_app, nonblank_records by exact Hrows.
  cbn [Js.split List.filter]. change (Js.trim "") with "". cbn.
  rewrite !app_nil_r. reflexivity.
Qed.

Lemma ends_with_newline_append csvRecord text rows :
  ends_with_newline text -> ends_with_newline (text ++ records csvRecord rows).
Proof.
  intros _. exists (text ++ String.concat newline (map csvRecord rows))%string.
  unfold records. symmetry. apply string_app_assoc.
Qed.

(** X11. Appending and counting agree.  On a table whose last line is
    ended by a line break and which has its header, in an existing data
    directory, an append of rows whose record lines are single non-blank
    lines returns, and the non-blank lines of the table are then those it
    had followed by one line per row, in order: the count of data points
    grows by the number of rows, [getDataPointCount] returns that count, and
    the table is again one to which the same applies. *)
Theorem saveToCsv_then_count csvRecord rows w text :
  Store.csvFile (World.store w) = Some text ->
  ends_with_newline text ->
  nonblank_lines text <> [] ->
  Forall (fun r => record_line (csvRecord r)) rows ->
  Store.dirExists (World.store w) = true ->
  World.fsFault w (World.fsOps w) = false ->
  exists w1 text1,
    saveToCsv csvRecord rows true w = (Return true, w1) /\
    Store.csvFile (World.store w1) = Some text1 /\
    nonblank_lines text1 = (nonblank_lines text ++ map csvRecord rows)%list /\
    dataPointsOf (Some text1) = dataPointsOf (Some text) + Z.of_nat (length rows) /\
    (World.fsFault w (S (World.fsOps w)) = false ->
     fst (getDataPointCount w1)
     = Return (dataPointsOf (Some text) + Z.of_nat (length rows))) /\
    ends_with_newline text1 /\ nonblank_lines text1 <> [].
Proof.
  intros Hcsv Hnl Hhead Hrows Hdir Hfault.
  rewrite saveToCsv_eq, Hfault, Hdir, Hcsv. cbn [negb andb default].
  eexists _, _. split; [ reflexivity | ]. world_simpl.
  split; [ reflexivity | ].
  pose proof (nonblank_lines_append csvRecord text rows Hnl Hrows) as Hlines.
  unfold id.
  assert (Hcount : dataPointsOf (Some (text ++ records csvRecord rows)%string)
                   = dataPointsOf (Some text) + Z.of_nat (length rows)).
  { unfold dataPointsOf. rewrite Hlines, length_app, length_map.
    destruct (nonblank_lines text); [ contradiction | cbn [length]; lia ]. }
  split; [ exact Hlines | ]. split; [ exact Hcount | ].
  split; [ | split ].
  - intros Hf2. rewrite getDataPointCount_eq. world_simpl. rewrite Hf2.
    cbn [fst]. rewrite Hcount. reflexivity.
  - apply ends_with_newline_append. exact Hnl.
  - rewrite Hlines. destruct (nonblank_lines text); [ contradiction | discriminate ].
Qed.

Lemma saveToCsv_then_count_witness :
  let w := Examples.world Examples.ready 0 Examples.noFault
             Examples.alphaDown Examples.yahooDown in
  exists w1,
    saveToCsv Engine.csvRecord Examples.aaplTwoDays true w = (Return true, w1) /\
    dataPointsOf (Store.csvFile (World.store w)) = 0 /\
    fst (getDataPointCount w1) = Return 2.
Proof.
  intros w.
  assert (Hnl : ends_with_newline (csvHeader ++ newline)%string)
    by (exists csvHeader; reflexivity).
  assert (Hhead : nonblank_lines (csvHeader ++ newline)%string <> [])
    by (vm_compute; discriminate).
  assert (Hrows : Forall (fun r => record_line (Engine.csvRecord r))
                    Examples.aaplTwoDays).
  { repeat constructor; vm_compute; discriminate. }
  destruct (saveToCsv_then_count Engine.csvRecord Examples.aaplTwoDays w
              (csvHeader ++ newline)%string eq_refl Hnl Hhead Hrows
              eq_refl eq_refl)
    as (w1 & text1 & Hsave & _ & _ & _ & Hcount & _).
  exists w1. split; [ exact Hsave | ].
  split; [ vm_compute; reflexivity | ].
  rewrite (Hcount eq_refl). vm_compute. reflexivity.
Defined.

(** ** The retry helper, whatever the provider answers *)

Lemma backoff_ms_nonneg i : 1 <= i -> 0 <= backoff_ms i.
Proof. unfold backoff_ms. lia. Qed.

Lemma sum_backoff_nonneg n : forall a, 1 <= a -> 0 <= sumZ (map backoff_ms (seqZ a (Z.of_nat n))).
Proof.
  induction n as [ | n IH ]; intros a Ha.
  - rewrite seqZ_nil by (simpl; lia). simpl. lia.
  - rewrite seqZ_cons by lia.
    replace (Z.pred (Z.of_nat (S n))) with (Z.of_nat n) by lia.
    unfold sumZ. cbn [map foldr]. fold (sumZ (map backoff_ms (seqZ (Z.succ a) (Z.of_nat n)))).
    pose proof (IH (Z.succ a) ltac:(lia)). pose proof (backoff_ms_nonneg a Ha). lia.
Qed.

Lemma sum_backoff_mono j n :
  (j <= n)%nat ->
  forall a, 1 <= a ->
    sumZ (map backoff_ms (seqZ a (Z.of_nat j)))
    <= sumZ (map backoff_ms (seqZ a (Z.of_nat n))).
Proof.
  revert n. induction j as [ | j IH ]; intros n Hjn a Ha.
  - rewrite (seqZ_nil a (Z.of_nat 0)) by (simpl; lia). cbn [map sumZ foldr].
    apply sum_backoff_nonneg. exact Ha.
  - destruct n as [ | n ]; [ lia | ].
    rewrite !(seqZ_cons a) by lia.
    replace (Z.pred (Z.of_nat (S j))) with (Z.of_nat j) by lia.
    replace (Z.pred (Z.of_nat (S n))) with (Z.of_nat n) by lia.
    unfold sumZ. cbn [map foldr].
    fold (sumZ (map backoff_ms (seqZ (Z.succ a) (Z.of_nat j)))).
    fold (sumZ (map backoff_ms (seqZ (Z.succ a) (Z.of_nat n)))).
    pose proof (IH n ltac:(lia) (Z.succ a) ltac:(lia)). lia.
Qed.

(** The run of [callAlpha] with [n] retries left in the budget: it stops
    at the first answer that is not a marker, or at the last attempt. *)
Lemma callAlpha_run env p m :
  maxAttempts env = Some m ->
  forall n fuel a w,
    n = Z.to_nat (Z.max 0 (m - a)) ->
    (S n <= fuel)%nat ->
    1 <= a ->
    exists j w',
      (j <= n)%nat /\
      callAlpha fuel env p a w
      = (verdict (World.alphaNet w (World.netOps w + j)%nat p), w') /\
      (forall i, (i < j)%nat ->
         exists d, World.alphaNet w (World.netOps w + i)%nat p = HttpOk d /\
                   soft_failure d = true) /\
      ((j < n)%nat ->
       forall d, World.alphaNet w (World.netOps w + j)%nat p = HttpOk d ->
                 soft_failure d = false) /\
      World.trace w' = (World.trace w ++ retry_events p a (S j))%list /\
      World.now w' = World.now w + sumZ (map backoff_ms (seqZ a (Z.of_nat j))) /\
      World.netOps w' = (World.netOps w + S j)%nat /\
      World.store w' = World.store w.
Proof.
  intros Hm. induction n as [ | n IH ]; intros fuel a w Hn Hfuel Ha.
  - destruct fuel as [ | fuel ]; [ lia | ].
    exists O. eexists. split; [ lia | ].
    simpl callAlpha. unfold bind, axios_get_alpha. rewrite Nat.add_0_r.
    split.
    + destruct (World.alphaNet w (World.netOps w) p) as [ d | e ];
        [ | reflexivity ].
      cbn [verdict]. unfold soft_failure.
      destruct (Js.truthy_str (Alpha.Note d) || Js.truthy_str (Alpha.ErrorMessage d));
        [ | reflexivity ].
      fold (maxAttempts env). rewrite Hm. unfold ge_num.
      destruct (Z.leb_spec m a); [ reflexivity | lia ].
    + world_simpl. split; [ intros i Hi; lia | ].
      split; [ intros Hlt; lia | ].
      rewrite seqZ_nil by (simpl; lia). cbn [retry_events map sumZ foldr].
      repeat split; lia.
  - destruct fuel as [ | fuel ]; [ lia | ].
    simpl callAlpha. unfold bind at 1. unfold axios_get_alpha at 1.
    destruct (World.alphaNet w (World.netOps w) p) as [ d0 | e0 ] eqn:Hd0.
    + destruct (soft_failure d0) eqn:Hs0.
      * unfold soft_failure in Hs0. rewrite Hs0.
        fold (maxAttempts env). rewrite Hm. unfold ge_num.
        destruct (Z.leb_spec m a); [ lia | ].
        unfold bind at 1. unfold sleep at 1, modify.
        set (w2 := World.with_now _ _).
        destruct (IH fuel (a + 1) w2)
          as (j & w' & Hj & Hrun & Hbefore & Hstop & Htr & Hnow & Hops & Hst);
          try lia.
        exists (S j), w'. subst w2. world_simpl. fold (backoff_ms a) in *.
        replace (World.netOps w + S j)%nat with (S (World.netOps w) + j)%nat by lia.
        split; [ lia | ]. split; [ exact Hrun | ].
        split; [ | split; [ | split; [ | split; [ | split ] ] ] ].
        -- intros i Hi. destruct i as [ | i ].
           ++ rewrite Nat.add_0_r. exists d0. split; [ exact Hd0 | exact Hs0 ].
           ++ replace (World.netOps w + S i)%nat
                with (S (World.netOps w) + i)%nat by lia.
              apply Hbefore. lia.
        -- intros Hlt. apply Hstop. lia.
        -- rewrite Htr, retry_events_SS. rewrite <- !app_assoc. reflexivity.
        -- rewrite Hnow. rewrite (seqZ_cons a) by lia.
           replace (Z.pred (Z.of_nat (S j))) with (Z.of_nat j) by lia.
           rewrite timer_delay_backoff by lia.
           unfold sumZ. cbn [map foldr].
           replace (Z.succ a) with (a + 1) by lia. lia.
        -- lia.
        -- exact Hst.
      * exists O. eexists. rewrite Nat.add_0_r, Hd0. cbn [verdict].
        rewrite Hs0. unfold soft_failure in Hs0. rewrite Hs0.
        split; [ lia | ]. split; [ reflexivity | ]. world_simpl.
        split; [ intros i Hi; lia | ].
        split; [ intros _ d Hd; inversion Hd; subst; exact Hs0 | ].
        rewrite seqZ_nil by (simpl; lia). cbn [retry_events map sumZ foldr].
        repeat split; lia.
    + exists O. eexists. rewrite Nat.add_0_r, Hd0. cbn [verdict].
      split; [ lia | ]. split; [ reflexivity | ]. world_simpl.
      split; [ intros i Hi; lia | ].
      split; [ intros _ d Hd; discriminate Hd | ].
      rewrite seqZ_nil by (simpl; lia). cbn [retry_events map sumZ foldr].
      repeat split; lia.
Qed.

(** X12. With a numeric retry budget the helper finishes after at most
    [max(1, maxAttempts)] requests, whatever the provider answers.  It goes
    on only as long as the answers carry a marker, sleeping [min(60 i, 180)]
    seconds after the [i]-th; it ends on the first answer that is a
    transport error, which it throws again, or a payload without marker,
    which it returns; a marker is thrown only by the last attempt of the
    budget. *)
Theorem callAlpha_bounded env p m fuel w :
  maxAttempts env = Some m ->
  enough_fuel m fuel ->
  exists j w',
    (S j <= Z.to_nat (Z.max 1 m))%nat /\
    callAlpha fuel env p 1 w
    = (verdict (World.alphaNet w (World.netOps w + j)%nat p), w') /\
    (forall i, (i < j)%nat ->
       exists d, World.alphaNet w (World.netOps w + i)%nat p = HttpOk d /\
                 soft_failure d = true) /\
    ((S j < Z.to_nat (Z.max 1 m))%nat ->
     forall d, World.alphaNet w (World.netOps w + j)%nat p = HttpOk d ->
               soft_failure d = false) /\
    attempts (since w w') = S j /\
    sleeps (since w w')
    = map (fun i => Some (backoff_ms i)) (seqZ 1 (Z.of_nat j)) /\
    World.now w' - World.now w = sumZ (map backoff_ms (seqZ 1 (Z.of_nat j))) /\
    World.netOps w' = (World.netOps w + S j)%nat.
Proof.
  intros Hm Hfuel. unfold enough_fuel in Hfuel.
  destruct (callAlpha_run env p m Hm (Z.to_nat (Z.max 0 (m - 1))) fuel 1 w)
    as (j & w' & Hj & Hrun & Hbefore & Hstop & Htr & Hnow & Hops & _);
    try lia.
  exists j, w'. split; [ lia | ]. split; [ exact Hrun | ].
  split; [ exact Hbefore | ]. split; [ intros H; apply Hstop; lia | ].
  apply since_app in Htr. rewrite Htr.
  split; [ apply attempts_retry_events | ].
  split; [ apply sleeps_retry_events | ].
  split; [ lia | exact Hops ].
Qed.

Lemma callAlpha_bounded_witness :
  let w := Examples.world Examples.ready 0 Examples.noFault
             Examples.alphaRecovers Examples.yahooDown in
  exists j w',
    (S j <= 5)%nat /\
    callAlpha 5 (Examples.env None) (Examples.params "AAPL") 1 w
    = (verdict (Examples.alphaRecovers j (Examples.params "AAPL")), w') /\
    attempts (since w w') = S j /\
    World.now w' - World.now w = sumZ (map backoff_ms (seqZ 1 (Z.of_nat j))).
Proof.
  intros w.
  destruct (callAlpha_bounded (Examples.env None) (Examples.params "AAPL") 5 5 w)
    as (j & w' & Hj & Hrun & _ & _ & Ha & _ & Hnow & _).
  - reflexivity.
  - unfold enough_fuel. vm_compute. lia.
  - exists j, w'. split; [ exact Hj | ]. split; [ exact Hrun | ].
    split; [ exact Ha | exact Hnow ].
Defined.

(** The provider recovers at the third request: two sleeps, then the
    payload. *)
Example callAlpha_recovers :
  let r := callAlpha 5 (Examples.env None) (Examples.params "AAPL") 1
             (Examples.world Examples.ready 0 Examples.noFault
                Examples.alphaRecovers Examples.yahooDown) in
  (exists d, fst r = Return d /\ soft_failure d = false) /\
  World.trace (snd r)
  = [EvAlpha (Examples.params "AAPL"); EvSleep (Some 60000);
     EvAlpha (Examples.params "AAPL"); EvSleep (Some 120000);
     EvAlpha (Examples.params "AAPL")] /\
  World.now (snd r) = 180000.
Proof. vm_compute. split; [ eexists; split; reflexivity | split; reflexivity ]. Qed.

(** A transport error is not retried. *)
Example callAlpha_transport_error :
  let r := callAlpha 5 (Examples.env None) (Examples.params "AAPL") 1
             (Examples.world Examples.ready 0 Examples.noFault
                Examples.alphaDown Examples.yahooDown) in
  fst r = Throw "ECONNREFUSED" /\
  World.trace (snd r) = [EvAlpha (Examples.params "AAPL")] /\
  World.now (snd r) = 0.
Proof. vm_compute. repeat split; reflexivity. Qed.

(** ** How long a run takes *)

Lemma full_backoff_seq m :
  full_backoff m
  = sumZ (map backoff_ms (seqZ 1 (Z.of_nat (Z.to_nat (Z.max 0 (m - 1)))))).
Proof.
  unfold full_backoff. destruct (Z.le_gt_cases (m - 1) 0).
  - rewrite Z.max_l by lia. rewrite !seqZ_nil by (simpl; lia). reflexivity.
  - rewrite Z.max_r by lia. rewrite Z2Nat.id by lia. reflexivity.
Qed.

Lemma timer_delay_positive ms : 1 <= timer_delay ms.
Proof.
  unfold timer_delay. destruct ms as [ d | ]; [ | lia ].
  destruct (Z.leb_spec 1 d); cbn [andb]; [ | lia ].
  destruct (Z.leb_spec d 2147483647); lia.
Qed.

Section RunClock.
Context (parseFloat : string -> float) (toISODate : Z -> string)
        (csvRecord : PriceRow.t -> string).
Context (env : Env.t) (m : Z) (fuel : nat).
Hypothesis Hbudget : maxAttempts env = Some m.
Hypothesis Hfuel : enough_fuel m fuel.

Lemma fetchCompanyData_clock self company w :
  let w' := snd (fetchCompanyData parseFloat toISODate fuel env self company w) in
  0 <= World.now w' - World.now w <= full_backoff m.
Proof.
  cbn zeta. rewrite fetchCompanyData_eq. unfold enough_fuel in Hfuel.
  destruct (callAlpha_run env (primaryParams env company) m Hbudget
              (Z.to_nat (Z.max 0 (m - 1))) fuel 1 w)
    as (j & w1 & Hj & Hrun & _ & _ & _ & Hnow & _); try lia.
  assert (Hclock : 0 <= World.now w1 - World.now w <= full_backoff m).
  { rewrite full_backoff_seq, Hnow.
    pose proof (sum_backoff_nonneg j 1 ltac:(lia)).
    pose proof (sum_backoff_mono j _ Hj 1 ltac:(lia)). lia. }
  assert (Hy : forall symbol,
             World.now (snd (fetchFromYahoo toISODate self symbol w1))
             = World.now w1).
  { intros symbol.
    destruct (fetchFromYahoo_spec toISODate self symbol w1) as (r & -> & _).
    reflexivity. }
  rewrite Hrun.
  destruct (verdict _) as [ daily | e | ]; cbn [snd];
    [ | rewrite Hy; exact Hclock | exact Hclock ].
  destruct (Alpha.TimeSeries daily) as [ ts | ]; [ | rewrite Hy; exact Hclock ].
  destruct (alphaRows parseFloat company ts _); cbn [snd];
    [ exact Hclock | rewrite Hy; exact Hclock | rewrite Hy; exact Hclock ].
Qed.

Lemma ingestOne_clock self company c w :
  let w' := snd (ingestOne parseFloat toISODate csvRecord fuel env self company c w) in
  0 <= World.now w' - World.now w <= full_backoff m.
Proof.
  cbn zeta. rewrite ingestOne_eq.
  pose proof (fetchCompanyData_clock self company w) as H. cbn zeta in H.
  destruct (fetchCompanyData parseFloat toISODate fuel env self company w)
    as [ [ [ [ | r rs ] | ] | e | ] w1 ]; cbn [snd] in *; try exact H.
  rewrite saveToCsv_eq.
  destruct (negb (World.fsFault w1 (World.fsOps w1))
            && Store.dirExists (World.store w1)); cbn [snd]; exact H.
Qed.

Lemma ingestLoop_clock self delay companies :
  forall c w,
    let w' := snd (ingestLoop parseFloat toISODate csvRecord fuel env self delay
                     companies c w) in
    let n := Z.of_nat (length companies) in
    Z.max 0 (n - 1) * timer_delay delay
    <= World.now w' - World.now w
    <= Z.max 0 (n - 1) * timer_delay delay + n * full_backoff m.
Proof.
  induction companies as [ | company rest IH ]; intros c w; cbn zeta.
  - cbn [ingestLoop ret snd length]. lia.
  - rewrite ingestLoop_cons.
    pose proof (ingestOne_clock self company c w) as H1. cbn zeta in H1.
    pose proof (ingestOne_returns parseFloat toISODate csvRecord fuel env self
                  company c w m Hbudget Hfuel) as (c1 & w1 & E1 & _).
    rewrite E1 in *. cbn [snd] in H1.
    pose proof (timer_delay_positive delay) as Hd.
    destruct rest as [ | next rest ].
    + cbn [ingestLoop ret snd length]. lia.
    + specialize (IH c1 (snd (sleep delay w1))). cbn zeta in IH.
      change (World.now (snd (sleep delay w1)))
        with (World.now w1 + timer_delay delay) in IH.
      cbn [length] in *. nia.
Qed.

End RunClock.

(** X13. How long a run takes.  With the API key and a numeric retry
    budget [m], a run over [n] symbols advances the clock by at least
    [n - 1] throttle delays (none after the last symbol) and by at most that
    plus [n] times the full backoff schedule of [m] attempts; the throttle
    delay is the configured one when it is a number of 1 .. 2^31-1
    milliseconds. *)
Theorem run_duration parseFloat toISODate csvRecord fuel env self m w :
  Js.truthy_str (Env.ALPHA_VANTAGE_API_KEY env) = true ->
  maxAttempts env = Some m ->
  enough_fuel m fuel ->
  let w' := snd (fetchAllStockData parseFloat toISODate csvRecord fuel env self w) in
  let n := Z.of_nat (length (Agent.companies self)) in
  let delay := timer_delay (perRequestDelayMs env) in
  Z.max 0 (n - 1) * delay
  <= World.now w' - World.now w
  <= Z.max 0 (n - 1) * delay + n * full_backoff m /\
  (forall d, perRequestDelayMs env = Some d -> 1 <= d <= 2147483647 ->
             delay = d).
Proof.
  intros Hkey Hm Hfuel. cbn zeta. split.
  - rewrite fetchAllStockData_eq by exact Hkey.
    pose proof (ingestLoop_clock parseFloat toISODate csvRecord env m fuel Hm Hfuel
                  self (perRequestDelayMs env) (Agent.companies self)
                  (Counters.mk 0 0 0) w) as H. cbn zeta in H.
    destruct (ingestLoop parseFloat toISODate csvRecord fuel env self
                (perRequestDelayMs env) (Agent.companies self)
                (Counters.mk 0 0 0) w) as [ [ c | e | ] wl ];
      cbn [snd] in *; try exact H.
    rewrite updateLastUpdateTime_eq. cbn [snd].
    destruct (negb (World.fsFault wl (S (World.fsOps wl)))
              && Store.dirExists (World.store wl)); exact H.
  - intros d -> Hd. unfold timer_delay.
    destruct (Z.leb_spec 1 d); [ | lia ].
    destruct (Z.leb_spec d 2147483647); [ reflexivity | lia ].
Qed.

Lemma run_duration_witness :
  let w := Examples.world Examples.ready 1000 Examples.noFault
             Examples.alphaTwoDays Examples.yahooDown in
  let w' := snd (fetchAllStockData Engine.parseFloat Engine.toISODate
                   Engine.csvRecord 5 (Examples.env None)
                   (Examples.agent [Examples.aapl; Examples.msft]) w) in
  15000 <= World.now w' - World.now w <= 15000 + 2 * 540000.
Proof.
  intros w w'.
  pose proof (run_duration Engine.parseFloat Engine.toISODate Engine.csvRecord 5
                (Examples.env None) (Examples.agent [Examples.aapl; Examples.msft])
                5 w eq_refl eq_refl) as H.
  assert (Hfuel : enough_fuel 5 5) by (unfold enough_fuel; vm_compute; lia).
  destruct (H Hfuel) as (Hb & _). exact Hb.
Defined.

(** ** The rows of the adapter *)

Lemma slice_from_last {A} d (l : list A) :
  1 <= d -> Z.of_nat (length (Js.slice_from (Some (- d)) l)) = Z.min d (Z.of_nat (length l)).
Proof.
  intros Hd. unfold Js.slice_from.
  destruct (Z.ltb_spec (- d) 0); [ | lia ].
  rewrite length_drop. lia.
Qed.

Lemma alphaRows_dates parseFloat company ts :
  forall dates rows,
    alphaRows parseFloat company ts dates = Return rows ->
    map PriceRow.date rows = dates.
Proof.
  induction dates as [ | date rest IH ]; intros rows H; simpl in H.
  - inversion H. reflexivity.
  - destruct (assoc date ts) as [ [ d | ] | ]; try discriminate H.
    destruct (alphaRows parseFloat company ts rest) as [ rows' | | ];
      try discriminate H.
    inversion H; subst. cbn [map alphaRow PriceRow.date].
    rewrite (IH rows' eq_refl). reflexivity.
Qed.

Lemma yahooRow_identity toISODate symbol q i stamp r :
  yahooRow toISODate symbol q i stamp = Return (Some r) ->
  PriceRow.symbol r = Js.toUpperCase symbol /\
  PriceRow.name r = Js.toUpperCase symbol /\
  PriceRow.sector r = "Unknown" /\
  PriceRow.adjustedClose r = PriceRow.close r /\
  PriceRow.priceChange r = (PriceRow.close r - PriceRow.open r)%float /\
  is_Some (PriceRow.volume r).
Proof.
  unfold yahooRow. destruct (negb (valid_time _)); [ discriminate | ].
  destruct q as [ | | quote ]; try discriminate.
  destruct (Js.or_null (parseFloat_num (at_index (Yahoo.q_open quote) i)));
    [ | discriminate ].
  destruct (Js.or_null (parseFloat_num (at_index (Yahoo.q_close quote) i)));
    [ | discriminate ].
  intros H. inversion H; subst. cbn. repeat split; eauto.
Qed.

(** X14. Whichever provider they come from, the rows the adapter returns
    carry the upper-cased symbol of the company and a price change that is
    close minus open, and their adjusted close is NaN only when their close
    is; they carry the name and sector of the company when they come from
    the primary provider, and otherwise the upper-cased symbol as name, the
    sector "Unknown", the close as adjusted close and a volume that is a
    number; with a history depth [days >= 1] there are at most [days] of
    them; and the adapter leaves the store as it is. *)
Theorem adapter_rows_contract
    parseFloat toISODate fuel env self company w rows w' :
  fetchCompanyData parseFloat toISODate fuel env self company w
  = (Return (Some rows), w') ->
  Forall (fun r =>
            PriceRow.symbol r = Js.toUpperCase (Company.symbol company) /\
            PriceRow.priceChange r = (PriceRow.close r - PriceRow.open r)%float /\
            (PrimFloat.is_nan (PriceRow.adjustedClose r) = true ->
             PrimFloat.is_nan (PriceRow.close r) = true))
         rows /\
  (Forall (fun r => PriceRow.name r = Company.name company /\
                    PriceRow.sector r = Company.sector company) rows \/
   Forall (fun r => PriceRow.name r = Js.toUpperCase (Company.symbol company) /\
                    PriceRow.sector r = "Unknown" /\
                    PriceRow.adjustedClose r = PriceRow.close r /\
                    is_Some (PriceRow.volume r)) rows) /\
  (forall d, Agent.days self = Some d -> 1 <= d ->
             Z.of_nat (length rows) <= d) /\
  World.store w' = World.store w.
Proof.
  intros H.
  pose proof (fetchCompanyData_disk parseFloat toISODate fuel env self company w)
    as (Hstore & _).
  rewrite H in Hstore. cbn [snd] in Hstore.
  assert (Hyahoo : forall w1,
             fetchFromYahoo toISODate self (Company.symbol company) w1
             = (Return (Some rows), w') ->
             Forall (fun r =>
                       PriceRow.symbol r = Js.toUpperCase (Company.symbol company) /\
                       PriceRow.priceChange r
                       = (PriceRow.close r - PriceRow.open r)%float /\
                       (PrimFloat.is_nan (PriceRow.adjustedClose r) = true ->
                        PrimFloat.is_nan (PriceRow.close r) = true)) rows /\
             Forall (fun r =>
                       PriceRow.name r = Js.toUpperCase (Company.symbol company) /\
                       PriceRow.sector r = "Unknown" /\
                       PriceRow.adjustedClose r = PriceRow.close r /\
                       is_Some (PriceRow.volume r)) rows /\
             (forall d, Agent.days self = Some d -> 1 <= d ->
                        Z.of_nat (length rows) <= d)).
  { intros w1 Hy. split; [ | split ].
    - eapply fetchFromYahoo_Forall; [ | exact Hy ].
      intros q i stamp r Hr. apply yahooRow_identity in Hr.
      destruct Hr as (H1 & _ & _ & H4 & H5 & _).
      split; [ exact H1 | ]. split; [ exact H5 | ]. rewrite H4. auto.
    - eapply fetchFromYahoo_Forall; [ | exact Hy ].
      intros q i stamp r Hr. apply yahooRow_identity in Hr. tauto.
    - intros d Hd Hpos.
      destruct (fetchFromYahoo_spec toISODate self (Company.symbol company) w1)
        as (r & Hr & Hrows).
      rewrite Hy in Hr. inversion Hr; subst r.
      destruct (Hrows rows eq_refl) as (result & all & _ & _ & ->).
      rewrite Hd. cbn [neg_num fmap option_fmap option_map].
      rewrite slice_from_last by exact Hpos. lia. }
  rewrite fetchCompanyData_eq in H.
  destruct (callAlpha fuel env (primaryParams env company) 1 w)
    as [ [ daily | e | ] w1 ]; [ | | discriminate H ].
  - destruct (Alpha.TimeSeries daily) as [ ts | ].
    + destruct (alphaRows parseFloat company ts _) as [ rows' | e | ] eqn:Hrows.
      * inversion H; subst rows' w1. clear H.
        split; [ | split; [ left | split; [ | exact Hstore ] ] ].
        -- eapply alphaRows_Forall; [ | exact Hrows ].
           intros date d. split; [ reflexivity | ]. split; [ reflexivity | ].
           cbn [alphaRow PriceRow.adjustedClose PriceRow.close].
           destruct (PrimFloat.is_nan (parseFloatU parseFloat (Daily.f_adjusted d)))
             eqn:E; [ auto | ].
           rewrite E. discriminate.
        -- eapply alphaRows_Forall; [ | exact Hrows ].
           intros date d. split; reflexivity.
        -- intros d Hd Hpos. apply alphaRows_dates in Hrows.
           rewrite <- (length_map PriceRow.date), Hrows, Hd.
           cbn [neg_num fmap option_fmap option_map].
           rewrite slice_from_last by exact Hpos. lia.
      * destruct (Hyahoo w1 H) as (H1 & H2 & H3). auto.
      * destruct (Hyahoo w1 H) as (H1 & H2 & H3). auto.
    + destruct (Hyahoo w1 H) as (H1 & H2 & H3). auto.
  - destruct (Hyahoo w1 H) as (H1 & H2 & H3). auto.
Qed.

Lemma adapter_rows_contract_witness :
  let self := Agent.mk [Examples.aapl] (Some 1) in
  exists rows w',
    fetchCompanyData Engine.parseFloat Engine.toISODate 5 (Examples.env None)
      self Examples.aapl
      (Examples.world Examples.ready 0 Examples.noFault
         Examples.alphaTwoDays Examples.yahooDown)
    = (Return (Some rows), w') /\
    Z.of_nat (length rows) <= 1 /\
    Forall (fun r => PriceRow.symbol r = "AAPL") rows.
Proof.
  intros self.
  destruct (fetchCompanyData Engine.parseFloat Engine.toISODate 5
              (Examples.env None) self Examples.aapl
              (Examples.world Examples.ready 0 Examples.noFault
                 Examples.alphaTwoDays Examples.yahooDown))
    as [ [ [ rows | ] | e | ] w' ] eqn:E;
    try (exfalso; revert E; vm_compute; discriminate).
  exists rows, w'. split; [ reflexivity | ].
  destruct (adapter_rows_contract _ _ _ _ _ _ _ _ _ E) as (Hs & _ & Hlen & _).
  split; [ apply (Hlen 1); [ reflexivity | lia ] | ].
  eapply Forall_impl; [ exact Hs | ]. intros r (Hr & _). exact Hr.
Defined.

(** A history depth of 0 does not keep zero rows but all of them:
    [slice(-0)] is [slice(0)]. *)
Example zero_days_keeps_all :
  fst (fetchCompanyData Engine.parseFloat Engine.toISODate 5 (Examples.env None)
         (Agent.mk [Examples.aapl] (Some 0)) Examples.aapl
         (Examples.world Examples.ready 0 Examples.noFault
            Examples.alphaTwoDays Examples.yahooDown))
  = Return (Some Examples.aaplTwoDays).
Proof. vm_compute. reflexivity. Qed.

(** ** The primary path *)

Lemma after_compare_str a b :
  Js.after Js.compare_str a b = negb (String.leb a b).
Proof.
  unfold Js.after, Js.compare_str, String.leb.
  destruct (String.compare a b); reflexivity.
Qed.

Lemma insert_sorted_str x l :
  StronglySorted String.le l ->
  StronglySorted String.le (Js.insert_sorted Js.compare_str x l).
Proof.
  induction 1 as [ | y l Hl IH Hy ]; cbn [Js.insert_sorted].
  - repeat constructor.
  - rewrite after_compare_str.
    destruct (String.leb x y) eqn:E; cbn [negb].
    + constructor; [ constructor; assumption | ].
      assert (Hxy : String.le x y) by (unfold String.le; rewrite E; exact I).
      constructor; [ exact Hxy | ].
      eapply Forall_impl; [ exact Hy | ].
      intros z Hz. etransitivity; eassumption.
    + constructor; [ exact IH | ].
      apply insert_sorted_Forall; [ | exact Hy ].
      destruct (String.le_total x y) as [ H | H ]; [ | exact H ].
      unfold String.le in H. rewrite E in H. destruct H.
Qed.

Lemma sort_str_sorted l : StronglySorted String.le (Js.sort Js.compare_str l).
Proof.
  induction l as [ | x l IH ]; cbn [Js.sort]; [ constructor | ].
  apply insert_sorted_str. exact IH.
Qed.

Lemma StronglySorted_drop {B} (R : B -> B -> Prop) n :
  forall l, StronglySorted R l -> StronglySorted R (drop n l).
Proof.
  induction n as [ | n IH ]; intros l Hl; [ exact Hl | ].
  destruct l as [ | x l ]; [ constructor | ].
  cbn [drop skipn]. apply IH. inversion Hl; assumption.
Qed.

Lemma In_drop {B} n (l : list B) x : In x (drop n l) -> In x l.
Proof.
  intros H. rewrite <- (firstn_skipn n l). apply in_or_app. right. exact H.
Qed.

Lemma In_slice_from {B} start (l : list B) x :
  In x (Js.slice_from start l) -> In x l.
Proof.
  unfold Js.slice_from. destruct start; [ apply In_drop | auto ].
Qed.

Lemma assoc_In {V} k (l : list (string * V)) :
  In k (map fst l) -> exists v, assoc k l = Some v /\ In (k, v) l.
Proof.
  induction l as [ | [ k' v' ] l IH ]; [ intros [] | ].
  cbn [map fst In assoc]. intros H.
  destruct (String.eqb k k') eqn:E.
  - apply String.eqb_eq in E. subst k'. exists v'. split; [ reflexivity | left; reflexivity ].
  - destruct H as [ H | H ]; [ subst k'; rewrite String.eqb_refl in E; discriminate | ].
    destruct (IH H) as (v & Hv & Hin). exists v. split; [ exact Hv | right; exact Hin ].
Qed.

Lemma alphaRows_returns parseFloat company ts :
  forall dates,
    (forall date, In date dates -> exists d, assoc date ts = Some (Some d)) ->
    exists rows,
      alphaRows parseFloat company ts dates = Return rows /\
      Forall (fun r => exists d,
                  assoc (PriceRow.date r) ts = Some (Some d) /\
                  r = alphaRow parseFloat company (PriceRow.date r) d) rows.
Proof.
  induction dates as [ | date rest IH ]; intros H.
  - exists []. split; [ reflexivity | constructor ].
  - destruct IH as (rows & Hrows & Hall); [ intros d Hd; apply H; right; exact Hd | ].
    destruct (H date (or_introl eq_refl)) as (d & Hd).
    exists (alphaRow parseFloat company date d :: rows).
    cbn [alphaRows]. rewrite Hd, Hrows. split; [ reflexivity | ].
    constructor; [ | exact Hall ].
    exists d. split; [ exact Hd | reflexivity ].
Qed.

Lemma alphaRows_null parseFloat company ts :
  forall dates date,
    In date dates -> assoc date ts = Some None ->
    exists e, alphaRows parseFloat company ts dates = Throw e.
Proof.
  induction dates as [ | date0 rest IH ]; intros date Hin Hnull; [ destruct Hin | ].
  cbn [alphaRows].
  destruct Hin as [ -> | Hin ]; [ rewrite Hnull; eauto | ].
  destruct (assoc date0 ts) as [ [ d | ] | ]; eauto.
  destruct (IH date Hin Hnull) as (e & ->). eauto.
Qed.

(** X15. When the primary call returns a payload with a daily time series
    none of whose days is [null], the adapter returns in the world the call
    ended in, without a request to the fallback: one row per date, for the
    last [days] dates of the series in ascending order of the date strings,
    each built from the day of its date.  When a day among these dates is
    [null], the series is given up as a whole and the result is the one of
    the fallback. *)
Theorem primary_rows_ascending
    parseFloat toISODate fuel env self company w daily w1 ts :
  callAlpha fuel env (primaryParams env company) 1 w = (Return daily, w1) ->
  Alpha.TimeSeries daily = Some ts ->
  let kept := Js.slice_from (neg_num (Agent.days self))
                (Js.sort Js.compare_str (map fst ts)) in
  (Forall (fun entry => snd entry <> None) ts ->
   exists rows,
     fetchCompanyData parseFloat toISODate fuel env self company w
     = (Return (Some rows), w1) /\
     map PriceRow.date rows = kept /\
     StronglySorted String.le (map PriceRow.date rows) /\
     Forall (fun r => exists d,
                 assoc (PriceRow.date r) ts = Some (Some d) /\
                 r = alphaRow parseFloat company (PriceRow.date r) d) rows /\
     (forall d, Agent.days self = Some d -> 1 <= d ->
                Z.of_nat (length rows) = Z.min d (Z.of_nat (length ts)))) /\
  ((exists date, In date kept /\ assoc date ts = Some None) ->
   fetchCompanyData parseFloat toISODate fuel env self company w
   = fetchFromYahoo toISODate self (Company.symbol company) w1).
Proof.
  intros Hcall Hts kept. rewrite fetchCompanyData_eq, Hcall, Hts. fold kept.
  split.
  - intros Hdays.
    destruct (alphaRows_returns parseFloat company ts kept) as (rows & Hrows & Hall).
    { intros date Hin. subst kept. apply In_slice_from in Hin.
      apply (Permutation_in _ (sort_perm Js.compare_str (map fst ts))) in Hin.
      apply assoc_In in Hin. destruct Hin as ([ d | ] & Hd & Hin); [ eauto | ].
      rewrite List.Forall_forall in Hdays. destruct (Hdays _ Hin). reflexivity. }
    exists rows. rewrite Hrows. split; [ reflexivity | ].
    pose proof (alphaRows_dates parseFloat company ts kept rows Hrows) as Hd.
    split; [ exact Hd | ]. split; [ | split; [ exact Hall | ] ].
    + rewrite Hd. subst kept. unfold Js.slice_from.
      destruct (neg_num (Agent.days self)); [ | apply sort_str_sorted ].
      apply StronglySorted_drop, sort_str_sorted.
    + intros d Hdd Hpos. rewrite <- (length_map PriceRow.date), Hd. subst kept.
      rewrite Hdd. cbn [neg_num fmap option_fmap option_map].
      rewrite slice_from_last by exact Hpos.
      rewrite sort_length, length_map. reflexivity.
  - intros (date & Hin & Hnull).
    destruct (alphaRows_null parseFloat company ts kept date Hin Hnull) as (e & ->).
    reflexivity.
Qed.

Lemma primary_rows_ascending_witness :
  let w := Examples.world Examples.ready 0 Examples.noFault
             Examples.alphaTwoDays Examples.yahooOneDay in
  let self := Examples.agent [Examples.aapl] in
  exists rows w1,
    fetchCompanyData Engine.parseFloat Engine.toISODate 5 (Examples.env None)
      self Examples.aapl w = (Return (Some rows), w1) /\
    map PriceRow.date rows = ["2024-01-02"; "2024-01-03"] /\
    World.trace w1 = [EvAlpha (Examples.params "AAPL")].
Proof.
  intros w self.
  destruct (callAlpha 5 (Examples.env None)
              (primaryParams (Examples.env None) Examples.aapl) 1 w)
    as [ [ daily | e | ] w1 ] eqn:E;
    try (exfalso; revert E; vm_compute; discriminate).
  assert (Hd : daily = Alpha.mkData None None
                 (Some [("2024-01-03", Examples.day "10" "12.5");
                        ("2024-01-02", Examples.day "0" "10")]) /\
               World.trace w1 = [EvAlpha (Examples.params "AAPL")]).
  { revert E. vm_compute. intros E. inversion E. split; reflexivity. }
  destruct Hd as (-> & Htr).
  destruct (primary_rows_ascending Engine.parseFloat Engine.toISODate _ _ self _ _ _ _ _
              E eq_refl) as (H & _).
  destruct H as (rows & Hrows & Hdates & _).
  { repeat constructor; discriminate. }
  exists rows, w1. split; [ exact Hrows | ]. split; [ | exact Htr ].
  rewrite Hdates. vm_compute. reflexivity.
Defined.

(** One [null] day among the kept dates and the whole series is given up
    for the fallback. *)
Example null_day_falls_back :
  let alpha := fun (_ : nat) (_ : Alpha.params) =>
    HttpOk (Alpha.mkData None None
              (Some [("2024-01-03", Examples.day "10" "12.5"); ("2024-01-02", None)])) in
  fst (fetchCompanyData Engine.parseFloat Engine.toISODate 5 (Examples.env None)
         (Examples.agent [Examples.aapl]) Examples.aapl
         (Examples.world Examples.ready 0 Examples.noFault alpha Examples.yahooOneDay))
  = Return (Some [PriceRow.mk "2024-01-02" "AAPL" "AAPL" "Unknown"
                    100 101 101 101 (Some 0) 101 1 1]).
Proof. vm_compute. reflexivity. Qed.

(** ** Initialisation, again *)

(** X16. [initialize] never touches the sidecar.  When the creation of
    the data directory fails it throws and leaves the store as it is; on a
    store that has a table, when its two file-system calls succeed, it
    returns, writes nothing and leaves the table and the sidecar as they
    are; but when the existence check of the table fails, the table is
    taken for absent, and if the write that follows succeeds, the table is
    reset to what [createInitialCsv] writes (the header line and the line
    break that ends the empty list of records), whatever it held.
    [StockService.initialize] does what [initialize] does and returns
    normally whether [initialize] threw or not. *)
Theorem initialize_outcomes csvRecord w :
  let r := initialize csvRecord w in
  StockService_initialize csvRecord w
  = (match fst r with Diverge => Diverge | _ => Return tt end, snd r) /\
  fst r <> Diverge /\
  Store.metaFile (World.store (snd r)) = Store.metaFile (World.store w) /\
  (World.fsFault w (World.fsOps w) = true ->
   (exists e, fst r = Throw e) /\ World.store (snd r) = World.store w) /\
  (forall csv,
      Store.csvFile (World.store w) = Some csv ->
      World.fsFault w (World.fsOps w) = false ->
      World.fsFault w (S (World.fsOps w)) = false ->
      fst r = Return tt /\
      World.store (snd r)
      = Store.mk true (Some csv) (Store.metaFile (World.store w)) /\
      World.trace (snd r) = World.trace w) /\
  (World.fsFault w (World.fsOps w) = false ->
   World.fsFault w (S (World.fsOps w)) = true ->
   World.fsFault w (S (S (World.fsOps w))) = false ->
   fst r = Return tt /\
   Store.csvFile (World.store (snd r))
   = Some (csvHeader ++ newline ++ newline)%string).
Proof.
  cbn zeta. unfold StockService_initialize, try_catch, ret.
  rewrite initialize_eq. destruct w as [ s n ff fo an yn no tr ]. world_simpl.
  destruct (ff fo) eqn:E0.
  - cbn [fst snd]. world_simpl.
    repeat split; try discriminate; eauto.
  - cbn zeta. unfold present.
    destruct (Store.csvFile s) as [ csv0 | ] eqn:Ecsv.
    + destruct (ff (S fo)) eqn:E1; cbn [negb andb].
      * destruct (ff (S (S fo))); cbn [fst snd]; world_simpl;
          repeat split; try discriminate.
      * cbn [fst snd]. world_simpl.
        repeat split; try discriminate; congruence.
    + rewrite andb_false_r.
      destruct (ff (S (S fo))); cbn [fst snd]; world_simpl;
        repeat split; try discriminate.
Qed.

Lemma initialize_outcomes_witness :
  let w := fun faults =>
    Examples.world (Store.mk true (Some Examples.duplicated) None) 0
      faults Examples.alphaDown Examples.yahooDown in
  (fst (initialize Engine.csvRecord (w Examples.noFault)) = Return tt /\
   World.store (snd (initialize Engine.csvRecord (w Examples.noFault)))
   = Store.mk true (Some Examples.duplicated) None /\
   World.trace (snd (initialize Engine.csvRecord (w Examples.noFault))) = []) /\
  (fst (initialize Engine.csvRecord (w (fun k => Nat.eqb k 1))) = Return tt /\
   Store.csvFile
     (World.store (snd (initialize Engine.csvRecord (w (fun k => Nat.eqb k 1)))))
   = Store.csvFile Examples.initialized).
Proof.
  intros w. split.
  - destruct (initialize_outcomes Engine.csvRecord (w Examples.noFault))
      as (_ & _ & _ & _ & H & _).
    apply (H Examples.duplicated); reflexivity.
  - destruct (initialize_outcomes Engine.csvRecord (w (fun k => Nat.eqb k 1)))
      as (_ & _ & _ & _ & _ & H).
    apply H; reflexivity.
Defined.

(** ** The sidecar, read back *)

Lemma getLastUpdateInfo_eq w :
  getLastUpdateInfo w
  = if negb (World.fsFault w (World.fsOps w))
       && present LastUpdatePath (World.store w)
    then
      (Return (if World.fsFault w (S (World.fsOps w)) then None
               else match Store.metaFile (World.store w) with
                    | Some (MetaJson j) => Some j
                    | _ => None
                    end),
       World.tick_fs (World.tick_fs w))
    else (Return None, World.tick_fs w).
Proof.
  destruct w as [ s n ff fo an yn no tr ].
  unfold getLastUpdateInfo. unfold try_catch at 1. unfold bind at 1.
  rewrite fileExists_eq. world_simpl.
  destruct (negb (ff fo) && present LastUpdatePath s) eqn:E; [ | reflexivity ].
  unfold readMeta. unfold_m. world_simpl.
  destruct (ff (S fo)); [ reflexivity | ]. world_simpl.
  destruct (Store.metaFile s) as [ [ j | ] | ]; reflexivity.
Qed.

Lemma needsUpdate_snd w :
  snd (needsUpdate w)
  = if negb (World.fsFault w (World.fsOps w))
       && present LastUpdatePath (World.store w)
    then World.tick_fs (World.tick_fs w)
    else World.tick_fs w.
Proof.
  unfold needsUpdate. unfold try_catch at 1. unfold bind at 1.
  rewrite getLastUpdateInfo_eq.
  destruct (negb (World.fsFault w (World.fsOps w))
            && present LastUpdatePath (World.store w)); [ | reflexivity ].
  destruct (World.fsFault w (S (World.fsOps w))); [ reflexivity | ].
  destruct (Store.metaFile (World.store w)) as [ [ [ u | [ | ] ] | ] | ];
    reflexivity.
Qed.

(** X17. [getLastUpdateInfo] always returns, never changes the store, and
    answers [null] when there is no sidecar or when its text is not JSON.
    It reads back what [updateLastUpdateTime] wrote: after an update in an
    existing data directory whose file-system calls succeed, on a file
    system that goes on working, it returns the record with the clock of
    the update, the number of configured companies and the count of data
    points of the table. *)
Theorem getLastUpdateInfo_reads_back self w :
  (exists r, fst (getLastUpdateInfo w) = Return r /\
             (Store.metaFile (World.store w) = None \/
              Store.metaFile (World.store w) = Some MetaGarbage -> r = None)) /\
  World.store (snd (getLastUpdateInfo w)) = World.store w /\
  (Store.dirExists (World.store w) = true ->
   (forall k, World.fsFault w k = false) ->
   fst (getLastUpdateInfo (snd (updateLastUpdateTime self w)))
   = Return (Some (JsonInfo
               (UpdateInfo.mk (World.now w)
                  (Z.of_nat (length (Agent.companies self)))
                  (dataPointsOf (Store.csvFile (World.store w))))))).
Proof.
  split; [ | split ].
  - rewrite getLastUpdateInfo_eq.
    destruct (negb (World.fsFault w (World.fsOps w))
              && present LastUpdatePath (World.store w)); cbn [fst];
      [ | eauto ].
    eexists. split; [ reflexivity | ].
    intros [ H | H ]; rewrite H; destruct (World.fsFault w _); reflexivity.
  - rewrite getLastUpdateInfo_eq.
    destruct (negb (World.fsFault w (World.fsOps w))
              && present LastUpdatePath (World.store w)); reflexivity.
  - intros Hdir Hfs. rewrite updateLastUpdateTime_eq. cbn [snd].
    rewrite !Hfs, Hdir. cbn [negb andb]. rewrite getLastUpdateInfo_eq.
    world_simpl. rewrite !Hfs. reflexivity.
Qed.

Lemma getLastUpdateInfo_reads_back_witness :
  let w := Examples.world (Store.mk true (Some Examples.duplicated) None) 1000
             Examples.noFault Examples.alphaDown Examples.yahooDown in
  fst (getLastUpdateInfo (snd (updateLastUpdateTime
                                 (Examples.agent [Examples.aapl; Examples.msft]) w)))
  = Return (Some (JsonInfo (UpdateInfo.mk 1000 2 4))).
Proof.
  intros w.
  destruct (getLastUpdateInfo_reads_back
              (Examples.agent [Examples.aapl; Examples.msft]) w) as (_ & _ & H).
  rewrite H; [ vm_compute; reflexivity | reflexivity | reflexivity ].
Defined.

(** X18. [needsUpdate] fails open and only reads.  It always returns,
    and leaves the store, the clock and the trace as they are; it answers
    true when the existence check or the read of the sidecar fails, when
    there is no sidecar and when its text is not JSON.  A sidecar whose
    JSON value is truthy but holds no date makes it answer false whatever
    the clock says: the age is then NaN, which is not above 24. *)
Theorem needsUpdate_fails_open w :
  (exists b, fst (needsUpdate w) = Return b) /\
  (World.store (snd (needsUpdate w)) = World.store w /\
   World.now (snd (needsUpdate w)) = World.now w /\
   World.trace (snd (needsUpdate w)) = World.trace w) /\
  (World.fsFault w (World.fsOps w) = true \/
   World.fsFault w (S (World.fsOps w)) = true \/
   Store.metaFile (World.store w) = None \/
   Store.metaFile (World.store w) = Some MetaGarbage ->
   fst (needsUpdate w) = Return true) /\
  (Store.metaFile (World.store w) = Some (MetaJson (JsonOther true)) ->
   World.fsFault w (World.fsOps w) = false ->
   World.fsFault w (S (World.fsOps w)) = false ->
   fst (needsUpdate w) = Return false).
Proof.
  split; [ rewrite needsUpdate_fst; eauto | ].
  split.
  - rewrite needsUpdate_snd.
    destruct (negb (World.fsFault w (World.fsOps w))
              && present LastUpdatePath (World.store w)); repeat split.
  - rewrite needsUpdate_fst. split.
    + intros [ H | [ H | [ H | H ] ] ]; rewrite H; try reflexivity.
      * destruct (World.fsFault w (World.fsOps w)); [ reflexivity | ].
        destruct (Store.metaFile (World.store w)); reflexivity.
      * destruct (World.fsFault w (World.fsOps w)); reflexivity.
      * destruct (World.fsFault w (World.fsOps w)); [ reflexivity | ].
        destruct (World.fsFault w (S (World.fsOps w))); reflexivity.
    + intros -> -> ->. reflexivity.
Qed.

Lemma needsUpdate_fails_open_witness :
  let w := fun meta faults =>
    Examples.world (Store.mk true (Some Examples.duplicated) meta) (2 * DAY_MS)
      faults Examples.alphaDown Examples.yahooDown in
  let fresh := Some (MetaJson (JsonInfo (UpdateInfo.mk (2 * DAY_MS) 2 4))) in
  fst (needsUpdate (w fresh Examples.noFault)) = Return false /\
  fst (needsUpdate (w fresh (fun k => Nat.eqb k 1))) = Return true /\
  fst (needsUpdate (w (Some MetaGarbage) Examples.noFault)) = Return true /\
  fst (needsUpdate (w (Some (MetaJson (JsonOther true))) Examples.noFault))
  = Return false.
Proof.
  intros w fresh. split; [ vm_compute; reflexivity | ].
  split; [ | split ].
  - apply (needsUpdate_fails_open (w fresh (fun k => Nat.eqb k 1))).
    right. left. reflexivity.
  - apply (needsUpdate_fails_open (w (Some MetaGarbage) Examples.noFault)).
    right. right. right. reflexivity.
  - apply (needsUpdate_fails_open
             (w (Some (MetaJson (JsonOther true))) Examples.noFault));
      reflexivity.
Defined.

(** ** The fetch script *)

Section Script.
Context (parseFloat : string -> float) (toISODate : Z -> string)
        (csvRecord : PriceRow.t -> string).

Local Abbreviation script := (fetchStockData parseFloat toISODate csvRecord).
Local Abbreviation run := (fetchAllStockData parseFloat toISODate csvRecord).

(** The script once the API key is there, by what [initialize] and
    [needsUpdate] answer. *)
Lemma fetchStockData_eq fuel env self w :
  Js.truthy_str (Env.ALPHA_VANTAGE_API_KEY env) = true ->
  script fuel env self w
  = match initialize csvRecord w with
    | (Return _, w1) =>
        match fst (needsUpdate w1) with
        | Return true =>
            (match fst (run fuel env self (snd (needsUpdate w1))) with
             | Diverge => Diverge
             | _ => Return tt
             end,
             snd (run fuel env self (snd (needsUpdate w1))))
        | _ => (Return tt, snd (getLastUpdateInfo (snd (needsUpdate w1))))
        end
    | (Throw _, w1) => (Return tt, w1)
    | (Diverge, w1) => (Diverge, w1)
    end.
Proof.
  intros Hkey. unfold fetchStockData. rewrite Hkey. cbn [negb].
  unfold try_catch at 1. unfold bind at 1.
  destruct (initialize csvRecord w) as [ [ [] | e | ] w1 ]; try reflexivity.
  unfold bind at 1.
  pose proof (needsUpdate_fst w1) as Hn.
  destruct (needsUpdate w1) as [ [ [ | ] | e | ] w2 ]; cbn [fst snd] in *;
    try discriminate Hn.
  - unfold bind at 1.
    destruct (run fuel env self w2) as [ [ c | e | ] w3 ]; reflexivity.
  - unfold bind at 1.
    pose proof (getLastUpdateInfo_eq w2) as Hg.
    destruct (getLastUpdateInfo w2) as [ o w3 ]. cbn [snd].
    destruct (negb (World.fsFault w2 (World.fsOps w2))
              && present LastUpdatePath (World.store w2));
      inversion Hg; reflexivity.
Qed.

Lemma idle_refl w : idle w w.
Proof. repeat split. Qed.

Lemma idle_trans w1 w2 w3 : idle w1 w2 -> idle w2 w3 -> idle w1 w3.
Proof.
  intros (A1 & A2 & A3 & A4 & A5) (B1 & B2 & B3 & B4 & B5).
  repeat split; congruence.
Qed.

Lemma needsUpdate_idle w : idle w (snd (needsUpdate w)).
Proof.
  rewrite needsUpdate_snd.
  destruct (negb (World.fsFault w (World.fsOps w))
            && present LastUpdatePath (World.store w)); repeat split.
Qed.

Lemma getLastUpdateInfo_idle w : idle w (snd (getLastUpdateInfo w)).
Proof.
  rewrite getLastUpdateInfo_eq.
  destruct (negb (World.fsFault w (World.fsOps w))
            && present LastUpdatePath (World.store w)); repeat split.
Qed.

(** On a working file system [needsUpdate] answers false exactly on a
    fresh sidecar. *)
Lemma needsUpdate_fresh w :
  (forall k, World.fsFault w k = false) ->
  fresh w -> fst (needsUpdate w) = Return false.
Proof.
  intros Hfs Hfresh. rewrite needsUpdate_fst, !Hfs. unfold fresh in Hfresh.
  destruct (Store.metaFile (World.store w)) as [ [ [ u | [ | ] ] | ] | ];
    try contradiction; [ | reflexivity ].
  f_equal. apply bool_decide_eq_false. lia.
Qed.

Lemma needsUpdate_false_fresh w :
  (forall k, World.fsFault w k = false) ->
  fst (needsUpdate w) = Return false -> fresh w.
Proof.
  intros Hfs. rewrite needsUpdate_fst, !Hfs. unfold fresh.
  destruct (Store.metaFile (World.store w)) as [ [ [ u | [ | ] ] | ] | ];
    try discriminate; [ | intros _; exact I ].
  intros H. inversion H as [ Hb ]. apply bool_decide_eq_false in Hb. lia.
Qed.

Lemma store_eta s :
  Store.mk (Store.dirExists s) (Store.csvFile s) (Store.metaFile s) = s.
Proof. destruct s; reflexivity. Qed.

(** [initialize] on a working file system. *)
Lemma initialize_working w :
  (forall k, World.fsFault w k = false) ->
  exists w1,
    initialize csvRecord w = (Return tt, w1) /\
    (forall k, World.fsFault w1 k = false) /\
    Store.dirExists (World.store w1) = true /\
    is_Some (Store.csvFile (World.store w1)) /\
    Store.metaFile (World.store w1) = Store.metaFile (World.store w) /\
    World.now w1 = World.now w /\
    World.netOps w1 = World.netOps w /\
    (Store.dirExists (World.store w) = true ->
     is_Some (Store.csvFile (World.store w)) -> idle w w1).
Proof.
  intros Hfs. rewrite initialize_eq, !Hfs. cbn zeta. cbn [negb andb].
  unfold present. destruct w as [ s n ff fo an yn no tr ]. world_simpl.
  destruct (Store.csvFile s) as [ csv | ] eqn:Hcsv.
  - eexists. split; [ reflexivity | ]. world_simpl.
    split; [ exact Hfs | ]. split; [ reflexivity | ]. split; [ eauto | ].
    split; [ reflexivity | ]. split; [ reflexivity | ]. split; [ reflexivity | ].
    intros Hdir _. unfold idle. world_simpl.
    rewrite <- Hcsv, <- Hdir, store_eta. repeat split.
  - eexists. split; [ reflexivity | ]. world_simpl.
    split; [ exact Hfs | ]. split; [ reflexivity | ]. split; [ eauto | ].
    split; [ reflexivity | ]. split; [ reflexivity | ]. split; [ reflexivity | ].
    intros _ (? & H). discriminate H.
Qed.

(** A run that returns from a working file system with its data directory
    and table leaves a settled world. *)
Lemma run_settles fuel env self w c w' :
  run fuel env self w = (Return c, w') ->
  (forall k, World.fsFault w k = false) ->
  Store.dirExists (World.store w) = true ->
  is_Some (Store.csvFile (World.store w)) ->
  settled w'.
Proof.
  intros Hrun Hfs Hdir (csv & Hcsv).
  pose proof (fetchAllStockData_Return _ _ _ _ _ _ _ _ _ Hrun) as (wl & Hloop & Hw').
  pose proof (ingestLoop_frame parseFloat toISODate csvRecord fuel env self
                (perRequestDelayMs env) (Agent.companies self)
                (Counters.mk 0 0 0) w) as (Hff & _ & Hd).
  pose proof (ingestLoop_grows parseFloat toISODate csvRecord fuel env self
                (perRequestDelayMs env) (Agent.companies self)
                (Counters.mk 0 0 0) w csv Hcsv) as (suffix & Hgrow).
  rewrite Hloop in Hff, Hd, Hgrow. cbn [snd] in Hff, Hd, Hgrow.
  specialize (Hd Hdir).
  rewrite updateLastUpdateTime_eq in Hw'. cbn [snd] in Hw'.
  rewrite Hff, !Hfs, Hd in Hw'. cbn [negb andb] in Hw'.
  subst w'. unfold settled, fresh. world_simpl.
  split; [ intros k; rewrite Hff; apply Hfs | ].
  split; [ reflexivity | ].
  split; [ rewrite Hgrow; eauto | ].
  cbn [UpdateInfo.lastUpdate]. unfold DAY_MS. lia.
Qed.

(** From a settled world the script does nothing. *)
Lemma settled_idle fuel env self w :
  Js.truthy_str (Env.ALPHA_VANTAGE_API_KEY env) = true ->
  settled w ->
  exists w', script fuel env self w = (Return tt, w') /\ idle w w'.
Proof.
  intros Hkey (Hfs & Hdir & Hcsv & Hfresh).
  rewrite fetchStockData_eq by exact Hkey.
  destruct (initialize_working w Hfs)
    as (w1 & -> & Hfs1 & _ & _ & _ & _ & _ & Hidle).
  specialize (Hidle Hdir Hcsv).
  assert (Hfresh1 : fresh w1).
  { unfold fresh in *. destruct Hidle as (-> & -> & _). exact Hfresh. }
  rewrite (needsUpdate_fresh w1 Hfs1 Hfresh1).
  eexists. split; [ reflexivity | ].
  eapply idle_trans; [ exact Hidle | ].
  eapply idle_trans; [ apply needsUpdate_idle | apply getLastUpdateInfo_idle ].
Qed.

(** After a first run of the script that returned, on a working file
    system, the world is settled. *)
Lemma script_settles fuel env self w w1 :
  Js.truthy_str (Env.ALPHA_VANTAGE_API_KEY env) = true ->
  (forall k, World.fsFault w k = false) ->
  script fuel env self w = (Return tt, w1) ->
  settled w1.
Proof.
  intros Hkey Hfs. rewrite fetchStockData_eq by exact Hkey.
  destruct (initialize_working w Hfs)
    as (wi & -> & Hfsi & Hdiri & Hcsvi & _ & _ & _ & _).
  pose proof (needsUpdate_idle wi) as (Hs & Hn & _ & _ & Hf).
  assert (Hfs2 : forall k, World.fsFault (snd (needsUpdate wi)) k = false)
    by (intros k; rewrite Hf; apply Hfsi).
  destruct (fst (needsUpdate wi)) as [ [ | ] | e | ] eqn:Hstale.
  - destruct (run fuel env self (snd (needsUpdate wi))) as [ [ c | e | ] w3 ] eqn:Hrun;
      cbn [fst snd]; intros H; inversion H; subst.
    + eapply run_settles; [ exact Hrun | exact Hfs2 | | ]; rewrite Hs; assumption.
    + exfalso.
      pose proof (fetchAllStockData_eq parseFloat toISODate csvRecord fuel env self
                    (snd (needsUpdate wi)) Hkey) as Heq.
      rewrite Hrun in Heq.
      pose proof (ingestLoop_no_throw parseFloat toISODate csvRecord fuel env self
                    (perRequestDelayMs env) (Agent.companies self)
                    (Counters.mk 0 0 0) (snd (needsUpdate wi))) as Hno.
      destruct (ingestLoop parseFloat toISODate csvRecord fuel env self
                  (perRequestDelayMs env) (Agent.companies self)
                  (Counters.mk 0 0 0) (snd (needsUpdate wi)))
        as [ [ c | e0 | ] wl ]; try discriminate Heq.
      apply (Hno e0). reflexivity.
  - intros H. inversion H; subst. clear H.
    pose proof (getLastUpdateInfo_idle (snd (needsUpdate wi)))
      as (Hs3 & Hn3 & _ & _ & Hf3).
    pose proof (needsUpdate_false_fresh wi Hfsi Hstale) as Hfresh.
    unfold settled, fresh in *. rewrite Hs3, Hn3, Hs, Hn.
    split; [ intros k; rewrite Hf3; apply Hfs2 | ].
    repeat split; assumption.
  - rewrite needsUpdate_fst in Hstale. discriminate Hstale.
  - rewrite needsUpdate_fst in Hstale. discriminate Hstale.
Qed.

Lemma script_no_throw fuel env self w e :
  fst (script fuel env self w) <> Throw e.
Proof.
  destruct (Js.truthy_str (Env.ALPHA_VANTAGE_API_KEY env)) eqn:Hkey.
  - rewrite fetchStockData_eq by exact Hkey.
    destruct (initialize csvRecord w) as [ [ [] | e0 | ] w1 ]; try discriminate.
    destruct (fst (needsUpdate w1)) as [ [ | ] | e0 | ]; try discriminate.
    destruct (fst (run fuel env self (snd (needsUpdate w1)))); discriminate.
  - unfold fetchStockData. rewrite Hkey. discriminate.
Qed.

End Script.

(** X19. The fetch script never throws.  Without an API key it does
    nothing at all.  With the key, a failure of [initialize] ends the
    script, normally and without a fetch; when [needsUpdate] answers false
    after the initialisation nothing more happens (no request, no write,
    no sleep); and when it answers true the script runs
    [fetchAllStockData] and ends in the world this run leaves. *)
Theorem script_fetches_only_when_stale
    parseFloat toISODate csvRecord fuel env self w :
  let r := fetchStockData parseFloat toISODate csvRecord fuel env self w in
  (forall e, fst r <> Throw e) /\
  (Js.truthy_str (Env.ALPHA_VANTAGE_API_KEY env) = false -> r = (Return tt, w)) /\
  (Js.truthy_str (Env.ALPHA_VANTAGE_API_KEY env) = true ->
   (forall e w1, initialize csvRecord w = (Throw e, w1) -> r = (Return tt, w1)) /\
   (forall w1,
       initialize csvRecord w = (Return tt, w1) ->
       (fst (needsUpdate w1) = Return false ->
        fst r = Return tt /\ idle w1 (snd r)) /\
       (fst (needsUpdate w1) = Return true ->
        snd r = snd (fetchAllStockData parseFloat toISODate csvRecord fuel env self
                       (snd (needsUpdate w1))) /\
        idle w1 (snd (needsUpdate w1))))).
Proof.
  cbn zeta. split; [ intros e; apply script_no_throw | ].
  split.
  - intros Hkey. unfold fetchStockData. rewrite Hkey. reflexivity.
  - intros Hkey. rewrite fetchStockData_eq by exact Hkey. split.
    + intros e w1 ->. reflexivity.
    + intros w1 ->. split; intros ->; cbn [fst snd].
      * split; [ reflexivity | ].
        eapply idle_trans; [ apply needsUpdate_idle | apply getLastUpdateInfo_idle ].
      * split; [ reflexivity | apply needsUpdate_idle ].
Qed.

Lemma script_fetches_only_when_stale_witness :
  let fresh := Some (MetaJson (JsonInfo (UpdateInfo.mk 1000 2 4))) in
  let w := Examples.world (Store.mk true (Some Examples.duplicated) fresh) 2000
             Examples.noFault Examples.alphaTwoDays Examples.yahooOneDay in
  let r := fetchStockData Engine.parseFloat Engine.toISODate Engine.csvRecord 5
             (Examples.env None) (Examples.agent [Examples.aapl; Examples.msft]) w in
  fst r = Return tt /\
  World.store (snd r) = World.store w /\
  World.netOps (snd r) = 0%nat /\
  World.trace (snd r) = [].
Proof.
  intros fresh w r. subst r.
  destruct (script_fetches_only_when_stale Engine.parseFloat Engine.toISODate
              Engine.csvRecord 5 (Examples.env None)
              (Examples.agent [Examples.aapl; Examples.msft]) w)
    as (_ & _ & H).
  destruct (H eq_refl) as (_ & Hinit).
  destruct (Hinit (snd (initialize Engine.csvRecord w))) as (Hfresh & _);
    [ vm_compute; reflexivity | ].
  destruct Hfresh as (Hr & Hs & _ & Hn & Ht & _); [ vm_compute; reflexivity | ].
  split; [ exact Hr | ].
  split; [ rewrite Hs; vm_compute; reflexivity | ].
  split; [ rewrite Hn; vm_compute; reflexivity | ].
  rewrite Ht. vm_compute. reflexivity.
Defined.

(** X20. Run twice in a row, the script fetches at most once: after a
    first run that returned, with the API key and on a file system that
    works, a second run returns without a single request, sleep or write,
    and leaves the store and the clock as the first run left them. *)
Theorem script_second_run_idle
    parseFloat toISODate csvRecord fuel env self w w1 :
  Js.truthy_str (Env.ALPHA_VANTAGE_API_KEY env) = true ->
  (forall k, World.fsFault w k = false) ->
  fetchStockData parseFloat toISODate csvRecord fuel env self w = (Return tt, w1) ->
  exists w2,
    fetchStockData parseFloat toISODate csvRecord fuel env self w1 = (Return tt, w2) /\
    World.store w2 = World.store w1 /\
    World.now w2 = World.now w1 /\
    World.netOps w2 = World.netOps w1 /\
    World.trace w2 = World.trace w1.
Proof.
  intros Hkey Hfs Hrun.
  pose proof (script_settles parseFloat toISODate csvRecord fuel env self w w1
                Hkey Hfs Hrun) as Hsettled.
  destruct (settled_idle parseFloat toISODate csvRecord fuel env self w1
              Hkey Hsettled) as (w2 & H2 & Hs & Hn & Ho & Ht & _).
  exists w2. repeat split; assumption.
Qed.

Lemma script_second_run_idle_witness :
  let w := Examples.world Store.empty 1000 Examples.noFault
             Examples.alphaTwoDays Examples.yahooDown in
  let self := Examples.agent [Examples.aapl; Examples.msft] in
  exists w1 w2,
    fetchStockData Engine.parseFloat Engine.toISODate Engine.csvRecord 5
      (Examples.env None) self w = (Return tt, w1) /\
    World.netOps w1 = 2%nat /\
    fetchStockData Engine.parseFloat Engine.toISODate Engine.csvRecord 5
      (Examples.env None) self w1 = (Return tt, w2) /\
    World.netOps w2 = 2%nat /\
    World.store w2 = World.store w1.
Proof.
  intros w self.
  assert (Hn : World.netOps
                 (snd (fetchStockData Engine.parseFloat Engine.toISODate
                         Engine.csvRecord 5 (Examples.env None) self w)) = 2%nat)
    by (vm_compute; reflexivity).
  destruct (fetchStockData Engine.parseFloat Engine.toISODate Engine.csvRecord 5
              (Examples.env None) self w) as [ [ [] | e | ] w1 ] eqn:E;
    try (exfalso; revert E; vm_compute; discriminate).
  cbn [snd] in Hn.
  destruct (script_second_run_idle Engine.parseFloat Engine.toISODate
              Engine.csvRecord 5 (Examples.env None) self w w1 eq_refl
              (fun _ => eq_refl) E) as (w2 & H2 & Hs & _ & Ho & _).
  exists w1, w2. split; [ reflexivity | ]. split; [ exact Hn | ].
  split; [ exact H2 | ]. split; [ rewrite Ho; exact Hn | exact Hs ].
Defined.

(** ** The fallback, by its payload *)

Section Fallback.
Context (toISODate : Z -> string).

Lemma yahooLoop_object symbol quote stamps :
  forall i acc,
  exists rows,
    yahooLoop toISODate symbol (Yahoo.QuoteObject quote) i stamps acc = Return rows /\
    (length rows <= length acc + length stamps)%nat.
Proof.
  induction stamps as [ | stamp rest IH ]; intros i acc.
  - exists acc. split; [ reflexivity | simpl; lia ].
  - cbn [yahooLoop]. unfold yahooRow.
    destruct (negb (valid_time _)).
    + destruct (IH (S i) acc) as (rows & -> & H).
      exists rows. split; [ reflexivity | simpl; lia ].
    + destruct (Js.or_null (parseFloat_num (at_index (Yahoo.q_open quote) i)));
        [ destruct (Js.or_null (parseFloat_num (at_index (Yahoo.q_close quote) i))) | ].
      * match goal with
        | |- context [yahooLoop _ _ _ _ _ (acc ++ [?row])] =>
            destruct (IH (S i) (acc ++ [row])%list) as (rows & -> & H)
        end.
        exists rows. split; [ reflexivity | ].
        rewrite length_app in H. simpl in *. lia.
      * destruct (IH (S i) acc) as (rows & -> & H).
        exists rows. split; [ reflexivity | simpl; lia ].
      * destruct (IH (S i) acc) as (rows & -> & H).
        exists rows. split; [ reflexivity | simpl; lia ].
Qed.

Lemma yahooLoop_undefined symbol stamps :
  forall i acc,
    yahooLoop toISODate symbol Yahoo.QuoteUndefined i stamps acc
    = if existsb stamp_valid stamps then Throw "TypeError" else Return acc.
Proof.
  induction stamps as [ | stamp rest IH ]; intros i acc; [ reflexivity | ].
  cbn [yahooLoop existsb]. unfold yahooRow, stamp_valid.
  destruct (valid_time _); cbn [negb orb]; [ reflexivity | apply IH ].
Qed.

End Fallback.

(** X21. The fallback makes exactly one request, for the symbol as it is
    configured and the range chosen from the history depth, and never
    throws.  It answers [null] exactly when the request fails, when the
    payload has no chart result, when the quote of the result cannot be
    looked up, or when the quote is undefined while some timestamp is
    usable; with a quote object it always answers with rows, at most one
    per timestamp. *)
Theorem fetchFromYahoo_null toISODate self symbol w :
  let r := fetchFromYahoo toISODate self symbol w in
  let answer := World.yahooNet w (World.netOps w) symbol
                  (yahooRange (Agent.days self)) in
  since w (snd r) = [EvYahoo symbol (yahooRange (Agent.days self))] /\
  (exists rows, fst r = Return rows) /\
  (fst r = Return None <->
   (exists e, answer = HttpErr e) \/
   answer = HttpOk None \/
   (exists result,
       answer = HttpOk (Some result) /\
       (Yahoo.quote0 result = Yahoo.QuoteTypeError \/
        (Yahoo.quote0 result = Yahoo.QuoteUndefined /\
         existsb stamp_valid (default [] (Yahoo.timestamp result)) = true)))) /\
  (forall result quote,
      answer = HttpOk (Some result) ->
      Yahoo.quote0 result = Yahoo.QuoteObject quote ->
      exists rows,
        fst r = Return (Some rows) /\
        (length rows <= length (default [] (Yahoo.timestamp result)))%nat).
Proof.
  cbn zeta.
  destruct (fetchFromYahoo_spec toISODate self symbol w) as (r0 & Hr0 & _).
  split; [ rewrite Hr0; cbn [snd]; apply since_app; reflexivity | ].
  split; [ rewrite Hr0; eauto | ].
  clear r0 Hr0.
  unfold fetchFromYahoo, try_catch, bind, axios_get_yahoo, ret, throw, lift.
  destruct (World.yahooNet w (World.netOps w) symbol (yahooRange (Agent.days self)))
    as [ [ result | ] | e ]; cbn [fst].
  - destruct (Yahoo.quote0 result) as [ | | quote ] eqn:Eq.
    + split; [ | intros res q H Hq; inversion H; subst res;
                 rewrite Eq in Hq; discriminate Hq ].
      split; [ intros _; right; right; exists result; auto | reflexivity ].
    + rewrite yahooLoop_undefined.
      destruct (existsb stamp_valid (default [] (Yahoo.timestamp result))) eqn:Ev;
        cbn [fst].
      * split; [ | intros res q H Hq; inversion H; subst res;
                 rewrite Eq in Hq; discriminate Hq ].
        split; [ intros _; right; right; exists result; auto | reflexivity ].
      * split; [ | intros res q H Hq; inversion H; subst res;
                 rewrite Eq in Hq; discriminate Hq ].
        split; [ discriminate | ].
        intros [ (e & H) | [ H | (res & H & [ H1 | (_ & H1) ]) ] ];
          try discriminate H.
        -- inversion H; subst res. rewrite Eq in H1. discriminate H1.
        -- inversion H; subst res. rewrite Ev in H1. discriminate H1.
    + destruct (yahooLoop_object toISODate symbol quote
                  (default [] (Yahoo.timestamp result)) 0 []) as (all & -> & Hlen).
      cbn [fst]. split.
      * split; [ discriminate | ].
        intros [ (e & H) | [ H | (res & H & [ H1 | (H1 & _) ]) ] ];
          try discriminate H; inversion H; subst res; rewrite Eq in H1;
          discriminate H1.
      * intros res q H Hq. inversion H; subst res.
        eexists. split; [ reflexivity | ].
        unfold Js.slice_from. destruct (neg_num (Agent.days self));
          [ rewrite length_drop | ]; cbn [length] in Hlen; lia.
  - split; [ | intros ? ? H; discriminate H ].
    split; [ intros _; right; left; reflexivity | reflexivity ].
  - split; [ | intros ? ? H; discriminate H ].
    split; [ intros _; left; eauto | reflexivity ].
Qed.

Lemma fetchFromYahoo_null_witness :
  let run := fun yahoo =>
    fst (fetchFromYahoo Engine.toISODate (Examples.agent [Examples.aapl]) "AAPL"
           (Examples.world Examples.ready 0 Examples.noFault Examples.alphaDown yahoo)) in
  run Examples.yahooDown = Return None /\
  run (fun _ _ _ =>
         HttpOk (Some (Yahoo.mkResult Yahoo.QuoteUndefined (Some [Some 1704153600]))))
  = Return None /\
  exists rows, run Examples.yahooOneDay = Return (Some rows) /\ (length rows <= 1)%nat.
Proof.
  intros run. subst run. cbn beta. split; [ | split ].
  - apply (fetchFromYahoo_null Engine.toISODate (Examples.agent [Examples.aapl]) "AAPL").
    left. eexists. reflexivity.
  - apply (fetchFromYahoo_null Engine.toISODate (Examples.agent [Examples.aapl]) "AAPL").
    right. right. eexists. split; [ reflexivity | ]. right. split; reflexivity.
  - destruct (fetchFromYahoo_null Engine.toISODate (Examples.agent [Examples.aapl])
                "AAPL" (Examples.world Examples.ready 0 Examples.noFault
                          Examples.alphaDown Examples.yahooOneDay))
      as (_ & _ & _ & H).
    apply (H _ _ eq_refl eq_refl).
Defined.

(** An undefined quote with no timestamp at all is not [null] but an
    empty array. *)
Example undefined_quote_without_timestamps :
  fst (fetchFromYahoo Engine.toISODate (Examples.agent [Examples.aapl]) "AAPL"
         (Examples.world Examples.ready 0 Examples.noFault Examples.alphaDown
            (fun _ _ _ => HttpOk (Some (Yahoo.mkResult Yahoo.QuoteUndefined None)))))
  = Return (Some []).
Proof. reflexivity. Qed.

(** ** Filtering by period *)

(** X22. [filterByPeriod] sorts its argument in place and returns its
    first rows: when every row has a valid date, the argument is afterwards
    a rearrangement of what it was, newest first, and the result is an
    initial segment of it; filtering the result again with the same period
    changes nothing.  An empty array is returned as it is. *)
Theorem filterByPeriod_idempotent Date_parse data period :
  Forall (dated Date_parse) data ->
  let '(mutated, kept) := filterByPeriod Date_parse data period in
  mutated ≡ₚ data /\
  StronglySorted (not_older Date_parse) mutated /\
  kept `prefix_of` mutated /\
  (data = [] -> kept = []) /\
  filterByPeriod Date_parse kept period = (kept, kept).
Proof.
  intros Hdated. unfold filterByPeriod at 1.
  destruct data as [ | r data ];
    [ repeat split; try reflexivity; constructor | ].
  set (sorted := Js.sort (byDateDesc Date_parse) (r :: data)).
  assert (Hs : StronglySorted (not_older Date_parse) sorted)
    by (apply sort_desc; exact Hdated).
  assert (Hd : Forall (dated Date_parse) sorted)
    by (apply sort_Forall; exact Hdated).
  rewrite slice_to_take by apply daysToKeep_nonneg.
  set (N := Z.to_nat (daysToKeep period (length (r :: data)))).
  split; [ apply sort_perm | ]. split; [ exact Hs | ].
  split; [ apply prefix_take | ]. split; [ discriminate | ].
  unfold filterByPeriod.
  destruct (take N sorted) as [ | k kept ] eqn:Hk; [ reflexivity | ].
  rewrite <- Hk.
  rewrite sort_sorted
    by (try apply Forall_take; try apply StronglySorted_take; assumption).
  f_equal. rewrite slice_to_take by apply daysToKeep_nonneg.
  assert (Hlen : (length (take N sorted) <= N)%nat) by (rewrite length_take; lia).
  assert (Hpos : (0 < length (take N sorted))%nat) by (rewrite Hk; simpl; lia).
  assert (Hkeep : (N <= Z.to_nat (daysToKeep period (length (take N sorted))))%nat
                  \/ Z.to_nat (daysToKeep period (length (take N sorted)))
                     = length (take N sorted)).
  { subst N. unfold daysToKeep.
    repeat match goal with
           | |- context [String.eqb ?a ?b] => destruct (String.eqb a b)
           end; try (left; lia).
    right. apply Nat2Z.id. }
  destruct Hkeep as [ H | H ].
  - rewrite take_take. f_equal. lia.
  - rewrite H. apply firstn_all.
Qed.

Lemma filterByPeriod_idempotent_witness :
  let data := companyRows Examples.duplicated "AAPL" in
  let kept := snd (filterByPeriod Engine.Date_parse data "1d") in
  length data = 3%nat /\
  length kept = 1%nat /\
  filterByPeriod Engine.Date_parse kept "1d" = (kept, kept).
Proof.
  intros data kept. subst kept.
  assert (Hdated : Forall (dated Engine.Date_parse) data)
    by (apply dated_check; vm_compute; reflexivity).
  pose proof (filterByPeriod_idempotent Engine.Date_parse data "1d" Hdated) as H.
  destruct (filterByPeriod Engine.Date_parse data "1d") as [ mutated kept ] eqn:E.
  destruct H as (_ & _ & _ & _ & H). cbn [snd].
  split; [ vm_compute; reflexivity | ]. split; [ | exact H ].
  assert (Hlen : length (snd (filterByPeriod Engine.Date_parse data "1d")) = 1%nat)
    by (vm_compute; reflexivity).
  rewrite E in Hlen. exact Hlen.
Defined.

(** ** Saving without [append] *)

(** X23. [saveToCsv] with its default [append = false] replaces the
    table: in an existing data directory, when the write succeeds, the
    table is the header line followed by the records of the rows, whatever
    it held before, and the sidecar is as it was; when the record lines are
    single non-blank lines, the count of data points is then the number of
    rows; without rows the table is the one [createInitialCsv] writes.  In
    either mode a write that fails, or a missing data directory, makes
    [saveToCsv] throw; and without the data directory the store is left as
    it is. *)
Theorem saveToCsv_overwrites csvRecord rows w :
  (Store.dirExists (World.store w) = true ->
   World.fsFault w (World.fsOps w) = false ->
   exists w1,
     saveToCsv csvRecord rows false w = (Return true, w1) /\
     Store.csvFile (World.store w1)
     = Some ((csvHeader ++ newline) ++ records csvRecord rows)%string /\
     Store.metaFile (World.store w1) = Store.metaFile (World.store w) /\
     (Forall (fun r => record_line (csvRecord r)) rows ->
      nonblank_lines ((csvHeader ++ newline) ++ records csvRecord rows)
      = csvHeader :: map csvRecord rows /\
      dataPointsOf (Store.csvFile (World.store w1)) = Z.of_nat (length rows))) /\
  (forall append,
      Store.dirExists (World.store w) = false \/
      World.fsFault w (World.fsOps w) = true ->
      exists e, fst (saveToCsv csvRecord rows append w) = Throw e) /\
  (forall append,
      Store.dirExists (World.store w) = false ->
      World.store (snd (saveToCsv csvRecord rows append w)) = World.store w).
Proof.
  split; [ | split ].
  - intros Hdir Hfault. unfold saveToCsv, try_catch, bind, ret.
    rewrite writeRecords_eq, Hfault, Hdir.
    eexists. split; [ reflexivity | ]. world_simpl.
    split; [ reflexivity | ]. split; [ reflexivity | ].
    intros Hrows.
    assert (Hlines : nonblank_lines ((csvHeader ++ newline) ++ records csvRecord rows)
                     = csvHeader :: map csvRecord rows).
    { rewrite nonblank_lines_append;
        [ | exists csvHeader; reflexivity | exact Hrows ].
      reflexivity. }
    split; [ exact Hlines | ].
    unfold dataPointsOf. rewrite Hlines. cbn [length]. rewrite length_map. lia.
  - intros append H. unfold saveToCsv, try_catch, bind, ret, throw.
    rewrite writeRecords_eq.
    destruct (World.fsFault w (World.fsOps w)) eqn:Hf; cbn [fst snd];
      [ eauto | ].
    destruct H as [ H | H ]; [ | discriminate H ].
    rewrite H. cbn [fst snd]. eauto.
  - intros append H. unfold saveToCsv, try_catch, bind, ret, throw.
    rewrite writeRecords_eq, H.
    destruct (World.fsFault w (World.fsOps w)); reflexivity.
Qed.

Lemma saveToCsv_overwrites_witness :
  let w := Examples.world (Store.mk true (Some Examples.duplicated) None) 0
             Examples.noFault Examples.alphaDown Examples.yahooDown in
  (exists w1,
      saveToCsv Engine.csvRecord Examples.aaplTwoDays false w = (Return true, w1) /\
      dataPointsOf (Store.csvFile (World.store w)) = 4 /\
      dataPointsOf (Store.csvFile (World.store w1)) = 2) /\
  (exists w0,
      saveToCsv Engine.csvRecord [] false w = (Return true, w0) /\
      Store.csvFile (World.store w0) = Store.csvFile Examples.initialized).
Proof.
  intros w. split.
  - destruct (saveToCsv_overwrites Engine.csvRecord Examples.aaplTwoDays w)
      as (H & _).
    destruct (H eq_refl eq_refl) as (w1 & Hsave & _ & _ & Hcount).
    exists w1. split; [ exact Hsave | ]. split; [ vm_compute; reflexivity | ].
    apply Hcount. repeat constructor; vm_compute; discriminate.
  - destruct (saveToCsv_overwrites Engine.csvRecord [] w) as (H & _).
    destruct (H eq_refl eq_refl) as (w0 & Hsave & Hcsv & _).
    exists w0. split; [ exact Hsave | ]. rewrite Hcsv. reflexivity.
Defined.
